(** * DocuMind: the multi-model CAD drawing analyzer

    A shallow embedding of [backend/app/cad/multi_model_analyzer.py]
    (class [MultiModelCADAnalyzer]) and the properties its design
    document states about it.

    Conventions of the embedding.
    - A Python [str] is a [string]; [len], slicing and [upper] work
      character by character (one [ascii] per character, which is exact
      on ASCII text; the glyphs that decorate the console messages are
      kept as their UTF-8 bytes).
    - A Python [float] is an IEEE-754 binary64 value, computed with the
      standard library's [SpecFloat] at precision 53 and [emax] 1024.
    - A [dict] that is used as a map is a [gmap]; a [dict] whose
      insertion order is observable is an association list updated in
      place ([dict_set]); a [dict] with a fixed set of typed keys is a
      record of optional fields.
    - A value that is a [str] or [None] (the text of a Gemini response,
      the content of a chat completion) is an [option string].
    - Statements run in a monad that threads the console, the clock and
      the log of remote requests, and that can raise.
    - The image codec and the two remote services are outside the
      program: they are fields of a [World]. A call of a remote service
      answers a text, answers [None], or raises. *)

From Stdlib Require Import ZArith String Ascii List Lia Permutation.
From Stdlib Require Import DecimalString Floats.SpecFloat.
From stdpp Require Import base option list strings gmap.
Import ListNotations.

Local Open Scope string_scope.
Local Open Scope list_scope.
Local Open Scope stdpp_scope.
#[local] Set Warnings "-register-all".

(** ** Python built-ins used by the analyzer *)

Module Py.

(** *** Exceptions and results *)

(** An exception: its class name and [str(e)]. *)
Inductive exn : Type :=
| Exception (cls : string) (message : string).

Definition str_exn (e : exn) : string :=
  match e with Exception _ m => m end.

Inductive Result (A : Type) : Type :=
| Ok (a : A)
| Raise (e : exn).
Arguments Ok {A} a.
Arguments Raise {A} e.

(** *** Strings *)

Definition upper_char (c : ascii) : ascii :=
  let n := nat_of_ascii c in
  if (97 <=? n)%nat && (n <=? 122)%nat then ascii_of_nat (n - 32) else c.

(** [s.upper()] *)
Fixpoint upper (s : string) : string :=
  match s with
  | EmptyString => EmptyString
  | String c r => String (upper_char c) (upper r)
  end.

(** [s[:n]] *)
Definition take_str (n : nat) (s : string) : string := substring 0 n s.

(** [len(s)] *)
Definition len (s : string) : nat := String.length s.

(** [str(n)] for a non-negative integer *)
Definition str_nat (n : nat) : string := NilZero.string_of_uint (Nat.to_uint n).

(** [c * n] *)
Fixpoint repeat_str (c : string) (n : nat) : string :=
  match n with
  | O => ""
  | S k => c +:+ repeat_str c k
  end.

(** [sep.join(l)] *)
Definition join (sep : string) (l : list string) : string := String.concat sep l.

(** The line feed of ["\n"]. *)
Definition nl : string := String (ascii_of_nat 10) EmptyString.

(** The error of [len(None)]. *)
Definition no_len : exn :=
  Exception "TypeError" "object of type 'NoneType' has no len()".

(** [len(x)] for a [str] or [None] *)
Definition len_opt (x : option string) : Result nat :=
  match x with
  | Some s => Ok (len s)
  | None => Raise no_len
  end.

(** [f"{x}"] for a [str] or [None] *)
Definition format_opt (x : option string) : string :=
  match x with
  | Some s => s
  | None => "None"
  end.

(** The index of the first [None] of a list, counted from [i]. *)
Fixpoint first_none (i : nat) (l : list (option string)) : option nat :=
  match l with
  | [] => None
  | None :: _ => Some i
  | Some _ :: r => first_none (S i) r
  end.

(** The items of a list that are a [str]. *)
Fixpoint texts (l : list (option string)) : list string :=
  match l with
  | [] => []
  | Some s :: r => s :: texts r
  | None :: r => texts r
  end.

(** [sep.join(l)] for a list whose items are a [str] or [None]: the first
    [None] raises. *)
Definition join_opt (sep : string) (l : list (option string)) : Result string :=
  match first_none 0 l with
  | Some i =>
      Raise (Exception "TypeError"
               ("sequence item " +:+ str_nat i
                +:+ ": expected str instance, NoneType found"))
  | None => Ok (join sep (texts l))
  end.

(** Truth value of a [str]. *)
Definition truthy_str (s : string) : bool :=
  match s with EmptyString => false | _ => true end.

(** Truth value of an [Optional[str]]. *)
Definition truthy (o : option string) : bool :=
  match o with Some s => truthy_str s | None => false end.

(** [a or b] on [Optional[str]] *)
Definition or_else (a b : option string) : option string :=
  if truthy a then a else b.

(** *** Ordered dictionaries (insertion order is kept on update) *)

Fixpoint dict_set {V : Type} (k : string) (v : V) (d : list (string * V))
  : list (string * V) :=
  match d with
  | [] => [(k, v)]
  | (k', v') :: r =>
      if String.eqb k k' then (k', v) :: r else (k', v') :: dict_set k v r
  end.

Fixpoint dict_get {V : Type} (k : string) (d : list (string * V)) : option V :=
  match d with
  | [] => None
  | (k', v') :: r => if String.eqb k k' then Some v' else dict_get k r
  end.

Definition keys {V : Type} (d : list (string * V)) : list string := map fst d.

(** *** Floats (binary64) *)

Definition float : Type := spec_float.

(** [float(z)], rounded to nearest even when [z] needs more than 53 bits *)
Definition float_of_int (z : Z) : float := binary_normalize 53 1024 z 0 false.

(** A decimal literal [n/d] such as [0.4]: the nearest binary64 value. *)
Definition float_lit (n d : Z) : float :=
  SFdiv 53 1024 (float_of_int n) (float_of_int d).

(** [a / b] on two integers (true division) *)
Definition truediv (a b : Z) : Result float :=
  if (b =? 0)%Z then Raise (Exception "ZeroDivisionError" "division by zero")
  else Ok (SFdiv 53 1024 (float_of_int a) (float_of_int b)).

(** [n * x] for an integer [n] and a float [x] *)
Definition mul_int_float (n : Z) (x : float) : float :=
  SFmul 53 1024 (float_of_int n) x.

(** [int(x)]: truncation towards zero *)
Definition int_of_float (x : float) : Result Z :=
  match x with
  | S754_zero _ => Ok 0%Z
  | S754_finite s m e =>
      let a := match e with
               | Zneg p => Z.shiftr (Zpos m) (Zpos p)
               | _ => Z.shiftl (Zpos m) e
               end in
      Ok (if s then Z.opp a else a)
  | S754_infinity _ =>
      Raise (Exception "OverflowError" "cannot convert float infinity to integer")
  | S754_nan =>
      Raise (Exception "ValueError" "cannot convert float NaN to integer")
  end.

(** *** base64 *)

Definition b64_alphabet : string :=
  "ABCDEFGHIJKLMNOPQRSTUVWXYZabcdefghijklmnopqrstuvwxyz0123456789+/".

Definition b64_char (n : N) : string :=
  match String.get (N.to_nat n) b64_alphabet with
  | Some c => String c EmptyString
  | None => ""
  end.

(** [base64.b64encode(bs).decode('utf-8')] *)
Fixpoint b64encode (bs : list Byte.byte) : string :=
  match bs with
  | [] => ""
  | [a] =>
      let x := Byte.to_N a in
      b64_char (N.shiftr x 2)
      +:+ b64_char (N.shiftl (N.land x 3) 4)
      +:+ "=="
  | [a; b] =>
      let x := Byte.to_N a in
      let y := Byte.to_N b in
      b64_char (N.shiftr x 2)
      +:+ b64_char (N.lor (N.shiftl (N.land x 3) 4) (N.shiftr y 4))
      +:+ b64_char (N.shiftl (N.land y 15) 2)
      +:+ "="
  | a :: b :: c :: rest =>
      let x := Byte.to_N a in
      let y := Byte.to_N b in
      let z := Byte.to_N c in
      b64_char (N.shiftr x 2)
      +:+ b64_char (N.lor (N.shiftl (N.land x 3) 4) (N.shiftr y 4))
      +:+ b64_char (N.lor (N.shiftl (N.land y 15) 2) (N.shiftr z 6))
      +:+ b64_char (N.land z 63)
      +:+ b64encode rest
  end.

End Py.
Import Py.

(** ** Data model *)

(** One entry of the class attribute [MODELS]. [model_notes] is [None]
    when the entry has no ['notes'] key. *)
Record ModelDescriptor : Type := {
  model_name : string;
  model_provider : string;
  model_capabilities : list string;
  model_free : bool;
  model_context : string;
  model_notes : option string
}.

(** [MultiModelCADAnalyzer.MODELS] *)
Definition MODELS : gmap string ModelDescriptor :=
  list_to_map [
    ("gemini-2.5-flash",
      {| model_name := "Gemini 2.5 Flash"; model_provider := "gemini";
         model_capabilities := ["vision"; "fast"]; model_free := true;
         model_context := "1M tokens"; model_notes := None |});
    ("gemini-2.5-pro",
      {| model_name := "Gemini 2.5 Pro"; model_provider := "gemini";
         model_capabilities := ["vision"; "reasoning"; "advanced"]; model_free := false;
         model_context := "2M tokens"; model_notes := None |});
    ("xiaomi/mimo-v2-flash:free",
      {| model_name := "Xiaomi MiMo V2 Flash"; model_provider := "openrouter";
         model_capabilities := ["vision"; "fast"]; model_free := true;
         model_context := "128K tokens";
         model_notes := Some "Fast multimodal, good for quick analysis" |});
    ("deepseek/deepseek-r1",
      {| model_name := "DeepSeek R1"; model_provider := "openrouter";
         model_capabilities := ["reasoning"; "advanced"]; model_free := false;
         model_context := "64K tokens";
         model_notes := Some "Excellent reasoning, chain-of-thought analysis" |});
    ("nvidia/nemotron-nano-12b-v2-vl:free",
      {| model_name := "NVIDIA Nemotron Nano VL"; model_provider := "openrouter";
         model_capabilities := ["vision"; "technical"]; model_free := true;
         model_context := "32K tokens";
         model_notes := Some "Optimized for technical diagrams" |});
    ("qwen/qwen3-235b-a22b",
      {| model_name := "Qwen 3 235B"; model_provider := "openrouter";
         model_capabilities := ["reasoning"; "advanced"]; model_free := false;
         model_context := "32K tokens";
         model_notes := Some "Large model, excellent for detailed analysis" |})
  ].

(** A [PIL.Image.Image]: its mode, its [(width, height)] and its raster. *)
Record Image : Type := {
  mode : string;
  size : Z * Z;
  raster : list Byte.byte
}.

(** JSON values of a request body. *)
Inductive Json : Type :=
| JNull
| JBool (b : bool)
| JInt (z : Z)
| JFloat (x : float)
| JStr (s : string)
| JList (l : list Json)
| JDict (kv : list (string * Json)).

(** [types.Part] *)
Inductive Part : Type :=
| Part_from_bytes (data : list Byte.byte) (mime_type : string)
| Part_from_text (text : string).

(** [types.GenerateContentConfig] *)
Record GenerateContentConfig : Type := {
  temperature : float;
  top_p : float;
  top_k : Z;
  max_output_tokens : Z
}.

(** [genai.Client(api_key=...)] *)
Record GenaiClient : Type := { client_api_key : string }.

(** What leaves the process. *)
Inductive Request : Type :=
| GenerateContent (client : GenaiClient) (model : string) (contents : list Part)
                  (config : GenerateContentConfig)
| Post (timeout : float) (url : string) (headers : list (string * string)) (json : Json).

(** What a run does that can be seen from outside, in order. *)
Inductive Event : Type :=
| Print (line : string)
| Sleep (seconds : Z)
| Send (req : Request).

(** The summary [dict]: every key the code ever stores, absent or present.
    The value of ['executive_summary'] is what the adapter answered: a
    [str] or [None]. *)
Record Summary : Type := {
  executive_summary : option (option string);
  total_analysis_length : option nat;
  synthesis_success : option bool;
  error : option string
}.

(** [{}] *)
Definition empty_summary : Summary :=
  {| executive_summary := None; total_analysis_length := None;
     synthesis_success := None; error := None |}.

(** One element of [results['errors']]: [{'pass': ..., 'error': ...}]. *)
Record Failure : Type := {
  failed_pass : string;
  failed_error : string
}.

(** The [results] dictionary of [comprehensive_analysis]. [model_info] is
    [None] for [{}]. *)
Record AnalysisResult : Type := {
  image_path : string;
  model_used : string;
  model_info : option ModelDescriptor;
  analyses : list (string * option string);
  summary : Summary;
  errors : list Failure
}.

(** The instance attributes set by [__init__]. *)
Record MultiModelCADAnalyzer : Type := {
  gemini_api_key : string;
  openrouter_api_key : option string;
  gemini_client : GenaiClient;
  openrouter_base : string;
  analysis_passes : list (string * string)
}.

(** ** The outside world *)

(** The collaborators the analyzer does not implement: the image codec
    (Pillow), the process environment and the two remote services.
    Pillow's operations act on the raster; what they do to the mode and
    the size is written out in [convert], [enhance], [resize] below. *)
Record World : Type := {
  (** [Image.open(path)], decoded: the image, or the error the codec
      raises for a file it cannot read or process *)
  image_open : string -> Result Image;
  (** raster of [img.convert(mode)] *)
  convert_raster : string -> Image -> list Byte.byte;
  (** raster of [ImageEnhance.Contrast(img).enhance(factor)] *)
  contrast_raster : float -> Image -> list Byte.byte;
  (** raster of [img.resize(size, Image.Resampling.LANCZOS)] *)
  lanczos_raster : Z * Z -> Image -> list Byte.byte;
  (** bytes written by [img.save(buffer, format=..., quality=...)] *)
  encode : string -> Z -> Image -> list Byte.byte;
  (** [os.getenv] *)
  getenv : string -> option string;
  (** What the call returns for the request sent after [n] earlier ones:
      the text of the answer ([response.text], or the content of the first
      choice), which can be [None], or the error raised on the way. *)
  respond : nat -> Request -> Result (option string)
}.

(** ** Statements: results, events and the count of requests sent *)

Fixpoint sends (evs : list Event) : nat :=
  match evs with
  | [] => 0
  | Send _ :: r => S (sends r)
  | _ :: r => sends r
  end.

(** A statement, started after [n] requests were sent, yields a result
    and the events it caused. *)
Definition M (A : Type) : Type := nat -> Result A * list Event.

Definition ret {A} (a : A) : M A := fun _ => (Ok a, []).

Definition bind {A B} (f : A -> M B) (m : M A) : M B :=
  fun n =>
    match m n with
    | (Ok a, evs) => let '(r, evs') := f a (sends evs + n) in (r, evs ++ evs')
    | (Raise e, evs) => (Raise e, evs)
    end.

#[global] Instance M_ret : MRet M := @ret.
#[global] Instance M_bind : MBind M := @bind.

(** [raise e] *)
Definition raise {A} (e : exn) : M A := fun _ => (Raise e, []).

(** [try: body  except Exception as e: handler(e)] *)
Definition try_except {A} (body : M A) (handler : exn -> M A) : M A :=
  fun n =>
    match body n with
    | (Ok a, evs) => (Ok a, evs)
    | (Raise e, evs) =>
        let '(r, evs') := handler e (sends evs + n) in (r, evs ++ evs')
    end.

(** A statement with its exception, if it raises one, as a value. *)
Definition attempt {A} (m : M A) : M (Result A) :=
  fun n => let '(r, evs) := m n in (Ok r, evs).

Definition lift {A} (r : Result A) : M A := fun _ => (r, []).

(** [print(line)] *)
Definition print (line : string) : M unit := fun _ => (Ok tt, [Print line]).

(** [time.sleep(seconds)] *)
Definition sleep (seconds : Z) : M unit := fun _ => (Ok tt, [Sleep seconds]).

(** ** The analyzer *)

(** [_get_overview_prompt] *)
Definition _get_overview_prompt : string :=
  "Analyze this CAD drawing and provide a comprehensive overview:

1. **Drawing Type & Purpose**: What type of drawing is this? What is its primary purpose?
2. **Overall Layout**: Describe the composition, organization, and structure.
3. **Key Elements**: List the 5-10 most important elements visible.
4. **Complexity**: Rate complexity (Simple/Moderate/Complex/Very Complex) and explain why.
5. **Industry Context**: What industry would use this?

Be detailed and technical.".

(** [_get_technical_prompt] *)
Definition _get_technical_prompt : string :=
  "Provide detailed technical analysis:

1. **Dimensions & Scale**: All visible dimensions, units, scale indicators
2. **Line Types**: Different line types (solid, dashed, center, hidden)
3. **Annotations**: All text, labels, callouts, title blocks
4. **Symbols**: Standard symbols, drawing standards (ISO, ANSI, etc.)
5. **Views**: Projection method, all views shown, section indicators

Be extremely thorough.".

(** [_get_components_prompt] *)
Definition _get_components_prompt : string :=
  "Analyze components and features:

1. **Component Inventory**: List every distinct component/part
2. **Geometric Features**: Shapes, holes, slots, chamfers, fillets
3. **Materials**: Material callouts, hatch patterns, finish indicators
4. **Structure**: Assemblies, sub-assemblies, relationships
5. **Special Features**: Unique or notable features

Provide complete technical inventory.".

(** [_get_measurements_prompt] *)
Definition _get_measurements_prompt : string :=
  "Extract all measurements and specifications:

1. **Dimensional Data**: ALL dimensions with units and tolerances
2. **Critical Dimensions**: Most important dimensions
3. **Coordinates**: Coordinate systems, datum references, grids
4. **Quantities**: Counts, areas, volumes
5. **Specifications**: Weights, capacities, ratings, quality requirements

Create comprehensive dimensional database.".

(** [_get_quality_prompt] *)
Definition _get_quality_prompt : string :=
  "Assess quality and completeness:

1. **Clarity**: Rate line clarity, text readability (1-10)
2. **Completeness**: All necessary views, dimensions, details included?
3. **Standards**: Follows drafting standards correctly?
4. **Issues**: Errors, inconsistencies, conflicts, ambiguities
5. **Recommendations**: Improvements needed

Professional quality assessment.".

(** The text of [synthesis_prompt] before and after [{combined}]. *)
Definition synthesis_prompt_head : string :=
  "Based on these CAD drawing analyses, create a concise executive summary:

".

Definition synthesis_prompt_tail : string :=
  "

Provide:
1. **Drawing Identity**: Type, purpose, application
2. **Key Specifications**: Most critical dimensions/specs
3. **Notable Features**: Top 5-7 important elements
4. **Technical Assessment**: Quality and completeness rating
5. **Critical Information**: Must-know details

Be concise but complete.".

Section Analyzer.

(** The class attribute [MODELS] as the methods see it through [self];
    the table of the source is [MODELS] above. *)
Variable registry : gmap string ModelDescriptor.

Variable world : World.

(** *** Pillow, as far as mode and size go *)

(** [img.convert(m)], for an image whose mode Pillow converts to [m]
    (an image the codec cannot process is one [image_open] refuses). *)
Definition convert (m : string) (img : Image) : Image :=
  {| mode := m; size := size img; raster := convert_raster world m img |}.

(** [ImageEnhance.Contrast(img).enhance(factor)], for an image that has
    pixels. *)
Definition enhance (factor : float) (img : Image) : Image :=
  {| mode := mode img; size := size img; raster := contrast_raster world factor img |}.

(** [img.resize(new_size, Image.Resampling.LANCZOS)]: Pillow refuses a
    size with a side below one. *)
Definition resize (new_size : Z * Z) (img : Image) : Result Image :=
  if ((fst new_size <? 1) || (snd new_size <? 1))%Z then
    Raise (Exception "ValueError" "height and width must be > 0")
  else
    Ok {| mode := mode img; size := new_size;
          raster := lanczos_raster world new_size img |}.

(** [buffer = BytesIO(); img.save(buffer, format=..., quality=...); buffer.getvalue()] *)
Definition save (format : string) (quality : Z) (img : Image) : list Byte.byte :=
  encode world format quality img.

(** [client.models.generate_content(...).text], and [client.post(...)]
    followed by [raise_for_status], [json] and the first choice's content. *)
Definition send (req : Request) : M (option string) :=
  fun n => (respond world n req, [Send req]).

(** *** [__init__] *)

Definition __init__ (gemini_api_key : string) (openrouter_api_key : option string)
  : MultiModelCADAnalyzer :=
  {| gemini_api_key := gemini_api_key;
     openrouter_api_key :=
       or_else openrouter_api_key (getenv world "OPENROUTER_API_KEY");
     gemini_client := {| client_api_key := gemini_api_key |};
     openrouter_base := "https://openrouter.ai/api/v1";
     analysis_passes :=
       [ ("overview", _get_overview_prompt);
         ("technical", _get_technical_prompt);
         ("components", _get_components_prompt);
         ("measurements", _get_measurements_prompt);
         ("quality", _get_quality_prompt) ] |}.

(** *** [preprocess_image] *)

Definition preprocess_image (self : MultiModelCADAnalyzer) (image_path : string)
  : M (list Byte.byte) :=
  img ← lift (image_open world image_path);
  let img := if negb (String.eqb (mode img) "RGB") then convert "RGB" img else img in
  let img := enhance (float_lit 15 10) img in
  let max_size := 4096%Z in
  img ← (if (max_size <? Z.max (fst (size img)) (snd (size img)))%Z then
           ratio ← lift (truediv max_size (Z.max (fst (size img)) (snd (size img))));
           new_width ← lift (int_of_float (mul_int_float (fst (size img)) ratio));
           new_height ← lift (int_of_float (mul_int_float (snd (size img)) ratio));
           lift (resize (new_width, new_height) img)
         else mret img);
  mret (save "PNG" 95 img).

(** *** [analyze_with_gemini] *)

(** The [config=] argument of [generate_content]. *)
Definition generation_config : GenerateContentConfig :=
  {| temperature := float_lit 4 10;
     top_p := float_lit 95 100;
     top_k := 40;
     max_output_tokens := 8192 |}.

Definition analyze_with_gemini (self : MultiModelCADAnalyzer)
    (image_bytes : list Byte.byte) (prompt model_id : string) : M (option string) :=
  let image_part := Part_from_bytes image_bytes "image/png" in
  let text_part := Part_from_text prompt in
  send (GenerateContent (gemini_client self) model_id [image_part; text_part]
          generation_config).

(** *** [analyze_with_openrouter] *)

(** [model_info.get('capabilities', [])] for [model_info = MODELS.get(model_id, {})] *)
Definition capabilities_of (model_id : string) : list string :=
  match registry !! model_id with
  | Some d => model_capabilities d
  | None => []
  end.

(** The [messages] list of the request. *)
Definition messages (image_bytes : list Byte.byte) (prompt model_id : string) : Json :=
  let image_b64 := b64encode image_bytes in
  let has_vision := existsb (String.eqb "vision") (capabilities_of model_id) in
  if has_vision then
    JList [ JDict [
      ("role", JStr "user");
      ("content", JList [
         JDict [ ("type", JStr "text"); ("text", JStr prompt) ];
         JDict [ ("type", JStr "image_url");
                 ("image_url",
                   JDict [ ("url", JStr ("data:image/png;base64," +:+ image_b64)) ]) ] ]) ] ]
  else
    JList [ JDict [
      ("role", JStr "user");
      ("content",
        JStr ("Based on this CAD drawing analysis prompt:" +:+ nl +:+ nl +:+ prompt
              +:+ nl +:+ nl +:+ "Provide a detailed technical response.")) ] ].

(** The [json=] argument of [client.post]. *)
Definition request_body (image_bytes : list Byte.byte) (prompt model_id : string) : Json :=
  JDict [ ("model", JStr model_id);
          ("messages", messages image_bytes prompt model_id);
          ("temperature", JFloat (float_lit 4 10));
          ("max_tokens", JInt 8192) ].

Definition analyze_with_openrouter (self : MultiModelCADAnalyzer)
    (image_bytes : list Byte.byte) (prompt model_id : string) : M (option string) :=
  if negb (truthy (openrouter_api_key self)) then
    raise (Exception "ValueError" "OpenRouter API key not configured")
  else
    let headers :=
      [ ("Authorization", "Bearer " +:+ default "None" (openrouter_api_key self));
        ("Content-Type", "application/json");
        ("HTTP-Referer", "https://documind.app");
        ("X-Title", "DocuMind CAD Analyzer") ] in
    send (Post (float_of_int 120) (openrouter_base self +:+ "/chat/completions") headers
            (request_body image_bytes prompt model_id)).

(** *** [_generate_synthesis] *)

Definition combined_of (analyses : list (string * option string)) : string :=
  join (nl +:+ nl)
    (map (fun '(name, content) =>
            "=== " +:+ upper name +:+ " ===" +:+ nl +:+ format_opt content)
         analyses).

Definition synthesis_prompt_of (analyses : list (string * option string)) : string :=
  synthesis_prompt_head +:+ combined_of analyses +:+ synthesis_prompt_tail.

(** The adapter call at the head of the [try] block of the synthesis. *)
Definition invoke_synthesis (self : MultiModelCADAnalyzer) (provider : string)
    (image_bytes : list Byte.byte) (synthesis_prompt model_id : string)
  : M (option string) :=
  if String.eqb provider "gemini" then
    analyze_with_gemini self image_bytes synthesis_prompt model_id
  else
    analyze_with_openrouter self image_bytes synthesis_prompt model_id.

Definition _generate_synthesis (self : MultiModelCADAnalyzer)
    (analyses : list (string * option string)) (model_id provider : string)
    (image_bytes : list Byte.byte) : M Summary :=
  let combined := combined_of analyses in
  let synthesis_prompt := synthesis_prompt_of analyses in
  try_except
    (summary ← invoke_synthesis self provider image_bytes synthesis_prompt model_id;
     mret {| executive_summary := Some summary;
             total_analysis_length := Some (len combined);
             synthesis_success := Some true;
             error := None |})
    (fun e =>
       mret {| executive_summary := Some (Some "Synthesis failed");
               total_analysis_length := None;
               synthesis_success := Some false;
               error := Some (str_exn e) |}).

(** *** [comprehensive_analysis] *)

Definition set_analysis (pass_name : string) (analysis : option string)
    (results : AnalysisResult) : AnalysisResult :=
  {| image_path := image_path results; model_used := model_used results;
     model_info := model_info results;
     analyses := dict_set pass_name analysis (analyses results);
     summary := summary results; errors := errors results |}.

Definition append_error (pass_name error_msg : string) (results : AnalysisResult)
  : AnalysisResult :=
  {| image_path := image_path results; model_used := model_used results;
     model_info := model_info results; analyses := analyses results;
     summary := summary results;
     errors := errors results ++ [ {| failed_pass := pass_name; failed_error := error_msg |} ] |}.

Definition set_summary (s : Summary) (results : AnalysisResult) : AnalysisResult :=
  {| image_path := image_path results; model_used := model_used results;
     model_info := model_info results; analyses := analyses results;
     summary := s; errors := errors results |}.

(** The adapter call at the head of the [try] block of a pass. *)
Definition invoke (self : MultiModelCADAnalyzer) (provider : string)
    (image_bytes : list Byte.byte) (prompt model_id : string) : M (option string) :=
  if String.eqb provider "gemini" then
    analyze_with_gemini self image_bytes prompt model_id
  else if String.eqb provider "openrouter" then
    analyze_with_openrouter self image_bytes prompt model_id
  else
    raise (Exception "ValueError" ("Unknown provider: " +:+ provider)).

Definition pass_banner (idx total_passes : nat) (pass_name : string) : string :=
  "üéØ Pass " +:+ str_nat idx +:+ "/" +:+ str_nat total_passes +:+ ": "
  +:+ upper pass_name +:+ "...".

(** The completion line of a pass whose answer has [chars] characters. *)
Definition pass_complete_format (pass_name : string) (chars : nat) : string :=
  "   ‚úÖ " +:+ pass_name +:+ " complete (" +:+ str_nat chars +:+ " chars)".

Definition pass_complete_line (pass_name analysis : string) : string :=
  pass_complete_format pass_name (len analysis).

Definition pass_failed_line (pass_name error_msg : string) : string :=
  "   ‚ùå " +:+ pass_name +:+ " failed: " +:+ take_str 100 error_msg.

Definition synthesis_banner : string := "üîÑ Generating synthesis...".

(** The [except] block of a pass, run on [results] as the [try] block
    left them. *)
Definition record_failure (pass_name : string) (e : exn) (results : AnalysisResult)
  : M AnalysisResult :=
  let error_msg := str_exn e in
  let results := append_error pass_name error_msg results in
  print (pass_failed_line pass_name error_msg);;
  mret results.

(** One turn of the loop over [self.analysis_passes.items()]. Two
    statements of the [try] block can raise: the adapter call, before
    anything is stored, and [len(analysis)] in the completion line, after
    the answer has been stored in [results['analyses']]. [results] is
    updated in place, so the handler works on it as the block left it. *)
Definition run_pass (self : MultiModelCADAnalyzer) (provider : string)
    (image_bytes : list Byte.byte) (model_id : string) (total_passes idx : nat)
    (pass_name prompt : string) (results : AnalysisResult) : M AnalysisResult :=
  print (pass_banner idx total_passes pass_name);;
  results ←
    (called ← attempt (invoke self provider image_bytes prompt model_id);
     match called with
     | Raise e => record_failure pass_name e results
     | Ok analysis =>
         let results := set_analysis pass_name analysis results in
         match len_opt analysis with
         | Raise e => record_failure pass_name e results
         | Ok chars =>
             print (pass_complete_format pass_name chars);;
             mret results
         end
     end);
  (if (idx <? total_passes)%nat then sleep 1 else mret tt);;
  mret results.

(** [for idx, (pass_name, prompt) in enumerate(items, idx): ...] *)
Fixpoint run_passes (self : MultiModelCADAnalyzer) (provider : string)
    (image_bytes : list Byte.byte) (model_id : string) (total_passes idx : nat)
    (items : list (string * string)) (results : AnalysisResult) : M AnalysisResult :=
  match items with
  | [] => mret results
  | (pass_name, prompt) :: rest =>
      results ← run_pass self provider image_bytes model_id total_passes idx
                  pass_name prompt results;
      run_passes self provider image_bytes model_id total_passes (S idx) rest results
  end.

(** [model_info.get('provider', 'gemini')] for [model_info = MODELS.get(model_id, {})] *)
Definition provider_of (model_id : string) : string :=
  match registry !! model_id with
  | Some d => model_provider d
  | None => "gemini"
  end.

(** The console lines of [comprehensive_analysis]. *)
Definition starting_line : string :=
  nl +:+ "üîç Starting comprehensive CAD analysis...".

Definition model_line (model_id : string) : string :=
  "üìä Model: "
  +:+ match registry !! model_id with
      | Some d => model_name d
      | None => model_id
      end.

Definition preprocessing_line : string := "üì∏ Preprocessing image...".

Definition synthesis_failed_line (e : exn) : string :=
  "   ‚ö†Ô∏è  Synthesis failed: " +:+ str_exn e.

Definition complete_line (results : AnalysisResult) : string :=
  "‚ú® Analysis complete! " +:+ str_nat (length (analyses results))
  +:+ " passes successful." +:+ nl.

(** [if results['analyses']: ...], the block that generates the synthesis. *)
Definition synthesis_stage (self : MultiModelCADAnalyzer) (provider : string)
    (image_bytes : list Byte.byte) (model_id : string) (results : AnalysisResult)
  : M AnalysisResult :=
  match analyses results with
  | [] => mret results
  | _ :: _ =>
      print synthesis_banner;;
      try_except
        (s ← _generate_synthesis self (analyses results) model_id provider image_bytes;
         mret (set_summary s results))
        (fun e =>
           print (synthesis_failed_line e);;
           mret (set_summary
                   {| executive_summary := Some (Some "Synthesis generation failed");
                      total_analysis_length := None;
                      synthesis_success := None;
                      error := None |} results))
  end.

Definition comprehensive_analysis (self : MultiModelCADAnalyzer)
    (png_path model_id : string) : M AnalysisResult :=
  print starting_line;;
  print (model_line model_id);;
  print preprocessing_line;;
  image_bytes ← preprocess_image self png_path;
  let results :=
    {| image_path := png_path;
       model_used := model_id;
       model_info := registry !! model_id;
       analyses := [];
       summary := empty_summary;
       errors := [] |} in
  let provider := provider_of model_id in
  let total_passes := length (analysis_passes self) in
  results ← run_passes self provider image_bytes model_id total_passes 1
              (analysis_passes self) results;
  results ← synthesis_stage self provider image_bytes model_id results;
  print (complete_line results);;
  mret results.

End Analyzer.

(** *** [format_for_rag] *)

Definition rule (c : string) : string := repeat_str c 80.

(** The lines appended for one entry of [analyses]. *)
Definition pass_section (entry : string * option string) : list (option string) :=
  let '(pass_name, content) := entry in
  [ Some (nl +:+ upper pass_name +:+ " ANALYSIS"); Some (rule "-"); content; Some "" ].

(** [analysis_results['summary'].get('executive_summary')] *)
Definition get_executive_summary (s : Summary) : option string :=
  match executive_summary s with
  | Some value => value
  | None => None
  end.

(** The value of [lines] when the function joins it. An item is [None]
    when the content of an analysis is. *)
Definition report_lines (analysis_results : AnalysisResult) : list (option string) :=
  let lines := [] in
  let lines := lines ++ [ Some (rule "=") ] in
  let lines := lines ++ [ Some "COMPREHENSIVE CAD DRAWING ANALYSIS" ] in
  let lines := lines ++ [ Some (rule "=") ] in
  let lines := lines ++ [ Some "" ] in
  let model_info := model_info analysis_results in
  let lines :=
    lines ++ [ Some ("Model: " +:+ default "Unknown" (model_name <$> model_info)) ] in
  let lines :=
    lines ++ [ Some ("Provider: " +:+ default "Unknown" (model_provider <$> model_info)) ] in
  let lines := lines ++ [ Some "" ] in
  let lines :=
    if truthy (get_executive_summary (summary analysis_results)) then
      lines ++ [ Some "EXECUTIVE SUMMARY" ] ++ [ Some (rule "-") ]
            ++ [ get_executive_summary (summary analysis_results) ] ++ [ Some "" ]
    else lines in
  let lines := lines ++ [ Some "DETAILED ANALYSES" ] in
  let lines := lines ++ [ Some (rule "=") ] in
  let lines := lines ++ [ Some "" ] in
  fold_left (fun lines entry => lines ++ pass_section entry)
            (analyses analysis_results) lines.

Definition format_for_rag (analysis_results : AnalysisResult) : Result string :=
  join_opt nl (report_lines analysis_results).

(** ** Notions used to state the properties *)

(** The five pass names, in the order [__init__] declares them. *)
Definition pass_names : list string :=
  [ "overview"; "technical"; "components"; "measurements"; "quality" ].

(** How the adapter call of each pass ends, in order: with an answer (a
    text or [None]) or with an error. The call for a pass starts after the
    requests the earlier passes have sent. *)
Fixpoint outcomes (registry : gmap string ModelDescriptor) (world : World)
    (self : MultiModelCADAnalyzer) (provider : string) (image_bytes : list Byte.byte)
    (model_id : string) (n : nat) (items : list (string * string))
  : list (string * Result (option string)) :=
  match items with
  | [] => []
  | (pass_name, prompt) :: rest =>
      let '(r, evs) := invoke registry world self provider image_bytes prompt model_id n in
      (pass_name, r) :: outcomes registry world self provider image_bytes model_id
                          (sends evs + n) rest
  end.

(** The requests sent while the passes in [items] run. *)
Fixpoint requests_of_passes (registry : gmap string ModelDescriptor) (world : World)
    (self : MultiModelCADAnalyzer) (provider : string) (image_bytes : list Byte.byte)
    (model_id : string) (n : nat) (items : list (string * string)) : nat :=
  match items with
  | [] => 0
  | (pass_name, prompt) :: rest =>
      let '(r, evs) := invoke registry world self provider image_bytes prompt model_id n in
      sends evs + requests_of_passes registry world self provider image_bytes model_id
                    (sends evs + n) rest
  end.

(** The passes whose adapter call returned, with what it answered: these
    are the entries the loop stores in [analyses]. *)
Fixpoint successes (os : list (string * Result (option string)))
  : list (string * option string) :=
  match os with
  | [] => []
  | (pass_name, Ok answer) :: rest => (pass_name, answer) :: successes rest
  | (_, Raise _) :: rest => successes rest
  end.

(** The error a pass meets, if any: the error of its adapter call, or the
    error of [len(None)] when the call answered [None]. *)
Definition error_of (o : Result (option string)) : option exn :=
  match o with
  | Ok (Some _) => None
  | Ok None => Some no_len
  | Raise e => Some e
  end.

(** The passes that met an error, with the whole message: these are the
    entries the loop appends to [errors]. *)
Fixpoint failures (os : list (string * Result (option string))) : list Failure :=
  match os with
  | [] => []
  | (pass_name, o) :: rest =>
      match error_of o with
      | Some e => {| failed_pass := pass_name; failed_error := str_exn e |} :: failures rest
      | None => failures rest
      end
  end.

(** Book-keeping of one outcome, as one turn of the loop does it. *)
Definition record_outcome (results : AnalysisResult)
    (o : string * Result (option string)) : AnalysisResult :=
  match o with
  | (pass_name, Ok (Some text)) => set_analysis pass_name (Some text) results
  | (pass_name, Ok None) =>
      append_error pass_name (str_exn no_len) (set_analysis pass_name None results)
  | (pass_name, Raise e) => append_error pass_name (str_exn e) results
  end.

(** The pause after pass [idx] of [total_passes]. *)
Definition pause (idx total_passes : nat) : list Event :=
  if (idx <? total_passes)%nat then [Sleep 1] else [].

(** A console line other than the synthesis banner, or any other event. *)
Definition not_synthesis_banner (ev : Event) : Prop :=
  match ev with
  | Print line => line <> synthesis_banner
  | _ => True
  end.

(** The summary stored when the adapter raises [e] during the synthesis. *)
Definition synthesis_fallback (e : exn) : Summary :=
  {| executive_summary := Some (Some "Synthesis failed");
     total_analysis_length := None;
     synthesis_success := Some false;
     error := Some (str_exn e) |}.

(** The lines before the summary: title and model identity. *)
Definition report_header (analysis_results : AnalysisResult) : list string :=
  [ rule "="; "COMPREHENSIVE CAD DRAWING ANALYSIS"; rule "="; "";
    "Model: " +:+ default "Unknown" (model_name <$> model_info analysis_results);
    "Provider: " +:+ default "Unknown" (model_provider <$> model_info analysis_results);
    "" ].

(** The executive-summary section made of a text. *)
Definition summary_section (text : string) : list string :=
  [ "EXECUTIVE SUMMARY"; rule "-"; text; "" ].

(** The heading of the per-pass part. *)
Definition detailed_heading : list string :=
  [ "DETAILED ANALYSES"; rule "="; "" ].


(** A content part that carries an image: [{'type': 'image_url', ...}]. *)
Definition is_image_part (kv : list (string * Json)) : bool :=
  match dict_get "type" kv with
  | Some (JStr t) => String.eqb t "image_url"
  | _ => false
  end.

(** The number of image parts anywhere in a JSON value. *)
Fixpoint image_parts (j : Json) : nat :=
  match j with
  | JList l => list_sum (map image_parts l)
  | JDict kv =>
      (if is_image_part kv then 1 else 0)
      + list_sum (map (fun '(_, v) => image_parts v) kv)
  | _ => 0
  end.

(** The failure every pass records for one and the same error. *)
Definition all_failed (e : exn) (names : list string) : list Failure :=
  map (fun pass_name => {| failed_pass := pass_name; failed_error := str_exn e |}) names.

(** The error of a chat-completions call without a credential. *)
Definition missing_key : exn := Exception "ValueError" "OpenRouter API key not configured".

(** The error of a pass whose provider tag has no adapter. *)
Definition unknown_provider (tag : string) : exn :=
  Exception "ValueError" ("Unknown provider: " +:+ tag).

(** What the direct-vision service answers when the passes in [items] are
    sent to it one after the other, the first after [n] earlier requests. *)
Fixpoint gemini_answers (world : World) (self : MultiModelCADAnalyzer)
    (image_bytes : list Byte.byte) (model_id : string) (n : nat)
    (items : list (string * string)) : list (string * Result (option string)) :=
  match items with
  | [] => []
  | (pass_name, prompt) :: rest =>
      (pass_name,
       respond world n
         (GenerateContent (gemini_client self) model_id
            [Part_from_bytes image_bytes "image/png"; Part_from_text prompt]
            generation_config))
      :: gemini_answers world self image_bytes model_id (S n) rest
  end.

(** The image after the mode check of [preprocess_image]. *)
Definition to_rgb (world : World) (img : Image) : Image :=
  if negb (String.eqb (mode img) "RGB") then convert world "RGB" img else img.

(** [new_size] of [preprocess_image] for an image of the given size:
    [tuple(int(dim * ratio) for dim in img.size)] with
    [ratio = max_size / max(img.size)]. *)
Definition new_size_of (size : Z * Z) : Result (Z * Z) :=
  match truediv 4096 (Z.max (fst size) (snd size)) with
  | Ok ratio =>
      match int_of_float (mul_int_float (fst size) ratio) with
      | Ok new_width =>
          match int_of_float (mul_int_float (snd size) ratio) with
          | Ok new_height => Ok (new_width, new_height)
          | Raise e => Raise e
          end
      | Raise e => Raise e
      end
  | Raise e => Raise e
  end.

(** The longer side of a size. *)
Definition longer_side (size : Z * Z) : Z := Z.max (fst size) (snd size).

(** A size with a side below one: what [img.resize] refuses. *)
Definition empty_size (size : Z * Z) : bool :=
  ((fst size <? 1) || (snd size <? 1))%Z.

(** The error of [img.resize] for such a size. *)
Definition resize_error : exn := Exception "ValueError" "height and width must be > 0".

(** [located N D m l]: the rational [N / D] lies between [m] and [m + 1],
    at the place the location [l] of a rounding step says (exactly [m],
    below, at or above the middle). *)
Definition located (N D m : Z) (l : location) : Prop :=
  (0 < D /\ 0 <= m /\
   match l with
   | loc_Exact => N = m * D
   | loc_Inexact Lt => m * D < N /\ 2 * N < (2 * m + 1) * D
   | loc_Inexact Eq => 2 * N = (2 * m + 1) * D
   | loc_Inexact Gt => (2 * m + 1) * D < 2 * N /\ N < (m + 1) * D
   end)%Z.

(** ** A scripted world, for concrete runs *)

Module Demo.

(** A wide RGBA drawing and a small palette sketch. *)
Definition drawing : Image :=
  {| mode := "RGBA"; size := (6272, 100)%Z;
     raster := [Byte.x89; Byte.x50; Byte.x4e; Byte.x47] |}.

Definition sketch : Image :=
  {| mode := "P"; size := (800, 600)%Z; raster := [Byte.x47; Byte.x49; Byte.x46] |}.

Definition timed_out : Result (option string) :=
  Raise (Exception "ReadTimeout" "The read operation timed out").

(** A world with two image files, the given environment, and a remote
    side that answers the [n]-th request with the [n]-th line of
    [script] and lets every later request time out. *)
Definition scripted (env : string -> option string)
    (script : list (Result (option string))) : World :=
  {| image_open := fun path =>
       if String.eqb path "drawing.png" then Ok drawing
       else if String.eqb path "sketch.png" then Ok sketch
       else Raise (Exception "FileNotFoundError"
                     ("[Errno 2] No such file or directory: '" +:+ path +:+ "'"));
     convert_raster := fun _ img => raster img;
     contrast_raster := fun _ img => raster img;
     lanczos_raster := fun _ img => raster img;
     encode := fun _ _ img => raster img;
     getenv := env;
     respond := fun n _ => nth n script timed_out |}.

Definition no_env : string -> option string := fun _ => None.

(** Every request is answered. *)
Definition all_fine : World :=
  scripted no_env
    [ Ok (Some "A bracket."); Ok (Some "Scale 1:2."); Ok (Some "Four holes.");
      Ok (Some "120 x 80 mm."); Ok (Some "Readable.");
      Ok (Some "A bracket, 120 x 80 mm.") ].

(** An error whose text has 129 characters. *)
Definition overloaded : exn :=
  Exception "ServerError"
    "503 UNAVAILABLE. {'error': {'code': 503, 'message': 'The model is overloaded. Please try again later.', 'status': 'UNAVAILABLE'}}".

(** The second pass fails, and so does the synthesis. *)
Definition flaky : World :=
  scripted no_env
    [ Ok (Some "A bracket."); Raise overloaded;
      Ok (Some "Four holes."); Ok (Some "120 x 80 mm."); Ok (Some "Readable.") ].

(** Nothing answers. *)
Definition silent : World := scripted no_env [].

(** The second pass is answered without a text; the rest is answered. *)
Definition tacit : World :=
  scripted no_env
    [ Ok (Some "A bracket."); Ok None; Ok (Some "Four holes.");
      Ok (Some "120 x 80 mm."); Ok (Some "Readable.");
      Ok (Some "A bracket, 120 x 80 mm.") ].

(** No pass is answered with a text; the synthesis is. *)
Definition blank : World :=
  scripted no_env
    [ Ok None; Ok None; Ok None; Ok None; Ok None; Ok (Some "Nothing to report.") ].

(** A registry with one entry whose provider has no adapter. *)
Definition odd_registry : gmap string ModelDescriptor :=
  {[ "acme/vision-1" :=
       {| model_name := "Acme Vision 1"; model_provider := "acme";
          model_capabilities := ["vision"]; model_free := true;
          model_context := "8K tokens"; model_notes := None |} ]}.

(** The result and the events of a run from a fresh process. *)
Definition run (world : World) (openrouter_key : option string)
    (png_path model_id : string) : Result AnalysisResult * list Event :=
  comprehensive_analysis MODELS world (__init__ world "AIza-demo" openrouter_key)
    png_path model_id 0.

(** The result of a run, when it returns one. *)
Definition result_of (o : Result AnalysisResult * list Event) : AnalysisResult :=
  match fst o with
  | Ok r => r
  | Raise _ =>
      {| image_path := ""; model_used := ""; model_info := None; analyses := [];
         summary := empty_summary; errors := [] |}
  end.

End Demo.

(** ** Further notions: pacing, routing of requests, the trace of a run *)

(** The seconds a list of events spends in [time.sleep]. *)
Fixpoint seconds_slept (evs : list Event) : Z :=
  match evs with
  | [] => 0%Z
  | Sleep seconds :: rest => (seconds + seconds_slept rest)%Z
  | _ :: rest => seconds_slept rest
  end.

(** The request [analyze_with_gemini] sends for a prompt. *)
Definition gemini_request (self : MultiModelCADAnalyzer) (image_bytes : list Byte.byte)
    (model_id prompt : string) : Request :=
  GenerateContent (gemini_client self) model_id
    [Part_from_bytes image_bytes "image/png"; Part_from_text prompt] generation_config.

(** The request [analyze_with_openrouter] sends for a prompt with the
    credential [key]. *)
Definition openrouter_request (registry : gmap string ModelDescriptor)
    (self : MultiModelCADAnalyzer) (key : string) (image_bytes : list Byte.byte)
    (model_id prompt : string) : Request :=
  Post (float_of_int 120) (openrouter_base self +:+ "/chat/completions")
    [ ("Authorization", "Bearer " +:+ key);
      ("Content-Type", "application/json");
      ("HTTP-Referer", "https://documind.app");
      ("X-Title", "DocuMind CAD Analyzer") ]
    (request_body registry image_bytes prompt model_id).

(** An event that is not the warning of the handler around
    [_generate_synthesis]. *)
Definition no_synthesis_warning (ev : Event) : Prop :=
  match ev with
  | Print line => forall e, line <> synthesis_failed_line e
  | _ => True
  end.

(** The three console lines before the image is opened. *)
Definition prelude_of (registry : gmap string ModelDescriptor) (model_id : string)
  : list Event :=
  [ Print starting_line; Print (model_line registry model_id); Print preprocessing_line ].

(** [results] as [comprehensive_analysis] creates it. *)
Definition fresh_results (registry : gmap string ModelDescriptor)
    (png_path model_id : string) : AnalysisResult :=
  {| image_path := png_path; model_used := model_id;
     model_info := registry !! model_id; analyses := [];
     summary := empty_summary; errors := [] |}.

(** The requests among the events, in order. *)
Fixpoint requests_of (evs : list Event) : list Request :=
  match evs with
  | [] => []
  | Send req :: rest => req :: requests_of rest
  | _ :: rest => requests_of rest
  end.

(** The console lines among the events, in order. *)
Fixpoint prints_of (evs : list Event) : list string :=
  match evs with
  | [] => []
  | Print line :: rest => line :: prints_of rest
  | _ :: rest => prints_of rest
  end.

(** The line that tells the outcome of a pass: complete for a text, failed
    for an error, that of [len(None)] included. *)
Definition outcome_line (pass_name : string) (o : Result (option string)) : string :=
  match o with
  | Ok (Some analysis) => pass_complete_line pass_name analysis
  | Ok None => pass_failed_line pass_name (str_exn no_len)
  | Raise e => pass_failed_line pass_name (str_exn e)
  end.

(** The two console lines of each pass, the first numbered [idx]: its
    banner and the line that tells its outcome. *)
Fixpoint pass_lines (total_passes idx : nat)
    (os : list (string * Result (option string))) : list string :=
  match os with
  | [] => []
  | (pass_name, o) :: rest =>
      pass_banner idx total_passes pass_name
      :: outcome_line pass_name o
      :: pass_lines total_passes (S idx) rest
  end.

(** The request the adapter of [provider] sends for a prompt, if it sends
    one: the Gemini adapter always does, the chat-completions adapter
    does with a credential, and no other provider has an adapter. *)
Definition request_for (registry : gmap string ModelDescriptor)
    (self : MultiModelCADAnalyzer) (provider : string) (image_bytes : list Byte.byte)
    (model_id prompt : string) : option Request :=
  if String.eqb provider "gemini" then
    Some (gemini_request self image_bytes model_id prompt)
  else if String.eqb provider "openrouter" then
    match openrouter_api_key self with
    | Some key =>
        if truthy_str key then
          Some (openrouter_request registry self key image_bytes model_id prompt)
        else None
    | None => None
    end
  else None.


(** The summary [_generate_synthesis] returns when the adapter answers
    [text] (a text or [None]). *)
Definition synthesis_summary (analyses : list (string * option string))
    (text : option string) : Summary :=
  {| executive_summary := Some text;
     total_analysis_length := Some (len (combined_of analyses));
     synthesis_success := Some true;
     error := None |}.

(** The summary section of the report, after a synthesis whose adapter
    call ended as [o]. *)
Definition synthesis_section (o : Result (option string)) : list string :=
  match o with
  | Ok None => []
  | Ok (Some EmptyString) => []
  | Ok (Some text) => summary_section text
  | Raise _ => summary_section "Synthesis failed"
  end.

(** ['vision' in d['capabilities']] *)
Definition has_vision (d : ModelDescriptor) : bool :=
  existsb (String.eqb "vision") (model_capabilities d).

(** A request that carries the image: an image part for Gemini, an
    [image_url] part in the body of a chat completion. *)
Definition carries_image (req : Request) : bool :=
  match req with
  | GenerateContent _ _ contents _ =>
      existsb (fun part => match part with
                           | Part_from_bytes _ _ => true
                           | Part_from_text _ => false
                           end) contents
  | Post _ _ _ json => (0 <? image_parts json)%nat
  end.

(** The [Authorization] header of a chat-completions request. *)
Definition authorization (req : Request) : option string :=
  match req with
  | Post _ _ headers _ => dict_get "Authorization" headers
  | GenerateContent _ _ _ _ => None
  end.

(** The length of one section of [combined]: the name in upper case, the
    content as the f-string formats it, and the nine characters around
    the name. *)
Definition section_length (entry : string * option string) : nat :=
  9 + len (upper (fst entry)) + len (format_opt (snd entry)).

(** A world that differs by one image file. *)
Definition with_file (path : string) (img : Image) (world : World) : World :=
  {| image_open := fun p => if String.eqb p path then Ok img else image_open world p;
     convert_raster := convert_raster world;
     contrast_raster := contrast_raster world;
     lanczos_raster := lanczos_raster world;
     encode := encode world;
     getenv := getenv world;
     respond := respond world |}.

(** A scanned strip, 5000 pixels wide and one pixel high. *)
Definition strip : Image :=
  {| mode := "L"; size := (5000, 1)%Z; raster := [Byte.x00; Byte.xff] |}.

(** ** Statements in the monad *)

Lemma sends_app (a b : list Event) : sends (a ++ b) = sends a + sends b.
Proof.
  induction a as [|ev a IH]; simpl; [reflexivity|].
  destruct ev; simpl; rewrite IH; reflexivity.
Qed.

Lemma bind_eq {A B} (m : M A) (f : A -> M B) (n : nat) :
  (m ≫= f) n =
  match m n with
  | (Ok a, evs) => let '(r, evs') := f a (sends evs + n) in (r, evs ++ evs')
  | (Raise e, evs) => (Raise e, evs)
  end.
Proof. reflexivity. Qed.

Lemma print_then {A} (line : string) (k : M A) (n : nat) :
  (print line ;; k) n = (fst (k n), Print line :: snd (k n)).
Proof.
  rewrite bind_eq. simpl. destruct (k n); reflexivity.
Qed.

(** *** One pass *)

Section Passes.

Variable registry : gmap string ModelDescriptor.
Variable world : World.
Variable self : MultiModelCADAnalyzer.
Variable provider : string.
Variable image_bytes : list Byte.byte.
Variable model_id : string.
Variable total_passes : nat.

Let call := invoke registry world self provider image_bytes.

(** One turn of the loop never raises: it book-keeps the outcome of the
    adapter call and tells it between the banner and the pause. *)
Lemma run_pass_eq (idx : nat) (pass_name prompt : string) (results : AnalysisResult) (n : nat) :
  run_pass registry world self provider image_bytes model_id total_passes idx
    pass_name prompt results n =
  (Ok (record_outcome results (pass_name, fst (call prompt model_id n))),
   Print (pass_banner idx total_passes pass_name) :: snd (call prompt model_id n)
     ++ Print (outcome_line pass_name (fst (call prompt model_id n)))
     :: pause idx total_passes).
Proof.
  unfold run_pass, call. rewrite print_then.
  rewrite bind_eq. rewrite bind_eq. unfold attempt.
  destruct (invoke registry world self provider image_bytes prompt model_id n)
    as [[[analysis|]|e] evs]; simpl;
    unfold pause; destruct (idx <? total_passes)%nat; simpl;
    rewrite ?app_nil_r, <- ?app_assoc; reflexivity.
Qed.

End Passes.

Lemma pass_banner_not_synthesis (idx total_passes : nat) (pass_name : string) :
  pass_banner idx total_passes pass_name <> synthesis_banner.
Proof. unfold pass_banner, synthesis_banner. simpl. discriminate. Qed.

Lemma pass_complete_not_synthesis (pass_name analysis : string) :
  pass_complete_line pass_name analysis <> synthesis_banner.
Proof.
  unfold pass_complete_line, pass_complete_format, synthesis_banner. simpl. discriminate.
Qed.

Lemma pass_failed_not_synthesis (pass_name error_msg : string) :
  pass_failed_line pass_name error_msg <> synthesis_banner.
Proof. unfold pass_failed_line, synthesis_banner. simpl. discriminate. Qed.

Lemma outcome_line_not_synthesis (pass_name : string) (o : Result (option string)) :
  outcome_line pass_name o <> synthesis_banner.
Proof.
  destruct o as [[text|]|e]; cbn [outcome_line];
    [apply pass_complete_not_synthesis | apply pass_failed_not_synthesis..].
Qed.

(** *** The adapters send at most one request and print nothing *)

Section Adapters.

Variable registry : gmap string ModelDescriptor.
Variable world : World.
Variable self : MultiModelCADAnalyzer.

Lemma analyze_with_gemini_events (image_bytes : list Byte.byte) (prompt model_id : string)
    (n : nat) :
  exists req, snd (analyze_with_gemini world self image_bytes prompt model_id n) = [Send req].
Proof. eexists. reflexivity. Qed.

Lemma analyze_with_openrouter_events (image_bytes : list Byte.byte)
    (prompt model_id : string) (n : nat) :
  snd (analyze_with_openrouter registry world self image_bytes prompt model_id n) = []
  \/ exists timeout url headers,
       snd (analyze_with_openrouter registry world self image_bytes prompt model_id n)
       = [Send (Post timeout url headers (request_body registry image_bytes prompt model_id))].
Proof.
  unfold analyze_with_openrouter.
  destruct (negb (truthy (openrouter_api_key self))); simpl.
  - left. reflexivity.
  - right. do 3 eexists. reflexivity.
Qed.

Lemma invoke_events (provider : string) (image_bytes : list Byte.byte)
    (prompt model_id : string) (n : nat) :
  Forall not_synthesis_banner
    (snd (invoke registry world self provider image_bytes prompt model_id n)).
Proof.
  unfold invoke.
  destruct (String.eqb provider "gemini").
  - destruct (analyze_with_gemini_events image_bytes prompt model_id n) as [req ->].
    repeat constructor.
  - destruct (String.eqb provider "openrouter").
    + destruct (analyze_with_openrouter_events image_bytes prompt model_id n)
        as [-> | (t & u & h & ->)]; repeat constructor.
    + simpl. constructor.
Qed.

End Adapters.

(** *** The loop over the passes *)

Section Loop.

Variable registry : gmap string ModelDescriptor.
Variable world : World.
Variable self : MultiModelCADAnalyzer.
Variable provider : string.
Variable image_bytes : list Byte.byte.
Variable model_id : string.
Variable total_passes : nat.

Let loop := run_passes registry world self provider image_bytes model_id total_passes.
Let answers := outcomes registry world self provider image_bytes model_id.
Let requests := requests_of_passes registry world self provider image_bytes model_id.

(** The loop never raises: it folds [record_outcome] over the outcomes
    of the adapter, and its events tell every pass. *)
Lemma run_passes_spec (items : list (string * string)) :
  forall (idx : nat) (results : AnalysisResult) (n : nat),
  exists evs,
    loop idx items results n = (Ok (fold_left record_outcome (answers n items) results), evs)
    /\ sends evs = requests n items
    /\ Forall not_synthesis_banner evs
    /\ (forall i pass_name prompt,
          nth_error items i = Some (pass_name, prompt) ->
          In (Print (pass_banner (idx + i) total_passes pass_name)) evs)
    /\ (forall pass_name o,
          In (pass_name, o) (answers n items) ->
          In (Print (outcome_line pass_name o)) evs).
Proof.
  unfold loop, answers, requests.
  induction items as [|[pass_name prompt] rest IH]; intros idx results n.
  - exists []. simpl. repeat split; try constructor.
    + intros [|i] ? ? H; discriminate.
    + intros ? ? [].
  - simpl. rewrite bind_eq, run_pass_eq.
    pose proof (invoke_events registry world self provider image_bytes prompt model_id n)
      as Hinv.
    destruct (invoke registry world self provider image_bytes prompt model_id n)
      as [r ievs] eqn:Hcall.
    cbn [fst snd] in *.
    set (pevs := Print (pass_banner idx total_passes pass_name)
                   :: ievs ++ Print (outcome_line pass_name r) :: pause idx total_passes).
    assert (Hsends : sends pevs = sends ievs).
    { unfold pevs. simpl. rewrite sends_app. simpl.
      unfold pause. destruct (idx <? total_passes)%nat; simpl; lia. }
    assert (Hquiet : Forall not_synthesis_banner pevs).
    { unfold pevs. constructor; [apply pass_banner_not_synthesis|].
      apply Forall_app; split; [exact Hinv|].
      constructor.
      - apply outcome_line_not_synthesis.
      - unfold pause. destruct (idx <? total_passes)%nat; repeat constructor. }
    destruct (IH (S idx) (record_outcome results (pass_name, r)) (sends ievs + n))
      as (evs & Hrun & Hreq & Hq & Hban & Hok).
    exists (pevs ++ evs).
    split.
    { rewrite Hsends, Hrun. reflexivity. }
    split.
    { rewrite sends_app, Hsends, Hreq. reflexivity. }
    split.
    { apply Forall_app; split; assumption. }
    split.
    { intros [|i] name p Hnth; simpl in Hnth.
      - inversion Hnth; subst. rewrite Nat.add_0_r. apply in_or_app. left. left. reflexivity.
      - apply in_or_app. right. replace (idx + S i) with (S idx + i) by lia.
        eapply Hban; eassumption. }
    { intros name o [Heq | Hin].
      - inversion Heq; subst. apply in_or_app. left. right.
        apply in_or_app. right. left. reflexivity.
      - apply in_or_app. right. apply Hok. exact Hin. }
Qed.

End Loop.

(** *** Book-keeping of the outcomes *)

Lemma outcomes_keys registry world self provider image_bytes model_id
    (items : list (string * string)) :
  forall n, keys (outcomes registry world self provider image_bytes model_id n items)
            = keys items.
Proof.
  unfold keys.
  induction items as [|[pass_name prompt] rest IH]; intros n; simpl; [reflexivity|].
  destruct (invoke registry world self provider image_bytes prompt model_id n) as [r evs].
  simpl. rewrite IH. reflexivity.
Qed.

Lemma record_outcomes_fields (os : list (string * Result (option string))) :
  forall results : AnalysisResult,
    let results' := fold_left record_outcome os results in
    image_path results' = image_path results
    /\ model_used results' = model_used results
    /\ model_info results' = model_info results
    /\ summary results' = summary results
    /\ analyses results'
       = fold_left (fun d entry => dict_set (fst entry) (snd entry) d)
                   (successes os) (analyses results)
    /\ errors results' = errors results ++ failures os.
Proof.
  induction os as [|[pass_name [[text|]|e]] rest IH]; intros results; simpl.
  - rewrite app_nil_r. repeat split; reflexivity.
  - destruct (IH (set_analysis pass_name (Some text) results))
      as (H1 & H2 & H3 & H4 & H5 & H6).
    simpl in *. repeat split; assumption.
  - destruct (IH (append_error pass_name (str_exn no_len)
                    (set_analysis pass_name None results)))
      as (H1 & H2 & H3 & H4 & H5 & H6).
    simpl in *. rewrite <- app_assoc in H6. repeat split; assumption.
  - destruct (IH (append_error pass_name (str_exn e) results))
      as (H1 & H2 & H3 & H4 & H5 & H6).
    simpl in *. rewrite <- app_assoc in H6. repeat split; assumption.
Qed.

Lemma dict_set_fresh {V} (k : string) (v : V) (d : list (string * V)) :
  ~ In k (keys d) -> dict_set k v d = d ++ [(k, v)].
Proof.
  induction d as [|[k' v'] r IH]; simpl; intros Hk; [reflexivity|].
  destruct (String.eqb_spec k k') as [->|Hne].
  - exfalso. apply Hk. left. reflexivity.
  - rewrite IH; [reflexivity|]. intros Hin. apply Hk. right. exact Hin.
Qed.

Lemma successes_keys_incl (os : list (string * Result (option string))) (k : string) :
  In k (keys (successes os)) -> In k (keys os).
Proof.
  induction os as [|[name [text|e]] rest IH]; simpl; intros H.
  - exact H.
  - destruct H as [H|H]; [left; exact H | right; apply IH; exact H].
  - right. apply IH. exact H.
Qed.

(** With distinct pass names every stored answer is appended at the end. *)
Lemma fold_dict_set_fresh (os : list (string * Result (option string))) :
  forall d : list (string * option string),
    List.NoDup (keys d ++ keys os) ->
    fold_left (fun d entry => dict_set (fst entry) (snd entry) d) (successes os) d
    = d ++ successes os.
Proof.
  induction os as [|[name [text|e]] rest IH]; intros d Hnd; simpl.
  - rewrite app_nil_r. reflexivity.
  - simpl in Hnd. apply NoDup_remove in Hnd as Hnd'. destruct Hnd' as [Hnd1 Hnotin].
    rewrite dict_set_fresh.
    + rewrite IH.
      * rewrite <- app_assoc. reflexivity.
      * unfold keys in *. rewrite map_app. simpl. rewrite <- app_assoc. simpl.
        exact Hnd.
    + intros Hin. apply Hnotin. apply in_or_app. left. exact Hin.
  - apply IH. simpl in Hnd. apply NoDup_remove_1 in Hnd. exact Hnd.
Qed.

(** Every pass whose call returned is stored, and every pass whose call
    raised is recorded. *)
Lemma successes_In (os : list (string * Result (option string)))
    (pass_name : string) (answer : option string) :
  In (pass_name, answer) (successes os) <-> In (pass_name, Ok answer) os.
Proof.
  induction os as [|[name [t|e]] rest IH]; simpl.
  - tauto.
  - rewrite IH. split; intros [H|H]; try (right; exact H); left; congruence.
  - rewrite IH. split; [intros H; right; exact H | intros [H|H]; [discriminate | exact H]].
Qed.

Lemma successes_nonempty (os : list (string * Result (option string))) :
  successes os <> [] <-> exists pass_name answer, In (pass_name, Ok answer) os.
Proof.
  split.
  - destruct (successes os) as [|[name text] rest] eqn:Hs; [congruence|].
    intros _. exists name, text. apply successes_In. rewrite Hs. left. reflexivity.
  - intros (name & text & Hin) Hs. apply successes_In in Hin. rewrite Hs in Hin.
    destruct Hin.
Qed.

Lemma failures_In (os : list (string * Result (option string)))
    (pass_name msg : string) :
  In {| failed_pass := pass_name; failed_error := msg |} (failures os)
  <-> exists o e, In (pass_name, o) os /\ error_of o = Some e /\ msg = str_exn e.
Proof.
  induction os as [|[name o] rest IH]; cbn [failures In].
  - split; [intros [] | intros (o & e & [] & _)].
  - destruct (error_of o) as [e|] eqn:He; cbn [In]; rewrite IH; split.
    + intros [Heq|(o' & e' & Hin & He' & Hmsg)].
      * injection Heq as <- <-. exists o, e. auto.
      * exists o', e'. auto.
    + intros (o' & e' & [Heq|Hin] & He' & Hmsg).
      * injection Heq as <- <-. left. rewrite He in He'. injection He' as <-.
        rewrite Hmsg. reflexivity.
      * right. exists o', e'. auto.
    + intros (o' & e' & Hin & He' & Hmsg). exists o', e'. auto.
    + intros (o' & e' & [Heq|Hin] & He' & Hmsg).
      * injection Heq as <- <-. rewrite He in He'. discriminate.
      * exists o', e'. auto.
Qed.

(** The names stored and the names recorded follow the order of the
    passes. *)
Lemma successes_sublist (os : list (string * Result (option string))) :
  sublist (keys (successes os)) (keys os).
Proof.
  induction os as [|[name [text|e]] rest IH]; cbn.
  - constructor.
  - apply sublist_skip. exact IH.
  - apply sublist_cons. exact IH.
Qed.

Lemma failures_sublist (os : list (string * Result (option string))) :
  sublist (map failed_pass (failures os)) (keys os).
Proof.
  induction os as [|[name o] rest IH]; cbn [failures keys map fst].
  - constructor.
  - destruct (error_of o); cbn [map failed_pass].
    + apply sublist_skip. exact IH.
    + apply sublist_cons. exact IH.
Qed.

(** *** [preprocess_image] and [_generate_synthesis] as statements *)

Lemma lift_bind {A B} (r : Result A) (f : A -> M B) (n : nat) :
  (lift r ≫= f) n =
  match r with
  | Ok a => f a n
  | Raise e => (Raise e, [])
  end.
Proof.
  rewrite bind_eq. destruct r as [a|e]; simpl; [|reflexivity].
  destruct (f a n); reflexivity.
Qed.

(** Decoding and re-encoding neither print nor send, and do not depend on
    the requests sent before. *)
Lemma preprocess_image_quiet (world : World) (self : MultiModelCADAnalyzer)
    (image_path : string) (n : nat) :
  preprocess_image world self image_path n
  = (fst (preprocess_image world self image_path 0), []).
Proof.
  unfold preprocess_image. rewrite !lift_bind.
  destruct (image_open world image_path) as [img|e]; [|reflexivity].
  cbv zeta.
  set (rgb := if negb (String.eqb (mode img) "RGB") then convert world "RGB" img else img).
  set (img1 := enhance world (float_lit 15 10) rgb).
  rewrite !bind_eq.
  destruct (4096 <? Z.max (fst (size img1)) (snd (size img1)))%Z; [|reflexivity].
  rewrite !lift_bind.
  destruct (truediv 4096 (Z.max (fst (size img1)) (snd (size img1)))) as [ratio|e];
    [|reflexivity].
  rewrite !lift_bind.
  destruct (int_of_float (mul_int_float (fst (size img1)) ratio)) as [new_width|e];
    [|reflexivity].
  rewrite !lift_bind.
  destruct (int_of_float (mul_int_float (snd (size img1)) ratio)) as [new_height|e];
    [|reflexivity].
  unfold lift.
  destruct (resize world (new_width, new_height) img1) as [resized|e]; reflexivity.
Qed.

Lemma _generate_synthesis_eq registry world self
    (analyses : list (string * option string))
    (model_id provider : string) (image_bytes : list Byte.byte) (n : nat) :
  _generate_synthesis registry world self analyses model_id provider image_bytes n =
  match invoke_synthesis registry world self provider image_bytes
          (synthesis_prompt_of analyses) model_id n with
  | (Ok text, evs) =>
      (Ok {| executive_summary := Some text;
             total_analysis_length := Some (len (combined_of analyses));
             synthesis_success := Some true;
             error := None |}, evs)
  | (Raise e, evs) => (Ok (synthesis_fallback e), evs)
  end.
Proof.
  unfold _generate_synthesis, try_except. rewrite bind_eq.
  destruct (invoke_synthesis registry world self provider image_bytes
              (synthesis_prompt_of analyses) model_id n) as [[text|e] evs]; simpl;
    rewrite app_nil_r; reflexivity.
Qed.

(** *** The whole run *)

Lemma bind_ok {A B} (m : M A) (f : A -> M B) (n : nat) (a : A) (evs : list Event)
    (b : Result B) (evs' : list Event) :
  m n = (Ok a, evs) ->
  f a (sends evs + n) = (b, evs') ->
  (m ≫= f) n = (b, evs ++ evs').
Proof. intros Hm Hf. rewrite bind_eq, Hm, Hf. reflexivity. Qed.

Lemma print_ok {A} (line : string) (k : M A) (n : nat) (b : Result A) (evs : list Event) :
  k n = (b, evs) ->
  (print line ;; k) n = (b, Print line :: evs).
Proof. intros Hk. rewrite print_then, Hk. reflexivity. Qed.

Section Run.

Variable registry : gmap string ModelDescriptor.
Variable world : World.
Variable self : MultiModelCADAnalyzer.
Variable png_path model_id : string.

Let prelude : list Event :=
  [ Print starting_line; Print (model_line registry model_id); Print preprocessing_line ].

(** A failure of [preprocess_image] leaves the run before the first pass. *)
Lemma comprehensive_analysis_raises (n : nat) (e : exn) :
  fst (preprocess_image world self png_path 0) = Raise e ->
  comprehensive_analysis registry world self png_path model_id n = (Raise e, prelude).
Proof.
  intros Hpre. unfold comprehensive_analysis.
  rewrite !print_then, bind_eq, preprocess_image_quiet, Hpre. reflexivity.
Qed.

(** The synthesis block never raises and only touches the summary. *)
Lemma synthesis_stage_spec (provider : string) (image_bytes : list Byte.byte)
    (results : AnalysisResult) (n : nat) :
  exists r syn_evs,
    synthesis_stage registry world self provider image_bytes model_id results n
    = (Ok r, syn_evs)
    /\ image_path r = image_path results
    /\ model_used r = model_used results
    /\ model_info r = model_info results
    /\ analyses r = analyses results
    /\ errors r = errors results
    /\ match analyses results with
       | [] => syn_evs = [] /\ summary r = summary results
       | _ :: _ =>
           exists sevs,
             syn_evs = Print synthesis_banner :: sevs
             /\ _generate_synthesis registry world self (analyses results) model_id
                  provider image_bytes n
                = (Ok (summary r), sevs)
       end.
Proof.
  unfold synthesis_stage.
  destruct (analyses results) as [|entry rest] eqn:Han.
  - exists results, []. rewrite Han. repeat split; reflexivity.
  - pose proof (_generate_synthesis_eq registry world self (entry :: rest) model_id
                  provider image_bytes n) as Hgen.
    assert (Hres : exists s sevs,
               _generate_synthesis registry world self (entry :: rest) model_id
                 provider image_bytes n = (Ok s, sevs)).
    { rewrite Hgen.
      destruct (invoke_synthesis registry world self provider image_bytes
                  (synthesis_prompt_of (entry :: rest)) model_id n) as [[text|e] sevs];
        eauto. }
    destruct Hres as (s & sevs & Hs).
    exists (set_summary s results), (Print synthesis_banner :: sevs).
    split.
    { apply print_ok. unfold try_except. rewrite bind_eq, Hs. simpl.
      rewrite app_nil_r. reflexivity. }
    simpl. rewrite Han. repeat split; try reflexivity.
    exists sevs. split; [reflexivity | exact Hs].
Qed.

(** Once the image is canonical the run returns a result: the outcomes
    of the passes, book-kept, and the summary of [_generate_synthesis]
    when some pass answered. *)
Lemma comprehensive_analysis_returns (n : nat) (image_bytes : list Byte.byte) :
  fst (preprocess_image world self png_path 0) = Ok image_bytes ->
  let provider := provider_of registry model_id in
  let items := analysis_passes self in
  let os := outcomes registry world self provider image_bytes model_id n items in
  let sent := requests_of_passes registry world self provider image_bytes model_id n items in
  exists r loop_evs syn_evs,
    comprehensive_analysis registry world self png_path model_id n
    = (Ok r, prelude ++ loop_evs ++ syn_evs ++ [Print (complete_line r)])
    /\ image_path r = png_path
    /\ model_used r = model_id
    /\ model_info r = registry !! model_id
    /\ analyses r
       = fold_left (fun d entry => dict_set (fst entry) (snd entry) d) (successes os) []
    /\ errors r = failures os
    /\ sends loop_evs = sent
    /\ Forall not_synthesis_banner loop_evs
    /\ (forall i pass_name prompt,
          nth_error items i = Some (pass_name, prompt) ->
          In (Print (pass_banner (1 + i) (length items) pass_name)) loop_evs)
    /\ (forall pass_name o,
          In (pass_name, o) os ->
          In (Print (outcome_line pass_name o)) loop_evs)
    /\ match analyses r with
       | [] => syn_evs = [] /\ summary r = empty_summary
       | _ :: _ =>
           exists sevs,
             syn_evs = Print synthesis_banner :: sevs
             /\ _generate_synthesis registry world self (analyses r) model_id provider
                  image_bytes (sent + n)
                = (Ok (summary r), sevs)
       end.
Proof.
  intros Hpre provider items os sent.
  set (r0 := {| image_path := png_path; model_used := model_id;
                model_info := registry !! model_id; analyses := [];
                summary := empty_summary; errors := [] |}).
  destruct (run_passes_spec registry world self provider image_bytes model_id
              (length items) items 1 r0 n)
    as (loop_evs & Hloop & Hsent & Hquiet & Hban & Hok).
  fold os in Hloop, Hok. fold sent in Hsent.
  destruct (record_outcomes_fields os r0) as (F1 & F2 & F3 & F4 & F5 & F6).
  set (r1 := fold_left record_outcome os r0) in *.
  simpl in F1, F2, F3, F4, F5, F6.
  destruct (synthesis_stage_spec provider image_bytes r1 (sent + n))
    as (r & syn_evs & Hstage & G1 & G2 & G3 & G4 & G5 & Hsyn).
  exists r, loop_evs, syn_evs.
  split.
  { unfold comprehensive_analysis, prelude. fold r0. simpl app.
    do 3 apply print_ok.
    eapply (bind_ok _ _ _ _ []).
    { rewrite preprocess_image_quiet, Hpre. reflexivity. }
    cbv beta zeta. fold provider items.
    eapply bind_ok; [exact Hloop|].
    rewrite Hsent. simpl sends. rewrite Nat.add_0_l.
    eapply bind_ok; [exact Hstage|].
    apply print_ok. reflexivity. }
  rewrite G1, G2, G3, G4, G5.
  repeat (split; [assumption|]).
  rewrite <- G4 in Hsyn |- *.
  destruct (analyses r) as [|entry rest].
  - destruct Hsyn as [-> Hsum]. split; [reflexivity|]. rewrite Hsum. exact F4.
  - exact Hsyn.
Qed.

End Run.

(** *** Runs of an analyzer built by [__init__] *)

Lemma NoDup_app_disjoint {A} (l1 l2 : list A) :
  List.NoDup (l1 ++ l2) -> forall a, In a l1 -> ~ In a l2.
Proof.
  induction l1 as [|x l1 IH]; simpl; intros Hnd a Hin; [destruct Hin|].
  inversion Hnd as [|? ? Hx Hnd']; subst.
  destruct Hin as [<-|Hin].
  - intros H2. apply Hx. apply in_or_app. right. exact H2.
  - apply IH; assumption.
Qed.

Lemma pass_names_NoDup : List.NoDup pass_names.
Proof.
  unfold pass_names.
  repeat (constructor; [simpl; intuition discriminate|]).
  constructor.
Qed.

Lemma init_passes (world : World) (gemini_key : string) (openrouter_key : option string) :
  keys (analysis_passes (__init__ world gemini_key openrouter_key)) = pass_names
  /\ length (analysis_passes (__init__ world gemini_key openrouter_key)) = 5.
Proof. split; reflexivity. Qed.

(** A run that returns went through a successful [preprocess_image]. *)
Lemma comprehensive_analysis_inv registry world self png_path model_id n r evs :
  comprehensive_analysis registry world self png_path model_id n = (Ok r, evs) ->
  exists image_bytes, fst (preprocess_image world self png_path 0) = Ok image_bytes.
Proof.
  intros Hrun.
  destruct (fst (preprocess_image world self png_path 0)) as [image_bytes|e] eqn:Hpre.
  - exists image_bytes. reflexivity.
  - rewrite (comprehensive_analysis_raises registry world self png_path model_id n e Hpre)
      in Hrun.
    discriminate.
Qed.

(** With the five distinct pass names the successes are stored in order. *)
Lemma init_analyses registry world gemini_key openrouter_key provider image_bytes
    model_id n :
  let self := __init__ world gemini_key openrouter_key in
  let os := outcomes registry world self provider image_bytes model_id n
              (analysis_passes self) in
  keys os = pass_names
  /\ fold_left (fun d entry => dict_set (fst entry) (snd entry) d) (successes os) []
     = successes os.
Proof.
  intros self os.
  assert (Hkeys : keys os = pass_names).
  { unfold os. rewrite outcomes_keys. reflexivity. }
  split; [exact Hkeys|].
  rewrite fold_dict_set_fresh; [reflexivity|].
  simpl. rewrite Hkeys. apply pass_names_NoDup.
Qed.

Lemma starting_line_not_synthesis : starting_line <> synthesis_banner.
Proof. unfold starting_line, synthesis_banner. simpl. discriminate. Qed.

Lemma model_line_not_synthesis registry (model_id : string) :
  model_line registry model_id <> synthesis_banner.
Proof. unfold model_line, synthesis_banner. simpl. discriminate. Qed.

Lemma preprocessing_line_not_synthesis : preprocessing_line <> synthesis_banner.
Proof. unfold preprocessing_line, synthesis_banner. simpl. discriminate. Qed.

Lemma complete_line_not_synthesis (r : AnalysisResult) : complete_line r <> synthesis_banner.
Proof. unfold complete_line, synthesis_banner. simpl. discriminate. Qed.

(** Everything the properties below need about a run that got past
    [preprocess_image], for an analyzer built by [__init__]. *)
Lemma init_run registry world gemini_key openrouter_key png_path model_id n image_bytes :
  let self := __init__ world gemini_key openrouter_key in
  let provider := provider_of registry model_id in
  let os := outcomes registry world self provider image_bytes model_id n
              (analysis_passes self) in
  let sent := requests_of_passes registry world self provider image_bytes model_id n
                (analysis_passes self) in
  fst (preprocess_image world self png_path 0) = Ok image_bytes ->
  exists r evs,
    comprehensive_analysis registry world self png_path model_id n = (Ok r, evs)
    /\ keys os = pass_names
    /\ image_path r = png_path
    /\ model_used r = model_id
    /\ model_info r = registry !! model_id
    /\ analyses r = successes os
    /\ errors r = failures os
    /\ (In (Print synthesis_banner) evs <-> successes os <> [])
    /\ (successes os = [] -> summary r = empty_summary /\ sends evs = sent)
    /\ (successes os <> [] ->
          exists sevs,
            _generate_synthesis registry world self (successes os) model_id provider
              image_bytes (sent + n) = (Ok (summary r), sevs)
            /\ sends evs = sent + sends sevs)
    /\ (forall i pass_name,
          nth_error pass_names i = Some pass_name ->
          In (Print (pass_banner (1 + i) 5 pass_name)) evs)
    /\ (forall pass_name o,
          In (pass_name, o) os ->
          In (Print (outcome_line pass_name o)) evs).
Proof.
  intros self provider os sent Hpre.
  destruct (comprehensive_analysis_returns registry world self png_path model_id n
              image_bytes Hpre)
    as (r & loop_evs & syn_evs & Hrun & F1 & F2 & F3 & Han & Herr & Hsent & Hquiet
        & Hban & Hok & Hsyn).
  fold provider in Hrun, Han, Herr, Hsent, Hban, Hok, Hsyn.
  fold os in Han, Herr, Hok. fold sent in Hsent, Hsyn.
  destruct (init_analyses registry world gemini_key openrouter_key provider image_bytes
              model_id n) as [Hkeys Hfold].
  fold self os in Hkeys, Hfold. rewrite Hfold in Han.
  set (prelude := [Print starting_line; Print (model_line registry model_id);
                   Print preprocessing_line]) in *.
  assert (Hprelude : Forall not_synthesis_banner prelude).
  { repeat constructor.
    - apply starting_line_not_synthesis.
    - apply model_line_not_synthesis.
    - apply preprocessing_line_not_synthesis. }
  assert (Hlast : Forall not_synthesis_banner [Print (complete_line r)]).
  { repeat constructor. apply complete_line_not_synthesis. }
  assert (Hin_loop : forall ev, In ev loop_evs ->
            In ev (prelude ++ loop_evs ++ syn_evs ++ [Print (complete_line r)])).
  { intros ev Hin. apply in_or_app. right. apply in_or_app. left. exact Hin. }
  exists r, (prelude ++ loop_evs ++ syn_evs ++ [Print (complete_line r)]).
  split; [exact Hrun|].
  split; [exact Hkeys|].
  do 5 (split; [assumption|]).
  rewrite <- Han.
  split.
  { destruct (analyses r) as [|entry rest].
    - destruct Hsyn as [-> _]. split; [|congruence].
      intros Hin. exfalso.
      assert (Hall : Forall not_synthesis_banner
                       (prelude ++ loop_evs ++ [] ++ [Print (complete_line r)])).
      { repeat (apply Forall_app; split); try assumption. constructor. }
      rewrite List.Forall_forall in Hall. apply (Hall _ Hin). reflexivity.
    - destruct Hsyn as (sevs & -> & _). split; [congruence|].
      intros _. apply in_or_app. right. apply in_or_app. right.
      apply in_or_app. left. left. reflexivity. }
  split.
  { intros Hnil. rewrite Hnil in Hsyn. destruct Hsyn as [-> Hsum].
    split; [exact Hsum|].
    rewrite !sends_app. simpl. lia. }
  split.
  { intros Hne. destruct (analyses r) as [|entry rest]; [congruence|].
    destruct Hsyn as (sevs & -> & Hgen). exists sevs. split; [exact Hgen|].
    rewrite !sends_app. simpl. lia. }
  split.
  { intros i pass_name Hnth. apply Hin_loop.
    assert (Hitem : exists prompt, nth_error (analysis_passes self) i = Some (pass_name, prompt)).
    { rewrite <- (proj1 (init_passes world gemini_key openrouter_key)) in Hnth.
      unfold keys in Hnth. rewrite nth_error_map in Hnth.
      destruct (nth_error (analysis_passes (__init__ world gemini_key openrouter_key)) i)
        as [[name prompt]|] eqn:Hi; [|discriminate].
      simpl in Hnth. injection Hnth as <-. exists prompt. exact Hi. }
    destruct Hitem as [prompt Hitem].
    exact (Hban i pass_name prompt Hitem). }
  { intros pass_name o Hin. apply Hin_loop. apply Hok. exact Hin. }
Qed.

(** Claim C9. When the synthesis is attempted (some pass answered) and its
    adapter call raises, the run still returns: [analyses] and [errors]
    hold the outcomes of all the passes, and the summary is the fixed
    message ['Synthesis failed'], the text of the error, and the success
    flag [False]. *)
Theorem C9_failed_synthesis_is_recorded
    (registry : gmap string ModelDescriptor) (world : World)
    (gemini_key : string) (openrouter_key : option string)
    (png_path model_id : string) (n : nat) (image_bytes : list Byte.byte) (e : exn) :
  let self := __init__ world gemini_key openrouter_key in
  let provider := provider_of registry model_id in
  let os := outcomes registry world self provider image_bytes model_id n
              (analysis_passes self) in
  let sent := requests_of_passes registry world self provider image_bytes model_id n
                (analysis_passes self) in
  fst (preprocess_image world self png_path 0) = Ok image_bytes ->
  successes os <> [] ->
  fst (invoke_synthesis registry world self provider image_bytes
         (synthesis_prompt_of (successes os)) model_id (sent + n)) = Raise e ->
  exists r evs,
    comprehensive_analysis registry world self png_path model_id n = (Ok r, evs)
    /\ In (Print synthesis_banner) evs
    /\ analyses r = successes os
    /\ errors r = failures os
    /\ summary r = {| executive_summary := Some (Some "Synthesis failed");
                      total_analysis_length := None;
                      synthesis_success := Some false;
                      error := Some (str_exn e) |}.
Proof.
  intros self provider os sent Hpre Hsome Hfails.
  destruct (init_run registry world gemini_key openrouter_key png_path model_id n
              image_bytes Hpre)
    as (r & evs & Hrun & _ & _ & _ & _ & Han & Herr & Hbanner & _ & Hsyn & _).
  fold self provider in Hrun, Han, Herr, Hbanner, Hsyn.
  fold os in Han, Herr, Hbanner, Hsyn. fold sent in Hsyn.
  exists r, evs.
  split; [exact Hrun|]. split; [apply Hbanner; exact Hsome|].
  split; [exact Han|]. split; [exact Herr|].
  destruct (Hsyn Hsome) as (sevs & Hgen & _).
  rewrite _generate_synthesis_eq in Hgen.
  destruct (invoke_synthesis registry world self provider image_bytes
              (synthesis_prompt_of (successes os)) model_id (sent + n))
    as [[text|e'] sevs']; simpl in Hfails; [discriminate|].
  injection Hfails as ->. injection Hgen as <- _. reflexivity.
Qed.

(** Four passes answer, the synthesis request times out. *)
Lemma C9_failed_synthesis_is_recorded_witness :
  let o := Demo.run Demo.flaky None "drawing.png" "gemini-2.5-flash" in
  keys (analyses (Demo.result_of o)) = ["overview"; "components"; "measurements"; "quality"]
  /\ summary (Demo.result_of o)
     = {| executive_summary := Some (Some "Synthesis failed");
          total_analysis_length := None;
          synthesis_success := Some false;
          error := Some "The read operation timed out" |}.
Proof.
  intros o.
  destruct (C9_failed_synthesis_is_recorded MODELS Demo.flaky "AIza-demo" None
              "drawing.png" "gemini-2.5-flash" 0
              [Byte.x89; Byte.x50; Byte.x4e; Byte.x47]
              (Exception "ReadTimeout" "The read operation timed out"))
    as (r & evs & Hrun & _ & Han & _ & Hsum).
  - vm_compute. reflexivity.
  - vm_compute. discriminate.
  - vm_compute. reflexivity.
  - assert (Ho : o = (Ok r, evs)) by exact Hrun.
    rewrite Ho. change (Demo.result_of (Ok r, evs)) with r.
    rewrite Han, Hsum. split; reflexivity.
Defined.

(** *** Passes that all meet the same error, and passes sent to Gemini *)

Lemma outcomes_all_raise registry world self provider image_bytes model_id (e0 : exn) :
  (forall prompt k,
     invoke registry world self provider image_bytes prompt model_id k = (Raise e0, [])) ->
  forall items n,
    outcomes registry world self provider image_bytes model_id n items
    = map (fun item => (fst item, Raise e0)) items
    /\ requests_of_passes registry world self provider image_bytes model_id n items = 0.
Proof.
  intros Hraise items. induction items as [|[pass_name prompt] rest IH]; intros n; simpl.
  - split; reflexivity.
  - rewrite Hraise. simpl. destruct (IH n) as [-> ->]. split; reflexivity.
Qed.

Lemma all_raise_bookkeeping (e0 : exn) (items : list (string * string)) :
  successes (map (fun item => (fst item, Raise e0)) items) = []
  /\ failures (map (fun item => (fst item, Raise e0)) items) = all_failed e0 (keys items).
Proof.
  induction items as [|[pass_name prompt] rest [IH1 IH2]]; simpl; [split; reflexivity|].
  split; [exact IH1|]. rewrite IH2. reflexivity.
Qed.

Lemma outcomes_gemini registry world self image_bytes model_id items :
  forall n,
    outcomes registry world self "gemini" image_bytes model_id n items
    = gemini_answers world self image_bytes model_id n items
    /\ requests_of_passes registry world self "gemini" image_bytes model_id n items
       = length items.
Proof.
  induction items as [|[pass_name prompt] rest IH]; intros n; simpl.
  - split; reflexivity.
  - destruct (IH (S n)) as [-> ->]. split; reflexivity.
Qed.

(** Claim C1, as the code has it. A model identifier that is not in the
    registry is not an error: the provider is taken to be ['gemini'], the
    five passes are sent to the direct-vision service and the run returns
    a result. A descriptor whose provider tag has no adapter does not stop
    the run either: every pass records the failure ['Unknown provider:
    <tag>'], nothing is sent, and the result is returned with no analysis
    and the empty summary. *)
Theorem C1_unresolved_provider_is_not_fatal
    (registry : gmap string ModelDescriptor) (world : World)
    (gemini_key : string) (openrouter_key : option string)
    (png_path model_id : string) (n : nat) (image_bytes : list Byte.byte) :
  let self := __init__ world gemini_key openrouter_key in
  fst (preprocess_image world self png_path 0) = Ok image_bytes ->
  exists r evs,
    comprehensive_analysis registry world self png_path model_id n = (Ok r, evs)
    /\ (forall i pass_name,
          nth_error pass_names i = Some pass_name ->
          In (Print (pass_banner (1 + i) 5 pass_name)) evs)
    /\ (registry !! model_id = None ->
          let answers := gemini_answers world self image_bytes model_id n
                           (analysis_passes self) in
          provider_of registry model_id = "gemini"
          /\ model_info r = None
          /\ analyses r = successes answers
          /\ errors r = failures answers
          /\ 5 <= sends evs)
    /\ (forall d,
          registry !! model_id = Some d ->
          model_provider d <> "gemini" ->
          model_provider d <> "openrouter" ->
          analyses r = []
          /\ errors r = all_failed (unknown_provider (model_provider d)) pass_names
          /\ summary r = empty_summary
          /\ sends evs = 0).
Proof.
  intros self Hpre.
  destruct (init_run registry world gemini_key openrouter_key png_path model_id n
              image_bytes Hpre)
    as (r & evs & Hrun & Hkeys & _ & _ & Hinfo & Han & Herr & Hbanner & Hnone & Hsome
        & Hban & _).
  fold self in Hrun, Hkeys, Han, Herr, Hbanner, Hnone, Hsome.
  exists r, evs.
  split; [exact Hrun|]. split; [exact Hban|]. split.
  - intros Habsent answers.
    assert (Hprov : provider_of registry model_id = "gemini").
    { unfold provider_of. rewrite Habsent. reflexivity. }
    rewrite Hprov in Han, Herr, Hnone, Hsome.
    destruct (outcomes_gemini registry world self image_bytes model_id
                (analysis_passes self) n) as [Hos Hreq].
    rewrite Hos in Han, Herr, Hnone, Hsome. rewrite Hreq in Hnone, Hsome.
    fold answers in Han, Herr, Hnone, Hsome.
    split; [exact Hprov|]. split; [rewrite Hinfo; exact Habsent|].
    split; [exact Han|]. split; [exact Herr|].
    destruct (successes answers) as [|entry rest] eqn:Hs.
    + destruct (Hnone eq_refl) as [_ ->]. reflexivity.
    + destruct Hsome as (sevs & _ & ->); [discriminate|]. simpl. lia.
  - intros d Hd Hng Hno.
    assert (Hprov : provider_of registry model_id = model_provider d).
    { unfold provider_of. rewrite Hd. reflexivity. }
    rewrite Hprov in Han, Herr, Hnone.
    destruct (outcomes_all_raise registry world self (model_provider d) image_bytes
                model_id (unknown_provider (model_provider d))) with
      (items := analysis_passes self) (n := n) as [Hos Hreq].
    { intros prompt k. unfold invoke.
      destruct (String.eqb_spec (model_provider d) "gemini") as [Heq|_]; [contradiction|].
      destruct (String.eqb_spec (model_provider d) "openrouter") as [Heq|_];
        [contradiction|].
      reflexivity. }
    rewrite Hos in Han, Herr, Hnone. rewrite Hreq in Hnone.
    destruct (all_raise_bookkeeping (unknown_provider (model_provider d))
                (analysis_passes self)) as [Hs Hf].
    rewrite Hs in Han, Hnone. rewrite Hf in Herr.
    destruct (Hnone eq_refl) as [Hsum Hsends].
    repeat split; assumption.
Qed.

(** An identifier that is not in [MODELS]: five answers from the
    direct-vision service, and a synthesis. *)
Lemma C1_unresolved_provider_is_not_fatal_witness :
  let o := Demo.run Demo.all_fine None "drawing.png" "acme/unknown-model" in
  keys (analyses (Demo.result_of o)) = pass_names
  /\ errors (Demo.result_of o) = []
  /\ In (Print (pass_banner 1 5 "overview")) (snd o).
Proof.
  intros o.
  destruct (C1_unresolved_provider_is_not_fatal MODELS Demo.all_fine "AIza-demo" None
              "drawing.png" "acme/unknown-model" 0
              [Byte.x89; Byte.x50; Byte.x4e; Byte.x47])
    as (r & evs & Hrun & Hban & Habsent & _).
  - vm_compute. reflexivity.
  - assert (Ho : o = (Ok r, evs)) by exact Hrun.
    rewrite Ho. change (Demo.result_of (Ok r, evs)) with r.
    change (snd (Ok r, evs)) with evs.
    destruct Habsent as (_ & _ & Han & Herr & _); [vm_compute; reflexivity|].
    rewrite Han, Herr.
    split; [vm_compute; reflexivity|]. split; [vm_compute; reflexivity|].
    apply (Hban 0 "overview"). reflexivity.
Defined.

(** Claim C1 fails as stated: with an identifier that [MODELS] does not
    have, the run does not abort; it returns a result with five analyses. *)
Lemma C1_counterexample :
  MODELS !! "acme/unknown-model" = None
  /\ exists r,
       fst (Demo.run Demo.all_fine None "drawing.png" "acme/unknown-model") = Ok r
       /\ model_used r = "acme/unknown-model"
       /\ keys (analyses r) = pass_names
       /\ errors r = []
       /\ synthesis_success (summary r) = Some true.
Proof.
  split; [vm_compute; reflexivity|].
  eexists. split; [vm_compute; reflexivity|].
  repeat split; reflexivity.
Qed.

(** A provider tag without an adapter: five recorded failures, no abort. *)
Example unknown_provider_tag_run :
  let o := comprehensive_analysis Demo.odd_registry Demo.all_fine
             (__init__ Demo.all_fine "AIza-demo" None) "drawing.png" "acme/vision-1" 0 in
  exists r,
    fst o = Ok r
    /\ analyses r = []
    /\ errors r = all_failed (unknown_provider "acme") pass_names
    /\ sends (snd o) = 0.
Proof.
  eexists. split; [vm_compute; reflexivity|].
  repeat split; vm_compute; reflexivity.
Qed.

(** *** The report *)

Lemma fold_pass_sections (entries : list (string * option string)) :
  forall lines : list (option string),
    fold_left (fun lines entry => lines ++ pass_section entry) entries lines
    = lines ++ flat_map pass_section entries.
Proof.
  induction entries as [|entry rest IH]; intros lines; simpl.
  - rewrite app_nil_r. reflexivity.
  - rewrite IH, <- app_assoc. reflexivity.
Qed.

Lemma report_lines_eq (r : AnalysisResult) :
  report_lines r
  = map Some (report_header r)
    ++ (if truthy (get_executive_summary (summary r))
        then [ Some "EXECUTIVE SUMMARY"; Some (rule "-");
               get_executive_summary (summary r); Some "" ]
        else [])
    ++ map Some detailed_heading
    ++ flat_map pass_section (analyses r).
Proof.
  unfold report_lines. rewrite fold_pass_sections.
  destruct (truthy (get_executive_summary (summary r))); reflexivity.
Qed.


(** *** [join] on a list that may hold [None] *)

Lemma first_none_texts (head : list string) (l : list (option string)) (i : nat) :
  first_none i (map Some head ++ l) = first_none (length head + i) l
  /\ texts (map Some head ++ l) = head ++ texts l.
Proof.
  revert i. induction head as [|s head IH]; intros i; simpl; [split; reflexivity|].
  destruct (IH (S i)) as [-> ->]. split; [f_equal; lia | reflexivity].
Qed.

Lemma first_none_None (l : list (option string)) (i : nat) :
  first_none i l = None <-> ~ In None l.
Proof.
  revert i. induction l as [|[s|] l IH]; intros i; simpl.
  - tauto.
  - rewrite IH. split; [intros H [H'|H']; [discriminate | exact (H H')] | tauto].
  - split; [discriminate | intros H; exfalso; apply H; left; reflexivity].
Qed.

Lemma In_pass_sections (entries : list (string * option string)) :
  In None (flat_map pass_section entries) <-> exists name, In (name, None) entries.
Proof.
  induction entries as [|[name content] rest IH]; cbn [flat_map pass_section].
  - split; [intros [] | intros (name & [])].
  - rewrite in_app_iff, IH. cbn [In]. split.
    + intros [[H|[H|[H|[H|[]]]]]|(name' & H)]; try discriminate.
      * exists name. left. rewrite H. reflexivity.
      * exists name'. right. exact H.
    + intros (name' & [H|H]).
      * injection H as _ ->. left. right. right. left. reflexivity.
      * right. exists name'. exact H.
Qed.


(** Claim C6. Without a chat-completions credential (no non-empty key as
    argument nor in the environment) [__init__] still builds the analyzer;
    every call of the chat-completions adapter then raises before sending
    anything, and a run over a model of provider ['openrouter'] records, for each of
    the five passes, the failure ['OpenRouter API key not configured'];
    nothing is sent, the synthesis is skipped, and the report has neither
    a summary section nor any analysis section. *)
Theorem C6_missing_openrouter_key
    (registry : gmap string ModelDescriptor) (world : World)
    (gemini_key : string) (openrouter_key : option string)
    (png_path model_id : string) (n : nat) (image_bytes : list Byte.byte)
    (d : ModelDescriptor) :
  let self := __init__ world gemini_key openrouter_key in
  truthy openrouter_key = false ->
  truthy (getenv world "OPENROUTER_API_KEY") = false ->
  registry !! model_id = Some d ->
  model_provider d = "openrouter" ->
  fst (preprocess_image world self png_path 0) = Ok image_bytes ->
  truthy (openrouter_api_key self) = false
  /\ (forall bytes prompt model k,
        analyze_with_openrouter registry world self bytes prompt model k
        = (Raise missing_key, []))
  /\ exists r evs,
       comprehensive_analysis registry world self png_path model_id n = (Ok r, evs)
       /\ errors r = all_failed missing_key pass_names
       /\ analyses r = []
       /\ summary r = empty_summary
       /\ sends evs = 0
       /\ ~ In (Print synthesis_banner) evs
       /\ report_lines r =
            map Some
              [ rule "="; "COMPREHENSIVE CAD DRAWING ANALYSIS"; rule "="; "";
                "Model: " +:+ model_name d; "Provider: openrouter"; "";
                "DETAILED ANALYSES"; rule "="; "" ].
Proof.
  intros self Harg Henv Hd Hprovider Hpre.
  assert (Hkey : truthy (openrouter_api_key self) = false).
  { simpl. unfold or_else. rewrite Harg. exact Henv. }
  split; [exact Hkey|].
  assert (Hcall : forall bytes prompt model k,
            analyze_with_openrouter registry world self bytes prompt model k
            = (Raise missing_key, [])).
  { intros bytes prompt model k. unfold analyze_with_openrouter. rewrite Hkey. reflexivity. }
  split; [exact Hcall|].
  destruct (init_run registry world gemini_key openrouter_key png_path model_id n
              image_bytes Hpre)
    as (r & evs & Hrun & Hkeys & _ & _ & Hinfo & Han & Herr & Hbanner & Hnone & _).
  fold self in Hrun, Hkeys, Han, Herr, Hbanner, Hnone.
  assert (Hprov : provider_of registry model_id = "openrouter").
  { unfold provider_of. rewrite Hd. exact Hprovider. }
  rewrite Hprov in Han, Herr, Hbanner, Hnone.
  destruct (outcomes_all_raise registry world self "openrouter" image_bytes model_id
              missing_key) with (items := analysis_passes self) (n := n) as [Hos Hreq].
  { intros prompt k. unfold invoke. simpl String.eqb. cbv iota. apply Hcall. }
  rewrite Hos in Han, Herr, Hbanner, Hnone. rewrite Hreq in Hnone.
  destruct (all_raise_bookkeeping missing_key (analysis_passes self)) as [Hs Hf].
  rewrite Hs in Han, Hbanner, Hnone. rewrite Hf in Herr.
  destruct (Hnone eq_refl) as [Hsum Hsends].
  exists r, evs.
  split; [exact Hrun|]. split; [exact Herr|]. split; [exact Han|].
  split; [exact Hsum|]. split; [exact Hsends|].
  split; [intros Hin; apply Hbanner in Hin; apply Hin; reflexivity|].
  rewrite report_lines_eq. unfold report_header.
  rewrite Hsum, Han, Hinfo, Hd. simpl. rewrite Hprovider. reflexivity.
Qed.

(** DeepSeek R1 without a key: five failures, no request, a bare report. *)
Lemma C6_missing_openrouter_key_witness :
  let o := Demo.run Demo.all_fine None "drawing.png" "deepseek/deepseek-r1" in
  errors (Demo.result_of o) = all_failed missing_key pass_names
  /\ sends (snd o) = 0
  /\ length (report_lines (Demo.result_of o)) = 10.
Proof.
  intros o.
  destruct (C6_missing_openrouter_key MODELS Demo.all_fine "AIza-demo" None
              "drawing.png" "deepseek/deepseek-r1" 0
              [Byte.x89; Byte.x50; Byte.x4e; Byte.x47]
              {| model_name := "DeepSeek R1"; model_provider := "openrouter";
                 model_capabilities := ["reasoning"; "advanced"]; model_free := false;
                 model_context := "64K tokens";
                 model_notes := Some "Excellent reasoning, chain-of-thought analysis" |})
    as (_ & _ & r & evs & Hrun & Herr & _ & _ & Hsends & _ & Hreport).
  - reflexivity.
  - reflexivity.
  - vm_compute. reflexivity.
  - reflexivity.
  - vm_compute. reflexivity.
  - assert (Ho : o = (Ok r, evs)) by exact Hrun.
    rewrite Ho. change (Demo.result_of (Ok r, evs)) with r.
    change (snd (Ok r, evs)) with evs.
    rewrite Herr, Hsends, Hreport. repeat split; reflexivity.
Defined.



(** *** The request of the chat-completions adapter *)

Lemma has_vision_In (l : list string) :
  existsb (String.eqb "vision") l = true <-> In "vision" l.
Proof.
  rewrite existsb_exists. split.
  - intros (x & Hin & Heq). apply String.eqb_eq in Heq. subst. exact Hin.
  - intros Hin. exists "vision". split; [exact Hin | apply String.eqb_refl].
Qed.


(** The two kinds of model of the registry, on a two-byte image. *)
Example request_bodies :
  image_parts (request_body MODELS [Byte.x89; Byte.x50] "Describe." "deepseek/deepseek-r1") = 0
  /\ image_parts (request_body MODELS [Byte.x89; Byte.x50] "Describe."
                    "xiaomi/mimo-v2-flash:free") = 1
  /\ image_parts (request_body MODELS [Byte.x89; Byte.x50] "Describe." "acme/unknown-model") = 0
  /\ b64encode [Byte.x89; Byte.x50] = "iVA=".
Proof. repeat split; vm_compute; reflexivity. Qed.

(** *** Binary64 arithmetic: rounding, and what [int(dim * ratio)] can be *)

Section Binary64.

Local Open Scope Z_scope.

(** The number of binary digits of a positive number. *)
Lemma digits2_pos_bounds (p : positive) :
  2 ^ (Zpos (digits2_pos p) - 1) <= Zpos p < 2 ^ Zpos (digits2_pos p).
Proof.
  induction p as [p IH|p IH|]; simpl digits2_pos.
  - rewrite Pos2Z.inj_succ, (Pos2Z.inj_xI p).
    replace (Z.succ (Zpos (digits2_pos p)) - 1) with (Z.succ (Zpos (digits2_pos p) - 1)) by lia.
    rewrite !Z.pow_succ_r by lia.
    replace (Z.succ (Z.pos (digits2_pos p) - 1)) with (Z.pos (digits2_pos p)) by lia.
    lia.
  - rewrite Pos2Z.inj_succ, (Pos2Z.inj_xO p).
    replace (Z.succ (Zpos (digits2_pos p)) - 1) with (Z.succ (Zpos (digits2_pos p) - 1)) by lia.
    rewrite !Z.pow_succ_r by lia.
    replace (Z.succ (Z.pos (digits2_pos p) - 1)) with (Z.pos (digits2_pos p)) by lia.
    lia.
  - simpl. lia.
Qed.

Lemma digits2_pos_unique (p : positive) (k : Z) :
  2 ^ (k - 1) <= Zpos p < 2 ^ k -> Zpos (digits2_pos p) = k.
Proof.
  intros [Hlo Hhi]. pose proof (digits2_pos_bounds p) as [Dlo Dhi].
  assert (Hk : 0 < k).
  { destruct (Z.ltb_spec 0 k) as [H|H]; [exact H|].
    exfalso. destruct (Z.eq_dec k 0) as [->|Hne]; [simpl in Hhi; lia|].
    rewrite Z.pow_neg_r in Hhi by lia. lia. }
  destruct (Z.lt_trichotomy (Zpos (digits2_pos p)) k) as [Hlt|[Heq|Hgt]]; [|exact Heq|].
  - exfalso. assert (2 ^ Zpos (digits2_pos p) <= 2 ^ (k - 1)) by (apply Z.pow_le_mono_r; lia).
    lia.
  - exfalso. assert (2 ^ k <= 2 ^ (Zpos (digits2_pos p) - 1)) by (apply Z.pow_le_mono_r; lia).
    lia.
Qed.


Lemma located_bounds N D m l : located N D m l -> m * D <= N < (m + 1) * D.
Proof. unfold located. destruct l as [|[]]; nia. Qed.

Lemma loc_of_record m l : loc_of_shr_record (shr_record_of_loc m l) = l /\ shr_m (shr_record_of_loc m l) = m.
Proof. destruct l as [|[]]; split; reflexivity. Qed.

(** One right shift halves the value and keeps its place: the rational is
    the same, over twice the denominator. *)
Lemma shr_1_located N D mrs :
  located N D (shr_m mrs) (loc_of_shr_record mrs) ->
  located N (2 * D) (shr_m (shr_1 mrs)) (loc_of_shr_record (shr_1 mrs)).
Proof.
  destruct mrs as [m r s].
  destruct m as [|[p|p|]|p]; destruct r, s;
    cbv [shr_1 shr_m shr_r shr_s loc_of_shr_record orb located];
    rewrite ?(Pos2Z.inj_xI p), ?(Pos2Z.inj_xO p); intros (HD & Hm & H); try lia;
    (split; [lia|]); (split; [lia|]); nia.
Qed.

Lemma iter_shr_1_located N D (k : nat) : forall mrs,
  located N D (shr_m mrs) (loc_of_shr_record mrs) ->
  located N (2 ^ Z.of_nat k * D) (shr_m (Nat.iter k shr_1 mrs))
    (loc_of_shr_record (Nat.iter k shr_1 mrs)).
Proof.
  induction k as [|k IH]; intros mrs H.
  - change (2 ^ Z.of_nat 0) with 1. replace (1 * D) with D by lia. exact H.
  - rewrite Nat2Z.inj_succ, Z.pow_succ_r by lia.
    change (Nat.iter (S k) shr_1 mrs) with (shr_1 (Nat.iter k shr_1 mrs)).
    replace (2 * 2 ^ Z.of_nat k * D) with (2 * (2 ^ Z.of_nat k * D)) by lia.
    apply shr_1_located, IH, H.
Qed.

(** [iter_pos] is iteration over the unary number. *)
Lemma iter_pos_nat {A} (f : A -> A) (n : positive) : forall x,
  SpecFloat.iter_pos f n x = Nat.iter (Pos.to_nat n) f x.
Proof.
  induction n as [n IH|n IH|]; intros x; cbn [SpecFloat.iter_pos].
  - rewrite !IH, Pos2Nat.inj_xI.
    replace (S (2 * Pos.to_nat n)) with (Pos.to_nat n + S (Pos.to_nat n))%nat by lia.
    rewrite Nat.iter_add, Nat.iter_succ_r. reflexivity.
  - rewrite !IH, Pos2Nat.inj_xO.
    replace (2 * Pos.to_nat n)%nat with (Pos.to_nat n + Pos.to_nat n)%nat by lia.
    rewrite Nat.iter_add. reflexivity.
  - reflexivity.
Qed.

(** Rounding to nearest moves by at most half a unit. *)
Lemma round_nearest_even_located N D m l :
  located N D m l ->
  (round_nearest_even m l = m \/ round_nearest_even m l = m + 1)
  /\ - D <= 2 * (round_nearest_even m l * D - N) <= D.
Proof.
  unfold located. intros (HD & Hm & H).
  destruct l as [|[]]; cbv [round_nearest_even]; try destruct (Z.even m); split;
    try (left; reflexivity); try (right; reflexivity); nia.
Qed.

Lemma fexp_normal (e : Z) : -1074 <= e - 53 -> fexp 53 1024 e = e - 53.
Proof. unfold fexp, emin. lia. Qed.

(** In the normal range [shr_fexp] drops the digits beyond the 53rd. *)
Lemma shr_fexp_located (p : positive) (e : Z) (l : location) (N D : Z) :
  located N D (Zpos p) l ->
  53 <= Zpos (digits2_pos p) ->
  -1074 <= Zpos (digits2_pos p) + e - 53 ->
  exists mrs,
    shr_fexp 53 1024 (Zpos p) e l = (mrs, e + (Zpos (digits2_pos p) - 53))
    /\ located N (2 ^ (Zpos (digits2_pos p) - 53) * D) (shr_m mrs) (loc_of_shr_record mrs).
Proof.
  intros Hloc Hdg Hnorm. unfold shr_fexp.
  change (Zdigits2 (Zpos p)) with (Zpos (digits2_pos p)).
  rewrite fexp_normal by lia.
  replace (Zpos (digits2_pos p) + e - 53 - e) with (Zpos (digits2_pos p) - 53) by lia.
  destruct (loc_of_record (Zpos p) l) as [Hl Hm].
  destruct (Zpos (digits2_pos p) - 53) as [|k|k] eqn:Hk; [| |lia].
  - eexists. split; [unfold shr; f_equal; lia|].
    rewrite Hl, Hm. change (2 ^ 0) with 1. replace (1 * D) with D by lia. exact Hloc.
  - eexists. split; [unfold shr; reflexivity|].
    rewrite iter_pos_nat. rewrite <- (positive_nat_Z k).
    apply iter_shr_1_located. rewrite Hl, Hm. exact Hloc.
Qed.

(** After the shift the mantissa has exactly 53 digits. *)
Lemma mantissa_range (N D m k dg : Z) (p : positive) (l l' : location) :
  located N D (Zpos p) l ->
  Zpos (digits2_pos p) = 53 + k -> 0 <= k ->
  located N (2 ^ k * D) m l' ->
  2 ^ 52 <= m < 2 ^ 53.
Proof.
  intros Hl Hdg Hk Hl'.
  pose proof (located_bounds _ _ _ _ Hl) as [B1 B2].
  pose proof (located_bounds _ _ _ _ Hl') as [B3 B4].
  pose proof (digits2_pos_bounds p) as [D1 D2].
  rewrite Hdg in D1, D2.
  replace (53 + k - 1) with (52 + k) in D1 by lia.
  rewrite Z.pow_add_r in D1, D2 by lia.
  destruct Hl as (HD & _). 
  assert (HP : 0 < 2 ^ k) by (apply Z.pow_pos_nonneg; lia).
  set (P := 2 ^ k) in *. 
  split.
  - assert (2 ^ 52 * (P * D) < (m + 1) * (P * D)) by nia.
    assert (2 ^ 52 < m + 1).
    { apply Z.mul_lt_mono_pos_r with (p := P * D); [nia|assumption]. }
    lia.
  - assert (m * (P * D) < 2 ^ 53 * (P * D)) by nia.
    apply Z.mul_lt_mono_pos_r with (p := P * D); [nia|assumption].
Qed.

Lemma shr_fexp_canonical (q : positive) (e : Z) :
  Zpos (digits2_pos q) = 53 -> -1074 <= e ->
  shr_fexp 53 1024 (Zpos q) e loc_Exact
  = (Build_shr_record (Zpos q) false false, e).
Proof.
  intros Hdg He. unfold shr_fexp.
  change (Zdigits2 (Zpos q)) with (Zpos (digits2_pos q)).
  rewrite Hdg, fexp_normal by lia.
  replace (53 + e - 53 - e) with 0 by lia. reflexivity.
Qed.

(** Rounding a located positive value in the normal range: a finite
    number with a 53-digit mantissa, within half a unit in the last place
    of the value. *)
Lemma binary_round_aux_spec (p : positive) (ex : Z) (lx : location) (N D : Z) :
  located N D (Zpos p) lx ->
  53 <= Zpos (digits2_pos p) ->
  -1074 <= Zpos (digits2_pos p) + ex - 53 ->
  Zpos (digits2_pos p) + ex - 53 < 971 ->
  exists m e,
    binary_round_aux 53 1024 false (Zpos p) ex lx = S754_finite false m e
    /\ 2 ^ 52 <= Zpos m < 2 ^ 53
    /\ (e = ex + (Zpos (digits2_pos p) - 53) \/ e = ex + (Zpos (digits2_pos p) - 53) + 1)
    /\ - (2 ^ (e - ex) * D) <= 2 * (Zpos m * (2 ^ (e - ex) * D) - N) <= 2 ^ (e - ex) * D.
Proof.
  intros Hloc Hdg Hnorm Hmax.
  destruct (shr_fexp_located p ex lx N D Hloc Hdg Hnorm) as (mrs & Hshr & Hloc').
  set (k := Zpos (digits2_pos p) - 53) in *.
  assert (Hk : 0 <= k) by (unfold k; lia).
  pose proof (mantissa_range N D (shr_m mrs) k 0 p lx _ Hloc ltac:(unfold k; lia) Hk Hloc')
    as Hrange.
  destruct (round_nearest_even_located _ _ _ _ Hloc') as [Hcases Herr].
  set (M := round_nearest_even (shr_m mrs) (loc_of_shr_record mrs)) in *.
  assert (HM : 2 ^ 52 <= M <= 2 ^ 53) by lia.
  unfold binary_round_aux. rewrite Hshr. fold M.
  destruct (Z.eq_dec M (2 ^ 53)) as [Hov|Hno].
  - (* the rounding reached 2^53: one more shift *)
    rewrite Hov.
    exists (Z.to_pos (2 ^ 52)), (ex + k + 1).
    split.
    { change (shr_fexp 53 1024 (2 ^ 53) (ex + k) loc_Exact)
        with (shr (Build_shr_record (2 ^ 53) false false) (ex + k)
                (fexp 53 1024 (54 + (ex + k)) - (ex + k))).
      rewrite fexp_normal by lia.
      replace (54 + (ex + k) - 53 - (ex + k)) with 1 by lia.
      cbv [shr]. change (SpecFloat.iter_pos shr_1 1 (Build_shr_record (2 ^ 53) false false))
        with (Build_shr_record (2 ^ 52) false false).
      cbv [shr_m]. change (2 ^ 52) with (Zpos (Z.to_pos (2 ^ 52))) at 1.
      cbv iota beta.
      destruct (Z.leb_spec (ex + k + 1) (1024 - 53)) as [_|Hbad]; [reflexivity|lia]. }
    split; [change (Zpos (Z.to_pos (2 ^ 52))) with (2 ^ 52); lia|].
    split; [right; reflexivity|].
    change (Zpos (Z.to_pos (2 ^ 52))) with (2 ^ 52).
    replace (ex + k + 1 - ex) with (Z.succ k) by lia.
    rewrite Z.pow_succ_r by lia.
    rewrite Hov in Herr.
    assert (0 < 2 ^ k * D).
    { destruct Hloc as (HD & _). apply Z.mul_pos_pos; [apply Z.pow_pos_nonneg; lia|lia]. }
    change (2 ^ 53) with (2 * 2 ^ 52) in Herr. nia.
  - destruct M as [|q|q] eqn:HMq; [lia| |lia].
    assert (Hq : Zpos (digits2_pos q) = 53).
    { apply digits2_pos_unique. change (53 - 1) with 52. lia. }
    rewrite shr_fexp_canonical by lia.
    exists q, (ex + k).
    cbv [shr_m]. cbv iota beta.
    split.
    { destruct (Z.leb_spec (ex + k) (1024 - 53)) as [_|Hbad]; [reflexivity|lia]. }
    split; [lia|]. split; [left; reflexivity|].
    replace (ex + k - ex) with k by lia. exact Herr.
Qed.


(** A 53-digit mantissa with nothing to round is kept as it is. *)
Lemma binary_round_aux_canonical (s : bool) (q : positive) (e : Z) :
  Zpos (digits2_pos q) = 53 -> -1074 <= e <= 971 ->
  binary_round_aux 53 1024 s (Zpos q) e loc_Exact = S754_finite s q e.
Proof.
  intros Hdg He. unfold binary_round_aux.
  rewrite shr_fexp_canonical by lia. cbv [shr_m loc_of_shr_record round_nearest_even].
  rewrite shr_fexp_canonical by lia. cbv [shr_m].
  destruct (Z.leb_spec e (1024 - 53)) as [_|Hbad]; [reflexivity|lia].
Qed.

Lemma pos_iter_xO (p d : positive) : Zpos (Pos.iter xO p d) = Zpos p * 2 ^ Zpos d.
Proof.
  induction d as [|d IH] using Pos.peano_ind.
  - simpl. lia.
  - rewrite Pos.iter_succ, Pos2Z.inj_xO, IH, Pos2Z.inj_succ, Z.pow_succ_r by lia. lia.
Qed.

(** A positive integer below 2^53 converts exactly. *)
Lemma float_of_int_pos (z : Z) :
  0 < z < 2 ^ 53 ->
  exists m e,
    float_of_int z = S754_finite false m e
    /\ Zpos (digits2_pos m) = 53
    /\ -52 <= e <= 0
    /\ Zpos m = z * 2 ^ (- e).
Proof.
  intros [Hpos Hlt]. destruct z as [|p|p]; [lia| |lia].
  pose proof (digits2_pos_bounds p) as [D1 D2].
  assert (Hdg : 1 <= Zpos (digits2_pos p) <= 53).
  { split; [lia|].
    destruct (Z.leb_spec (Zpos (digits2_pos p)) 53) as [H|H]; [exact H|].
    exfalso. assert (2 ^ 53 <= 2 ^ (Zpos (digits2_pos p) - 1)) by (apply Z.pow_le_mono_r; lia).
    lia. }
  unfold float_of_int, binary_normalize, binary_round, shl_align.
  rewrite fexp_normal by lia.
  replace (Zpos (digits2_pos p) + 0 - 53 - 0) with (Zpos (digits2_pos p) - 53) by lia.
  destruct (Zpos (digits2_pos p) - 53) as [|k|k] eqn:Hk; [| lia |].
  - assert (H53 : Zpos (digits2_pos p) = 53) by lia.
    rewrite binary_round_aux_canonical by lia.
    exists p, 0. repeat split; lia.
  - assert (Hdk : Zpos (digits2_pos p) + Zpos k = 53) by lia.
    assert (Hm : Zpos (digits2_pos (Pos.iter xO p k)) = 53).
    { apply digits2_pos_unique. rewrite pos_iter_xO.
      assert (E1 : 2 ^ (53 - 1) = 2 ^ (Zpos (digits2_pos p) - 1) * 2 ^ Zpos k)
        by (rewrite <- Z.pow_add_r by lia; f_equal; lia).
      assert (E2 : 2 ^ 53 = 2 ^ Zpos (digits2_pos p) * 2 ^ Zpos k)
        by (rewrite <- Z.pow_add_r by lia; f_equal; lia).
      rewrite E1, E2.
      assert (0 < 2 ^ Zpos k) by (apply Z.pow_pos_nonneg; lia).
      split.
      - apply Z.mul_le_mono_nonneg_r; lia.
      - apply Z.mul_lt_mono_pos_r; lia. }
    replace (Zpos (digits2_pos p) + 0 - 53) with (Zneg k) by lia.
    rewrite binary_round_aux_canonical by lia.
    exists (Pos.iter xO p k), (Zneg k). repeat split; try lia; try exact Hm.
    rewrite pos_iter_xO. reflexivity.
Qed.

Lemma float_of_int_0 : float_of_int 0 = S754_zero false.
Proof. reflexivity. Qed.

Lemma canonical_range (m : positive) :
  Zpos (digits2_pos m) = 53 -> 2 ^ 52 <= Zpos m < 2 ^ 53.
Proof. intros H. pose proof (digits2_pos_bounds m) as B. rewrite H in B. exact B. Qed.

Lemma new_location_located (N D q r : Z) :
  0 < D -> 0 <= q -> 0 <= r < D -> N = q * D + r ->
  located N D q (new_location D r).
Proof.
  intros HD Hq Hr HN. unfold located. split; [exact HD|]. split; [exact Hq|].
  unfold new_location, new_location_even, new_location_odd.
  destruct (Z.even D) eqn:Hev.
  - destruct (Z.eqb_spec r 0) as [->|Hr0]; [lia|].
    destruct (Z.compare_spec (2 * r) D); nia.
  - destruct (Z.eqb_spec r 0) as [->|Hr0]; [lia|].
    assert (Hodd : Z.odd D = true) by (rewrite <- Z.negb_even, Hev; reflexivity).
    apply Z.odd_spec in Hodd. destruct Hodd as [t Ht].
    destruct (Z.compare_spec (2 * r + 1) D); nia.
Qed.

(** The quotient of two positive normal numbers, rounded. *)
Lemma SFdiv_spec (m1 m2 : positive) (e1 e2 : Z) :
  Zpos (digits2_pos m1) = 53 -> Zpos (digits2_pos m2) = 53 ->
  -1000 <= e1 - e2 <= 1000 ->
  exists m e,
    SFdiv 53 1024 (S754_finite false m1 e1) (S754_finite false m2 e2)
    = S754_finite false m e
    /\ Zpos (digits2_pos m) = 53
    /\ e1 - e2 - 53 <= e <= e1 - e2 - 53 + 2
    /\ - (2 ^ (e - (e1 - e2 - 53)) * Zpos m2)
       <= 2 * (Zpos m * (2 ^ (e - (e1 - e2 - 53)) * Zpos m2) - Zpos m1 * 2 ^ 53)
       <= 2 ^ (e - (e1 - e2 - 53)) * Zpos m2.
Proof.
  intros H1 H2 He.
  pose proof (canonical_range m1 H1) as R1. pose proof (canonical_range m2 H2) as R2.
  unfold SFdiv, SFdiv_core_binary.
  change (Zdigits2 (Zpos m1)) with (Zpos (digits2_pos m1)).
  change (Zdigits2 (Zpos m2)) with (Zpos (digits2_pos m2)).
  rewrite H1, H2, fexp_normal by lia.
  replace (Z.min (53 + e1 - (53 + e2) - 53) (e1 - e2)) with (e1 - e2 - 53) by lia.
  replace (e1 - e2 - (e1 - e2 - 53)) with 53 by lia.
  rewrite Z.shiftl_mul_pow2 by lia.
  pose proof (Z_div_mod (Zpos m1 * 2 ^ 53) (Zpos m2) ltac:(lia)) as Hdiv.
  destruct (Z.div_eucl (Zpos m1 * 2 ^ 53) (Zpos m2)) as [q r].
  destruct Hdiv as [HN Hr].
  assert (Hq : 2 ^ 52 <= q < 2 ^ 54) by nia.
  destruct q as [|q|q]; [lia| |lia].
  assert (Hloc : located (Zpos m1 * 2 ^ 53) (Zpos m2) (Zpos q) (new_location (Zpos m2) r)).
  { apply new_location_located; lia. }
  assert (Hdq : 53 <= Zpos (digits2_pos q) <= 54).
  { pose proof (digits2_pos_bounds q) as [B1 B2]. split.
    - destruct (Z.leb_spec 53 (Zpos (digits2_pos q))) as [H|H]; [exact H|].
      exfalso. assert (2 ^ Zpos (digits2_pos q) <= 2 ^ 52) by (apply Z.pow_le_mono_r; lia).
      lia.
    - destruct (Z.leb_spec (Zpos (digits2_pos q)) 54) as [H|H]; [exact H|].
      exfalso.
      assert (2 ^ 54 <= 2 ^ (Zpos (digits2_pos q) - 1)) by (apply Z.pow_le_mono_r; lia).
      lia. }
  destruct (binary_round_aux_spec q (e1 - e2 - 53) (new_location (Zpos m2) r)
              (Zpos m1 * 2 ^ 53) (Zpos m2) Hloc) as (m & e & Hround & Hm & He' & Herr);
    try lia.
  exists m, e. simpl xorb.
  split; [exact Hround|].
  split; [apply digits2_pos_unique; change (53 - 1) with 52; exact Hm|].
  split; [lia|]. exact Herr.
Qed.

(** The product of two positive normal numbers, rounded. *)
Lemma SFmul_spec (m1 m2 : positive) (e1 e2 : Z) :
  Zpos (digits2_pos m1) = 53 -> Zpos (digits2_pos m2) = 53 ->
  -1000 <= e1 + e2 <= 800 ->
  exists m e,
    SFmul 53 1024 (S754_finite false m1 e1) (S754_finite false m2 e2)
    = S754_finite false m e
    /\ Zpos (digits2_pos m) = 53
    /\ e1 + e2 + 52 <= e <= e1 + e2 + 54
    /\ - 2 ^ (e - (e1 + e2))
       <= 2 * (Zpos m * 2 ^ (e - (e1 + e2)) - Zpos m1 * Zpos m2)
       <= 2 ^ (e - (e1 + e2)).
Proof.
  intros H1 H2 He.
  pose proof (canonical_range m1 H1) as R1. pose proof (canonical_range m2 H2) as R2.
  unfold SFmul. simpl xorb.
  assert (Hprod : 2 ^ 104 <= Zpos (m1 * m2) < 2 ^ 106).
  { rewrite Pos2Z.inj_mul. change (2 ^ 104) with (2 ^ 52 * 2 ^ 52).
    change (2 ^ 106) with (2 ^ 53 * 2 ^ 53). nia. }
  assert (Hdq : 105 <= Zpos (digits2_pos (m1 * m2)) <= 106).
  { pose proof (digits2_pos_bounds (m1 * m2)) as [B1 B2]. split.
    - destruct (Z.leb_spec 105 (Zpos (digits2_pos (m1 * m2)))) as [H|H]; [exact H|].
      exfalso.
      assert (2 ^ Zpos (digits2_pos (m1 * m2)) <= 2 ^ 104) by (apply Z.pow_le_mono_r; lia).
      lia.
    - destruct (Z.leb_spec (Zpos (digits2_pos (m1 * m2))) 106) as [H|H]; [exact H|].
      exfalso.
      assert (2 ^ 106 <= 2 ^ (Zpos (digits2_pos (m1 * m2)) - 1))
        by (apply Z.pow_le_mono_r; lia).
      lia. }
  assert (Hloc : located (Zpos m1 * Zpos m2) 1 (Zpos (m1 * m2)) loc_Exact).
  { unfold located. rewrite Pos2Z.inj_mul. lia. }
  destruct (binary_round_aux_spec (m1 * m2) (e1 + e2) loc_Exact
              (Zpos m1 * Zpos m2) 1 Hloc) as (m & e & Hround & Hm & He' & Herr);
    try lia.
  exists m, e.
  split; [exact Hround|].
  split; [apply digits2_pos_unique; change (53 - 1) with 52; exact Hm|].
  split; [lia|].
  replace (2 ^ (e - (e1 + e2)) * 1) with (2 ^ (e - (e1 + e2))) in Herr by lia.
  exact Herr.
Qed.

Lemma int_of_float_negative_exponent (m : positive) (e : Z) :
  e < 0 -> int_of_float (S754_finite false m e) = Ok (Zpos m / 2 ^ (- e)).
Proof.
  intros He. destruct e as [|p|p]; [lia|lia|].
  unfold int_of_float. rewrite Z.shiftr_div_pow2 by lia. reflexivity.
Qed.

(** The exponent of the conversion of a number between 2^12 and 2^31. *)
Lemma scale_of_int (z s : Z) (m : positive) :
  0 < z < 2 ^ 31 -> 0 <= s <= 52 -> Zpos m = z * 2 ^ s ->
  2 ^ 52 <= Zpos m < 2 ^ 53 ->
  22 <= s /\ (2 ^ 12 < z -> s <= 40).
Proof.
  intros Hz Hs Hm Hr. split.
  - destruct (Z.leb_spec 22 s) as [H|H]; [exact H|]. exfalso.
    assert (2 ^ s <= 2 ^ 21) by (apply Z.pow_le_mono_r; lia).
    assert (0 < 2 ^ s) by (apply Z.pow_pos_nonneg; lia).
    change (2 ^ 52) with (2 ^ 31 * 2 ^ 21) in Hr. nia.
  - intros Hbig. destruct (Z.leb_spec s 40) as [H|H]; [exact H|]. exfalso.
    assert (2 ^ 41 <= 2 ^ s) by (apply Z.pow_le_mono_r; lia).
    change (2 ^ 53) with (2 ^ 12 * 2 ^ 41) in Hr. nia.
Qed.

(** The arithmetic behind [int(dim * (4096 / M))]: with the half-unit
    errors of the division and of the product, the truncated result is the
    exact quotient [4096 * d / M] rounded down, or one less. *)
Lemma truncation_error (d M m2 mr md mp s2 sd a b t : Z) :
  0 < d <= M -> 4096 < M ->
  m2 = M * 2 ^ s2 -> md = d * 2 ^ sd ->
  0 <= s2 -> 22 <= sd -> 0 <= a <= 2 -> 52 <= b <= 54 -> 0 <= t ->
  t + s2 + a + b = 93 + sd ->
  2 ^ 52 <= m2 < 2 ^ 53 -> 2 ^ 52 <= md < 2 ^ 53 ->
  - (2 ^ a * m2) <= 2 * (mr * (2 ^ a * m2) - 2 ^ 52 * 2 ^ 53) <= 2 ^ a * m2 ->
  - 2 ^ b <= 2 * (mp * 2 ^ b - md * mr) <= 2 ^ b ->
  4096 * d - M <= (mp / 2 ^ t) * M <= 4096 * d.
Proof.
  intros Hd HM Hm2 Hmd Hs2 Hsd Ha Hb Ht Hsum R2 Rd HR HP.
  assert (HA : 1 <= 2 ^ a <= 4).
  { split; [apply (Z.pow_le_mono_r 2 0 a); lia | apply (Z.pow_le_mono_r 2 a 2); lia]. }
  assert (HB : 2 ^ 52 <= 2 ^ b <= 2 ^ 54).
  { split; apply Z.pow_le_mono_r; lia. }
  assert (HT : 0 < 2 ^ t) by (apply Z.pow_pos_nonneg; lia).
  assert (HS2 : 0 < 2 ^ s2) by (apply Z.pow_pos_nonneg; lia).
  assert (HSD : 2 ^ 22 <= 2 ^ sd) by (apply Z.pow_le_mono_r; lia).
  assert (Hrel : 2 ^ t * 2 ^ s2 * 2 ^ a * 2 ^ b = 2 ^ 93 * 2 ^ sd).
  { rewrite <- !Z.pow_add_r by lia. f_equal. lia. }
  set (A := 2 ^ a) in *. set (B := 2 ^ b) in *. set (T := 2 ^ t) in *.
  set (S2 := 2 ^ s2) in *. set (SD := 2 ^ sd) in *.
  set (K := A * m2) in *.
  set (u := 2 * (mp * B - md * mr)) in *.
  set (v := 2 * (mr * K - 2 ^ 52 * 2 ^ 53)) in *.
  set (W := mp * M - 4096 * d * T).
  assert (HK : 0 < K < 2 ^ 55) by (unfold K; change (2 ^ 55) with (4 * 2 ^ 53); nia).
  assert (HX : 2 * (S2 * A * B) * W = md * v + u * K).
  { unfold W, u, v, K. rewrite Hm2, Hmd. fold S2 SD.
    replace (2 * (S2 * A * B) * (mp * M - 4096 * d * T))
      with (2 * mp * B * A * M * S2 - 8192 * d * (T * S2 * A * B)) by ring.
    rewrite Hrel. ring. }
  assert (Hmv : - (md * K) <= md * v <= md * K) by nia.
  assert (HuK : - (B * K) <= u * K <= B * K) by nia.
  assert (Hsmall : md * K + B * K < 2 ^ 116).
  { assert (Hsum55 : md + B < 2 ^ 55) by lia.
    replace (md * K + B * K) with ((md + B) * K) by ring.
    assert (Hprod : (md + B) * K < 2 ^ 55 * 2 ^ 55)
      by (apply Z.mul_lt_mono_nonneg; lia).
    change (2 ^ 55 * 2 ^ 55) with (2 ^ 110) in Hprod.
    assert (2 ^ 110 <= 2 ^ 116) by (apply Z.pow_le_mono_r; lia).
    lia. }
  assert (Hbig : 2 ^ 116 <= 2 * (S2 * A * B) * T).
  { replace (2 * (S2 * A * B) * T) with (2 * (T * S2 * A * B)) by ring.
    rewrite Hrel. change (2 ^ 116) with (2 * (2 ^ 93 * 2 ^ 22)).
    apply Z.mul_le_mono_nonneg_l; [lia|].
    apply Z.mul_le_mono_nonneg_l; [lia|exact HSD]. }
  assert (HG : 0 < S2 * A * B).
  { apply Z.mul_pos_pos; [apply Z.mul_pos_pos|]; lia. }
  assert (HW : - T < W < T).
  { set (G := 2 * (S2 * A * B)) in *.
    assert (HG2 : 0 < G) by (unfold G; lia).
    assert (Hlt : - (G * T) < G * W < G * T) by lia.
    split.
    - apply Z.mul_lt_mono_pos_l with (p := G); [exact HG2|]. lia.
    - apply Z.mul_lt_mono_pos_l with (p := G); [exact HG2|]. lia. }
  pose proof (Z.div_mod mp T ltac:(lia)) as Hdm.
  pose proof (Z.mod_pos_bound mp T HT) as Hmod.
  set (z := mp / T) in *. set (r := mp mod T) in *.
  set (Y := z * M - 4096 * d).
  assert (HWY : W = T * Y + r * M) by (unfold W, Y; rewrite Hdm; ring).
  assert (HrM : 0 <= r * M <= (T - 1) * M).
  { split; [apply Z.mul_nonneg_nonneg; lia|apply Z.mul_le_mono_nonneg_r; lia]. }
  assert (HY : - M <= Y <= 0).
  { split.
    - destruct (Z_le_gt_dec (- M) Y) as [H|H]; [exact H|]. exfalso.
      assert (T * Y <= T * (- M - 1)) by (apply Z.mul_le_mono_nonneg_l; lia).
      lia.
    - destruct (Z_le_gt_dec Y 0) as [H|H]; [exact H|]. exfalso.
      assert (T * 1 <= T * Y) by (apply Z.mul_le_mono_nonneg_l; lia).
      lia. }
  unfold Y in HY. lia.
Qed.

Lemma float_of_int_4096 :
  float_of_int 4096 = S754_finite false 4503599627370496 (-40).
Proof. reflexivity. Qed.

(** [int(d * (4096 / M))] for the sides of an image: it is defined, and
    it is the exact quotient rounded down or one less. *)
Lemma scaled_dimension (d M : Z) :
  0 <= d <= M -> 4096 < M < 2 ^ 31 ->
  exists ratio z,
    truediv 4096 M = Ok ratio
    /\ int_of_float (mul_int_float d ratio) = Ok z
    /\ 4096 * d - M <= z * M <= 4096 * d.
Proof.
  intros Hd HM.
  unfold truediv. destruct (Z.eqb_spec M 0) as [H0|_]; [lia|].
  assert (HM53 : 0 < M < 2 ^ 53).
  { split; [lia|]. assert (2 ^ 31 <= 2 ^ 53) by (apply Z.pow_le_mono_r; lia). lia. }
  destruct (float_of_int_pos M HM53) as (m2 & e2 & HfM & Hdg2 & He2 & Hm2).
  pose proof (canonical_range m2 Hdg2) as R2.
  destruct (scale_of_int M (- e2) m2 ltac:(lia) ltac:(lia) Hm2 R2) as [Hs2lo Hs2hi].
  specialize (Hs2hi ltac:(change (2 ^ 12) with 4096; lia)).
  rewrite float_of_int_4096, HfM.
  destruct (SFdiv_spec 4503599627370496 m2 (-40) e2 eq_refl Hdg2 ltac:(lia))
    as (mr & er & Hdiv & Hdgr & Her & Herr).
  rewrite Hdiv. eexists. 
  destruct (Z.eq_dec d 0) as [->|Hd0].
  - exists 0. split; [reflexivity|]. split; [reflexivity|]. lia.
  - assert (Hd53 : 0 < d < 2 ^ 53) by lia.
    destruct (float_of_int_pos d Hd53) as (md & ed & Hfd & Hdgd & Hed & Hmd).
    pose proof (canonical_range md Hdgd) as Rd.
    destruct (scale_of_int d (- ed) md ltac:(lia) ltac:(lia) Hmd Rd) as [Hsdlo _].
    unfold mul_int_float. rewrite Hfd.
    destruct (SFmul_spec md mr ed er Hdgd Hdgr ltac:(lia))
      as (mp & ep & Hmul & Hdgp & Hep & Hperr).
    rewrite Hmul.
    exists (Zpos mp / 2 ^ (- ep)).
    split; [reflexivity|].
    split; [apply int_of_float_negative_exponent; lia|].
    apply (truncation_error d M (Zpos m2) (Zpos mr) (Zpos md) (Zpos mp)
             (- e2) (- ed) (er - (-40 - e2 - 53)) (ep - (ed + er)) (- ep));
      try lia; assumption.
Qed.

End Binary64.

(** *** The size [preprocess_image] asks [resize] for *)

(** [int(0 * ratio)] is [0] whenever it is defined. *)
Lemma scaled_zero (ratio : float) (z : Z) :
  int_of_float (mul_int_float 0 ratio) = Ok z -> z = 0%Z.
Proof.
  unfold mul_int_float. rewrite float_of_int_0.
  destruct ratio as [s|s| |s m e]; cbn; intros H; try discriminate;
    injection H as <-; reflexivity.
Qed.

Lemma new_size_of_inv (size : Z * Z) (new_width new_height : Z) :
  new_size_of size = Ok (new_width, new_height) ->
  exists ratio,
    int_of_float (mul_int_float (fst size) ratio) = Ok new_width
    /\ int_of_float (mul_int_float (snd size) ratio) = Ok new_height.
Proof.
  unfold new_size_of.
  destruct (truediv 4096 (Z.max (fst size) (snd size))) as [ratio|e]; [|discriminate].
  destruct (int_of_float (mul_int_float (fst size) ratio)) as [nw|e] eqn:Hnw;
    [|discriminate].
  destruct (int_of_float (mul_int_float (snd size) ratio)) as [nh|e] eqn:Hnh;
    [|discriminate].
  intros H. injection H as <- <-. exists ratio. split; assumption.
Qed.

(** A side [z] with [4096 * d - M <= z * M <= 4096 * d], for a side [d] of
    an image whose longer side [M] exceeds 4096, is at most [d], at most
    4096, [0] when [4096 * d < M] and at least [1] when [M < 4096 * d]. *)
Lemma scaled_side_bounds (d M z : Z) :
  (0 <= d <= M)%Z -> (4096 < M)%Z ->
  (4096 * d - M <= z * M <= 4096 * d)%Z ->
  (d = 0 -> z = 0)%Z ->
  (0 <= z <= d)%Z /\ (z <= 4096)%Z /\ (4096 * d < M -> z = 0)%Z
  /\ (M < 4096 * d -> 1 <= z)%Z.
Proof.
  intros Hd HM [Hlo Hhi] Hzero.
  assert (Hnonneg : (0 <= z)%Z).
  { destruct (Z.eq_dec d 0%Z) as [H0|H0]; [rewrite (Hzero H0); lia|].
    destruct (Z_le_gt_dec 0%Z z) as [H|H]; [exact H|]. exfalso.
    assert ((z * M <= (-1) * M)%Z) by (apply Z.mul_le_mono_nonneg_r; lia).
    lia. }
  assert (Hle : (z <= d)%Z).
  { destruct (Z_le_gt_dec z d) as [H|H]; [exact H|]. exfalso.
    assert (((d + 1) * M <= z * M)%Z) by (apply Z.mul_le_mono_nonneg_r; lia).
    assert ((d * 4096 <= d * M)%Z) by (apply Z.mul_le_mono_nonneg_l; lia).
    lia. }
  assert (H4096 : (z <= 4096)%Z).
  { destruct (Z_le_gt_dec z 4096%Z) as [H|H]; [exact H|]. exfalso.
    assert ((4097 * M <= z * M)%Z) by (apply Z.mul_le_mono_nonneg_r; lia).
    assert ((4096 * d <= 4096 * M)%Z) by lia.
    lia. }
  split; [lia|]. split; [exact H4096|]. split.
  - intros Hthin.
    destruct (Z_le_gt_dec z 0%Z) as [H|H]; [lia|]. exfalso.
    assert ((1 * M <= z * M)%Z) by (apply Z.mul_le_mono_nonneg_r; lia).
    lia.
  - intros Hwide.
    destruct (Z.eq_dec z 0%Z) as [H|H]; [|lia]. exfalso.
    rewrite H in Hlo. lia.
Qed.

(** The same arithmetic on other sizes: 8192 and 5000 land on 4096. *)
Example new_sizes :
  new_size_of (8192, 4096)%Z = Ok (4096, 2048)%Z
  /\ new_size_of (5000, 3000)%Z = Ok (4096, 2457)%Z
  /\ new_size_of (6000, 4000)%Z = Ok (4096, 2730)%Z
  /\ new_size_of (100, 6272)%Z = Ok (65, 4095)%Z
  /\ new_size_of (12544, 12544)%Z = Ok (4095, 4095)%Z.
Proof. repeat split; vm_compute; reflexivity. Qed.

(** Sizes with a side that comes out as [0]: a strip, and an image whose
    shorter side is exactly 4096 times smaller than the longer one. *)
Example empty_new_sizes :
  new_size_of (5000, 1)%Z = Ok (4096, 0)%Z
  /\ new_size_of (1, 5000)%Z = Ok (0, 4096)%Z
  /\ new_size_of (200704, 49)%Z = Ok (4095, 0)%Z
  /\ new_size_of (8192, 2)%Z = Ok (4096, 1)%Z.
Proof. repeat split; vm_compute; reflexivity. Qed.

(** The arithmetic of the resize, for sides below 2^31: both new sides
    are defined, each is the exact proportional value rounded down or one
    less, and the longer new side is 4095 or 4096. *)
Lemma new_size_of_spec (w h : Z) :
  (0 <= w < 2 ^ 31)%Z -> (0 <= h < 2 ^ 31)%Z -> (4096 < Z.max w h)%Z ->
  exists new_width new_height,
    new_size_of (w, h) = Ok (new_width, new_height)
    /\ (4096 * w - Z.max w h <= new_width * Z.max w h <= 4096 * w)%Z
    /\ (4096 * h - Z.max w h <= new_height * Z.max w h <= 4096 * h)%Z
    /\ (4095 <= longer_side (new_width, new_height) <= 4096)%Z.
Proof.
  intros Hw Hh Hbig.
  set (M := Z.max w h) in *.
  assert (HM : (4096 < M < 2 ^ 31)%Z) by (unfold M in *; lia).
  destruct (scaled_dimension w M ltac:(unfold M; lia) HM) as (ratio & nw & Hratio & Hnw & Bw).
  destruct (scaled_dimension h M ltac:(unfold M; lia) HM)
    as (ratio' & nh & Hratio' & Hnh & Bh).
  rewrite Hratio in Hratio'. injection Hratio' as <-.
  exists nw, nh.
  split.
  { unfold new_size_of. cbn [fst snd]. fold M. rewrite Hratio, Hnw, Hnh. reflexivity. }
  split; [exact Bw|]. split; [exact Bh|].
  unfold longer_side. cbn [fst snd].
  assert (Hup : forall d z, (0 <= d <= M)%Z -> (z * M <= 4096 * d)%Z -> (z <= 4096)%Z).
  { intros d z Hd Hz.
    destruct (Z_le_gt_dec z 4096) as [H|H]; [exact H|]. exfalso.
    assert ((4097 * M <= z * M)%Z) by (apply Z.mul_le_mono_nonneg_r; lia).
    lia. }
  assert (Hlo : forall z, (4096 * M - M <= z * M)%Z -> (4095 <= z)%Z).
  { intros z Hz.
    destruct (Z_le_gt_dec 4095 z) as [H|H]; [exact H|]. exfalso.
    assert ((z * M <= 4094 * M)%Z) by (apply Z.mul_le_mono_nonneg_r; lia).
    lia. }
  assert (Hnw4096 : (nw <= 4096)%Z) by (apply (Hup w); [unfold M; lia | lia]).
  assert (Hnh4096 : (nh <= 4096)%Z) by (apply (Hup h); [unfold M; lia | lia]).
  split; [|lia].
  destruct (Z.max_spec w h) as [[_ HMh]|[_ HMw]].
  - fold M in HMh. assert ((4095 <= nh)%Z) by (apply Hlo; lia). lia.
  - fold M in HMw. assert ((4095 <= nw)%Z) by (apply Hlo; lia). lia.
Qed.

(** The new size of an image that is too large: both sides are defined,
    neither is negative, larger than before or larger than 4096; a side
    more than 4096 times shorter than the longer one becomes [0], and a
    side less than 4096 times shorter does not. *)
Lemma new_size_of_box (w h : Z) :
  (0 <= w < 2 ^ 31)%Z -> (0 <= h < 2 ^ 31)%Z -> (4096 < Z.max w h)%Z ->
  exists new_width new_height,
    new_size_of (w, h) = Ok (new_width, new_height)
    /\ (0 <= new_width <= Z.min 4096 w)%Z
    /\ (0 <= new_height <= Z.min 4096 h)%Z
    /\ (4095 <= Z.max new_width new_height)%Z
    /\ (4096 * w < h -> new_width = 0)%Z
    /\ (4096 * h < w -> new_height = 0)%Z
    /\ (Z.max w h < 4096 * Z.min w h -> 1 <= new_width /\ 1 <= new_height)%Z.
Proof.
  intros Hw Hh Hbig.
  destruct (new_size_of_spec w h Hw Hh Hbig) as (nw & nh & Hnew & Bw & Bh & Blong).
  destruct (new_size_of_inv (w, h) nw nh Hnew) as (ratio & Hnw & Hnh).
  cbn [fst snd] in Hnw, Hnh. unfold longer_side in Blong. cbn [fst snd] in Blong.
  destruct (scaled_side_bounds w (Z.max w h) nw) as (W1 & W2 & W3 & W4);
    [lia | exact Hbig | exact Bw | intros ->; exact (scaled_zero ratio nw Hnw) |].
  destruct (scaled_side_bounds h (Z.max w h) nh) as (H1 & H2 & H3 & H4);
    [lia | exact Hbig | exact Bh | intros ->; exact (scaled_zero ratio nh Hnh) |].
  exists nw, nh. split; [exact Hnew|].
  repeat split; lia.
Qed.

(** *** [preprocess_image] *)

Lemma resize_eq (world : World) (new_size : Z * Z) (img : Image) :
  resize world new_size img =
  if empty_size new_size then Raise resize_error
  else Ok {| mode := mode img; size := new_size;
             raster := lanczos_raster world new_size img |}.
Proof. reflexivity. Qed.

Lemma preprocess_image_eq (world : World) (self : MultiModelCADAnalyzer)
    (image_path : string) (img : Image) (n : nat) :
  image_open world image_path = Ok img ->
  preprocess_image world self image_path n =
  let enhanced := enhance world (float_lit 15 10) (to_rgb world img) in
  if (4096 <? longer_side (size img))%Z then
    match new_size_of (size img) with
    | Ok new_size =>
        match resize world new_size enhanced with
        | Ok resized => (Ok (save world "PNG" 95 resized), [])
        | Raise e => (Raise e, [])
        end
    | Raise e => (Raise e, [])
    end
  else (Ok (save world "PNG" 95 enhanced), []).
Proof.
  intros Hopen. unfold preprocess_image. rewrite lift_bind, Hopen. cbv zeta.
  fold (to_rgb world img).
  assert (Hsize : size (enhance world (float_lit 15 10) (to_rgb world img)) = size img).
  { unfold to_rgb. destruct (negb (String.eqb (mode img) "RGB")); reflexivity. }
  rewrite Hsize. unfold longer_side, new_size_of.
  rewrite bind_eq.
  destruct (4096 <? Z.max (fst (size img)) (snd (size img)))%Z; [|reflexivity].
  rewrite !lift_bind.
  destruct (truediv 4096 (Z.max (fst (size img)) (snd (size img)))) as [ratio|e];
    [|reflexivity].
  rewrite !lift_bind.
  destruct (int_of_float (mul_int_float (fst (size img)) ratio)) as [new_width|e];
    [|reflexivity].
  rewrite !lift_bind.
  destruct (int_of_float (mul_int_float (snd (size img)) ratio)) as [new_height|e];
    [|reflexivity].
  unfold lift.
  destruct (resize world (new_width, new_height)
              (enhance world (float_lit 15 10) (to_rgb world img))) as [resized|e];
    reflexivity.
Qed.

(** The image after the mode check and the contrast step: mode RGB, the
    size of the source. *)
Lemma enhanced_mode_size (world : World) (img : Image) :
  mode (enhance world (float_lit 15 10) (to_rgb world img)) = "RGB"
  /\ size (enhance world (float_lit 15 10) (to_rgb world img)) = size img.
Proof.
  unfold to_rgb. destruct (String.eqb_spec (mode img) "RGB") as [Hm|Hm]; simpl; auto.
Qed.

(** An image whose longer side is at most 4096 keeps its size. *)
Lemma small_image_not_resized (world : World) (self : MultiModelCADAnalyzer)
    (image_path : string) (img : Image) (n : nat) :
  image_open world image_path = Ok img ->
  (longer_side (size img) <= 4096)%Z ->
  exists out,
    preprocess_image world self image_path n = (Ok (save world "PNG" 95 out), [])
    /\ size out = size img
    /\ mode out = "RGB".
Proof.
  intros Hopen Hsmall. rewrite (preprocess_image_eq world self image_path img n Hopen).
  cbv zeta.
  destruct (Z.ltb_spec 4096 (longer_side (size img))) as [Hbig|_]; [lia|].
  eexists. split; [reflexivity|].
  destruct (enhanced_mode_size world img) as [Hmode Hsize]. split; assumption.
Qed.

(** What [preprocess_image] does with an image that is too large (sides
    positive and below 2^31): the new size is defined; when one of its sides is [0],
    [img.resize] raises and so does [preprocess_image]; otherwise the
    image of the new size is encoded. *)
Lemma large_image_cases (world : World) (self : MultiModelCADAnalyzer)
    (image_path : string) (img : Image) (n : nat) :
  image_open world image_path = Ok img ->
  (0 < fst (size img) < 2 ^ 31)%Z ->
  (0 < snd (size img) < 2 ^ 31)%Z ->
  (4096 < longer_side (size img))%Z ->
  exists new_size,
    new_size_of (size img) = Ok new_size
    /\ (4096 * fst (size img) - longer_side (size img)
        <= fst new_size * longer_side (size img)
        <= 4096 * fst (size img))%Z
    /\ (4096 * snd (size img) - longer_side (size img)
        <= snd new_size * longer_side (size img)
        <= 4096 * snd (size img))%Z
    /\ (4095 <= longer_side new_size <= 4096)%Z
    /\ (0 <= fst new_size <= Z.min 4096 (fst (size img)))%Z
    /\ (0 <= snd new_size <= Z.min 4096 (snd (size img)))%Z
    /\ ((4096 * Z.min (fst (size img)) (snd (size img)) < longer_side (size img))%Z ->
        empty_size new_size = true)
    /\ ((longer_side (size img) < 4096 * Z.min (fst (size img)) (snd (size img)))%Z ->
        empty_size new_size = false)
    /\ preprocess_image world self image_path n
       = if empty_size new_size then (Raise resize_error, [])
         else (Ok (save world "PNG" 95
                     {| mode := "RGB"; size := new_size;
                        raster := lanczos_raster world new_size
                                    (enhance world (float_lit 15 10) (to_rgb world img)) |}),
               []).
Proof.
  intros Hopen Hw Hh Hbig.
  assert (Hw' : (0 <= fst (size img) < 2 ^ 31)%Z) by lia.
  assert (Hh' : (0 <= snd (size img) < 2 ^ 31)%Z) by lia.
  clear Hw Hh. rename Hw' into Hw, Hh' into Hh.
  rewrite (preprocess_image_eq world self image_path img n Hopen). cbv zeta.
  destruct (Z.ltb_spec 4096 (longer_side (size img))) as [_|Hsmall]; [|lia].
  destruct (enhanced_mode_size world img) as [Hmode _].
  destruct (size img) as [w h] eqn:Hsize. cbn [fst snd] in Hw, Hh.
  unfold longer_side in *. cbn [fst snd] in *.
  destruct (new_size_of_spec w h Hw Hh Hbig) as (nw & nh & Hnew & Bw & Bh & Blong).
  destruct (new_size_of_box w h Hw Hh Hbig)
    as (nw' & nh' & Hnew' & Cw & Ch & _ & Zw & Zh & Hpos).
  rewrite Hnew in Hnew'. injection Hnew' as <- <-.
  unfold longer_side in Blong. cbn [fst snd] in Blong.
  exists (nw, nh). rewrite Hnew. cbn [fst snd].
  split; [reflexivity|]. split; [exact Bw|]. split; [exact Bh|].
  split; [exact Blong|]. split; [exact Cw|]. split; [exact Ch|].
  split.
  { intros Hthin. unfold empty_size. cbn [fst snd].
    destruct (Z.ltb_spec nw 1) as [H1|H1]; [reflexivity|].
    destruct (Z.ltb_spec nh 1) as [H2|H2]; [reflexivity|].
    exfalso. destruct (Z.min_spec w h) as [[Hlt Hmin]|[Hle Hmin]]; rewrite Hmin in Hthin.
    - assert (nw = 0%Z) by (apply Zw; lia). lia.
    - assert (nh = 0%Z) by (apply Zh; lia). lia. }
  split.
  { intros Hwide. unfold empty_size. cbn [fst snd].
    destruct (Hpos Hwide) as [P1 P2].
    destruct (Z.ltb_spec nw 1) as [H1|H1]; [lia|].
    destruct (Z.ltb_spec nh 1) as [H2|H2]; [lia|]. reflexivity. }
  rewrite resize_eq. rewrite Hmode.
  destruct (empty_size (nw, nh)); reflexivity.
Qed.

(** Claim C8, where the code departs from it. A 6272 x 100 image is
    resized to 4095 x 65: the product [6272 * (4096 / 6272)] is the
    binary64 number just below 4096, and [int] truncates it. *)
Theorem C8_longer_side_4095
    (world : World) (self : MultiModelCADAnalyzer) (image_path : string)
    (img : Image) (n : nat) :
  image_open world image_path = Ok img ->
  size img = (6272, 100)%Z ->
  exists out,
    preprocess_image world self image_path n = (Ok (save world "PNG" 95 out), [])
    /\ size out = (4095, 65)%Z
    /\ longer_side (size out) = 4095%Z.
Proof.
  intros Hopen Hsize. rewrite (preprocess_image_eq world self image_path img n Hopen).
  rewrite Hsize.
  change (4096 <? longer_side (6272, 100))%Z with true.
  replace (new_size_of (6272, 100)%Z) with (@Ok (Z * Z) (4095, 65)%Z)
    by (vm_compute; reflexivity).
  cbv beta iota zeta. rewrite resize_eq.
  change (empty_size (4095, 65)%Z) with false. cbv iota.
  eexists. split; [reflexivity|]. split; reflexivity.
Qed.

(** The wide drawing of the scripted world. *)
Lemma C8_longer_side_4095_witness :
  exists out,
    preprocess_image Demo.silent (__init__ Demo.silent "AIza-demo" None) "drawing.png" 0
    = (Ok (save Demo.silent "PNG" 95 out), [])
    /\ size out = (4095, 65)%Z
    /\ longer_side (size out) = 4095%Z.
Proof.
  apply (C8_longer_side_4095 Demo.silent (__init__ Demo.silent "AIza-demo" None)
           "drawing.png" Demo.drawing 0); reflexivity.
Defined.

(** Claim C10. For every image that can be opened (its sides positive and
    below 2^31, as Pillow stores them) the first step of [preprocess_image] gives an
    image of mode RGB: [convert('RGB')] is applied unless the mode is RGB
    already. Whatever [preprocess_image] returns is what
    [save(..., format='PNG', quality=95)] wrote for an image of mode RGB:
    the contrast step and the resize keep the mode. It returns for every
    image whose longer side is at most 4096, and for every larger image
    whose new size has no side [0] (so whenever the longer side is less
    than 4096 times the shorter one); when the new size has a side [0],
    [img.resize] raises [ValueError] and nothing is returned. *)
Theorem C10_rgb_then_png
    (world : World) (self : MultiModelCADAnalyzer) (image_path : string)
    (img : Image) (n : nat) :
  image_open world image_path = Ok img ->
  (0 < fst (size img) < 2 ^ 31)%Z ->
  (0 < snd (size img) < 2 ^ 31)%Z ->
  let rgb := if String.eqb (mode img) "RGB" then img else convert world "RGB" img in
  let enhanced := enhance world (float_lit 15 10) rgb in
  mode rgb = "RGB"
  /\ (forall bytes evs,
        preprocess_image world self image_path n = (Ok bytes, evs) ->
        exists out,
          bytes = encode world "PNG" 95 out
          /\ mode out = "RGB"
          /\ (out = enhanced \/ exists new_size, resize world new_size enhanced = Ok out))
  /\ ((longer_side (size img) <= 4096)%Z ->
        preprocess_image world self image_path n
        = (Ok (encode world "PNG" 95 enhanced), []))
  /\ ((4096 < longer_side (size img))%Z ->
        exists new_size,
          new_size_of (size img) = Ok new_size
          /\ if empty_size new_size
             then preprocess_image world self image_path n = (Raise resize_error, [])
             else exists out,
                    resize world new_size enhanced = Ok out
                    /\ mode out = "RGB"
                    /\ preprocess_image world self image_path n
                       = (Ok (encode world "PNG" 95 out), []))
  /\ ((longer_side (size img) < 4096 * Z.min (fst (size img)) (snd (size img)))%Z ->
        exists out,
          mode out = "RGB"
          /\ preprocess_image world self image_path n
             = (Ok (encode world "PNG" 95 out), [])).
Proof.
  intros Hopen Hw Hh rgb enhanced.
  assert (Hrgb : to_rgb world img = rgb).
  { unfold to_rgb, rgb. destruct (String.eqb (mode img) "RGB"); reflexivity. }
  assert (Hmode : mode rgb = "RGB").
  { unfold rgb. destruct (String.eqb_spec (mode img) "RGB") as [Hm|Hm]; [exact Hm|reflexivity]. }
  assert (Hsmall : (longer_side (size img) <= 4096)%Z ->
            preprocess_image world self image_path n
            = (Ok (encode world "PNG" 95 enhanced), [])).
  { intros Hle. rewrite (preprocess_image_eq world self image_path img n Hopen). cbv zeta.
    destruct (Z.ltb_spec 4096 (longer_side (size img))) as [Hbig|_]; [lia|].
    rewrite Hrgb. reflexivity. }
  assert (Hlarge : (4096 < longer_side (size img))%Z ->
            exists new_size,
              new_size_of (size img) = Ok new_size
              /\ if empty_size new_size
                 then preprocess_image world self image_path n = (Raise resize_error, [])
                 else exists out,
                        resize world new_size enhanced = Ok out
                        /\ mode out = "RGB"
                        /\ preprocess_image world self image_path n
                           = (Ok (encode world "PNG" 95 out), [])).
  { intros Hbig.
    destruct (large_image_cases world self image_path img n Hopen Hw Hh Hbig)
      as (new_size & Hnew & _ & _ & _ & _ & _ & _ & _ & Hrun).
    exists new_size. split; [exact Hnew|].
    rewrite Hrgb in Hrun. fold enhanced in Hrun. rewrite resize_eq.
    change (mode enhanced) with (mode rgb). rewrite Hmode.
    destruct (empty_size new_size); [exact Hrun|].
    eexists. split; [reflexivity|]. split; [reflexivity|]. exact Hrun. }
  split; [exact Hmode|]. split; [|split; [exact Hsmall|]; split; [exact Hlarge|]].
  - intros bytes evs Hrun.
    destruct (Z_le_gt_dec (longer_side (size img)) 4096) as [Hle|Hgt].
    + rewrite (Hsmall Hle) in Hrun. injection Hrun as <- _.
      exists enhanced. split; [reflexivity|]. split; [exact Hmode|]. left. reflexivity.
    + destruct (Hlarge ltac:(lia)) as (new_size & _ & Hcase).
      destruct (empty_size new_size).
      * rewrite Hcase in Hrun. discriminate.
      * destruct Hcase as (out & Hres & Hout & Hrun'). rewrite Hrun' in Hrun.
        injection Hrun as <- _.
        exists out. split; [reflexivity|]. split; [exact Hout|].
        right. exists new_size. exact Hres.
  - intros Hwide.
    destruct (Z_le_gt_dec (longer_side (size img)) 4096) as [Hle|Hgt].
    + exists enhanced. split; [exact Hmode | exact (Hsmall Hle)].
    + destruct (large_image_cases world self image_path img n Hopen Hw Hh ltac:(lia))
        as (new_size & Hnew & _ & _ & _ & _ & _ & _ & Hfull & Hrun).
      rewrite (Hfull Hwide) in Hrun. eexists. split; [|exact Hrun]. reflexivity.
Qed.

(** The RGBA drawing comes out as the PNG encoding of an RGB image. *)
Lemma C10_rgb_then_png_witness :
  (exists out,
     preprocess_image Demo.silent (__init__ Demo.silent "AIza-demo" None) "drawing.png" 0
     = (Ok (encode Demo.silent "PNG" 95 out), [])
     /\ mode out = "RGB")
  /\ mode Demo.drawing = "RGBA".
Proof.
  split; [|reflexivity].
  destruct (C10_rgb_then_png Demo.silent (__init__ Demo.silent "AIza-demo" None)
              "drawing.png" Demo.drawing 0) as (_ & _ & _ & _ & Hwide).
  - reflexivity.
  - simpl. lia.
  - simpl. lia.
  - destruct Hwide as (out & Hmode & Hrun); [vm_compute; reflexivity|].
    exists out. split; [exact Hrun | exact Hmode].
Defined.

(** An image whose longer side exceeds 4096 (sides positive and below
    2^31) and is less than 4096 times the shorter side is resized: the new longer side is
    4095 or 4096, and each new side is the exact proportional value
    rounded down, or one less. *)
Lemma large_image_resized (world : World) (self : MultiModelCADAnalyzer)
    (image_path : string) (img : Image) (n : nat) :
  image_open world image_path = Ok img ->
  (0 < fst (size img) < 2 ^ 31)%Z ->
  (0 < snd (size img) < 2 ^ 31)%Z ->
  (4096 < longer_side (size img))%Z ->
  (longer_side (size img) < 4096 * Z.min (fst (size img)) (snd (size img)))%Z ->
  exists out,
    preprocess_image world self image_path n = (Ok (save world "PNG" 95 out), [])
    /\ (4095 <= longer_side (size out) <= 4096)%Z
    /\ (4096 * fst (size img) - longer_side (size img)
        <= fst (size out) * longer_side (size img)
        <= 4096 * fst (size img))%Z
    /\ (4096 * snd (size img) - longer_side (size img)
        <= snd (size out) * longer_side (size img)
        <= 4096 * snd (size img))%Z
    /\ (1 <= fst (size out) <= Z.min 4096 (fst (size img)))%Z
    /\ (1 <= snd (size out) <= Z.min 4096 (snd (size img)))%Z.
Proof.
  intros Hopen Hw Hh Hbig Hwide.
  destruct (large_image_cases world self image_path img n Hopen Hw Hh Hbig)
    as (new_size & Hnew & Bw & Bh & Blong & Cw & Ch & _ & Hfull & Hrun).
  specialize (Hfull Hwide). rewrite Hfull in Hrun.
  eexists. split; [exact Hrun|]. cbn [size].
  split; [exact Blong|]. split; [exact Bw|]. split; [exact Bh|].
  unfold empty_size in Hfull. apply orb_false_iff in Hfull. destruct Hfull as [F1 F2].
  apply Z.ltb_ge in F1, F2. split; lia.
Qed.

(** ** Checks of the built-ins against the values Python gives *)

Example b64encode_values :
  b64encode [Byte.x4d; Byte.x61; Byte.x6e] = "TWFu"
  /\ b64encode [Byte.x4d; Byte.x61] = "TWE="
  /\ b64encode [Byte.x4d] = "TQ=="
  /\ b64encode [] = "".
Proof. repeat split; reflexivity. Qed.

Example string_values :
  upper "overview_1z{" = "OVERVIEW_1Z{"
  /\ str_nat 0 = "0"
  /\ str_nat 512 = "512"
  /\ take_str 3 "abcdef" = "abc"
  /\ take_str 100 "ab" = "ab"
  /\ join nl ["a"; "b"] = "a" +:+ nl +:+ "b"
  /\ len (rule "=") = 80.
Proof. repeat split; reflexivity. Qed.

(** [len], the f-string and [join] on a value that is [None]. *)
Example none_values :
  len_opt None = Raise (Exception "TypeError" "object of type 'NoneType' has no len()")
  /\ len_opt (Some "abc") = Ok 3
  /\ format_opt None = "None"
  /\ join_opt nl [Some "a"; Some "b"] = Ok ("a" +:+ nl +:+ "b")
  /\ join_opt nl [Some "a"; Some "b"; None; Some "c"; None]
     = Raise (Exception "TypeError"
                "sequence item 2: expected str instance, NoneType found").
Proof. repeat split; reflexivity. Qed.

(** [0.4 == 0x1.999999999999ap-2], [1.5 == 0x1.8p+0], and the product that
    misses 4096. *)
Example float_values :
  float_lit 4 10 = S754_finite false 7205759403792794 (-54)
  /\ float_lit 15 10 = S754_finite false 6755399441055744 (-52)
  /\ truediv 4096 6272 = Ok (S754_finite false 5882252574524729 (-53))
  /\ mul_int_float 6272 (S754_finite false 5882252574524729 (-53))
     = S754_finite false 9007199254740991 (-41)
  /\ int_of_float (S754_finite false 9007199254740991 (-41)) = Ok 4095%Z.
Proof. repeat split; vm_compute; reflexivity. Qed.

(** ** More about the run: its trace *)

(** The run, once the image is canonical, is the three opening lines, the
    events of the loop, those of the synthesis block and the closing
    line. *)
Lemma comprehensive_analysis_trace registry world self png_path model_id n image_bytes :
  fst (preprocess_image world self png_path 0) = Ok image_bytes ->
  let provider := provider_of registry model_id in
  let items := analysis_passes self in
  exists r1 loop_evs r syn_evs,
    run_passes registry world self provider image_bytes model_id (length items) 1 items
      (fresh_results registry png_path model_id) n = (Ok r1, loop_evs)
    /\ synthesis_stage registry world self provider image_bytes model_id r1
         (sends loop_evs + n) = (Ok r, syn_evs)
    /\ comprehensive_analysis registry world self png_path model_id n
       = (Ok r, prelude_of registry model_id ++ loop_evs ++ syn_evs
                ++ [Print (complete_line r)]).
Proof.
  intros Hpre provider items.
  destruct (run_passes_spec registry world self provider image_bytes model_id
              (length items) items 1 (fresh_results registry png_path model_id) n)
    as (loop_evs & Hloop & _).
  set (r1 := fold_left record_outcome _ _) in Hloop.
  destruct (synthesis_stage_spec registry world self model_id provider image_bytes r1
              (sends loop_evs + n)) as (r & syn_evs & Hstage & _).
  exists r1, loop_evs, r, syn_evs.
  split; [exact Hloop|]. split; [exact Hstage|].
  unfold comprehensive_analysis, prelude_of. simpl app.
  do 3 apply print_ok.
  eapply (bind_ok _ _ _ _ []).
  { rewrite preprocess_image_quiet, Hpre. reflexivity. }
  cbv beta zeta. fold provider items.
  eapply bind_ok; [exact Hloop|].
  simpl sends. rewrite Nat.add_0_l.
  eapply bind_ok; [exact Hstage|].
  apply print_ok. reflexivity.
Qed.

Section LoopEvents.

Variable registry : gmap string ModelDescriptor.
Variable world : World.
Variable self : MultiModelCADAnalyzer.
Variable provider : string.
Variable image_bytes : list Byte.byte.
Variable model_id : string.
Variable total_passes : nat.

(** Whatever holds of the three console lines of a pass, of the pause and
    of the events of the adapter holds of every event of the loop. *)
Lemma run_passes_events (P : Event -> Prop) :
  (forall idx pass_name, P (Print (pass_banner idx total_passes pass_name))) ->
  (forall pass_name text, P (Print (pass_complete_line pass_name text))) ->
  (forall pass_name msg, P (Print (pass_failed_line pass_name msg))) ->
  P (Sleep 1) ->
  (forall prompt k,
     Forall P (snd (invoke registry world self provider image_bytes prompt model_id k))) ->
  forall items idx results n,
    Forall P (snd (run_passes registry world self provider image_bytes model_id
                     total_passes idx items results n)).
Proof.
  intros Hbanner Hdone Hfailed Hsleep Hcall items.
  induction items as [|[pass_name prompt] rest IH]; intros idx results n.
  - constructor.
  - cbn [run_passes]. rewrite bind_eq, run_pass_eq.
    specialize (Hcall prompt n).
    destruct (invoke registry world self provider image_bytes prompt model_id n)
      as [o ievs]; cbn [fst snd] in *.
    match goal with
    | |- context [run_passes ?a ?b ?c ?d ?e ?f ?g ?h ?i ?j ?k] =>
        specialize (IH h j k);
        destruct (run_passes a b c d e f g h i j k) as [r' evs']
    end.
    cbn [snd] in *.
    apply Forall_app. split; [|exact IH].
    constructor; [apply Hbanner|].
    apply Forall_app. split; [exact Hcall|].
    constructor.
    + destruct o as [[text|]|e]; cbn [outcome_line]; [apply Hdone | apply Hfailed..].
    + unfold pause. destruct (idx <? total_passes)%nat; repeat constructor. exact Hsleep.
Qed.

End LoopEvents.

(** *** Events: pauses and requests *)


Lemma requests_of_app (a b : list Event) :
  requests_of (a ++ b) = requests_of a ++ requests_of b.
Proof.
  induction a as [|[line|s|req] a IH]; cbn [app requests_of]; [reflexivity|assumption..|].
  rewrite IH. reflexivity.
Qed.

Lemma requests_of_sent (l : list Request) : requests_of (map Send l) = l.
Proof. induction l as [|req l IH]; cbn [map requests_of]; [|rewrite IH]; reflexivity. Qed.

Lemma sends_requests_of (evs : list Event) : sends evs = length (requests_of evs).
Proof.
  induction evs as [|[line|s|req] evs IH]; cbn [sends requests_of length]; lia.
Qed.

Lemma In_requests_of (evs : list Event) (req : Request) :
  In (Send req) evs <-> In req (requests_of evs).
Proof.
  induction evs as [|[line|s|req'] evs IH]; cbn [In requests_of].
  - tauto.
  - rewrite <- IH. split; [intros [H|H]; [discriminate|exact H] | tauto].
  - rewrite <- IH. split; [intros [H|H]; [discriminate|exact H] | tauto].
  - rewrite <- IH. split; intros [H|H]; auto; left; congruence.
Qed.


Lemma pause_requests (idx total_passes : nat) : requests_of (pause idx total_passes) = [].
Proof. unfold pause. destruct (idx <? total_passes)%nat; reflexivity. Qed.

(** *** What the adapters send *)

Section Requests.

Variable registry : gmap string ModelDescriptor.
Variable world : World.
Variable self : MultiModelCADAnalyzer.
Variable provider : string.
Variable image_bytes : list Byte.byte.
Variable model_id : string.

(** A pass sends the request of its provider's adapter, or nothing. *)
Lemma invoke_request (prompt : string) (n : nat) :
  snd (invoke registry world self provider image_bytes prompt model_id n)
  = map Send (option_list
                (request_for registry self provider image_bytes model_id prompt)).
Proof.
  unfold invoke, request_for.
  destruct (String.eqb provider "gemini"); [reflexivity|].
  destruct (String.eqb provider "openrouter"); [|reflexivity].
  unfold analyze_with_openrouter.
  destruct (openrouter_api_key self) as [[|c key]|]; reflexivity.
Qed.

(** So does the synthesis, for the two providers that have an adapter. *)
Lemma invoke_synthesis_request (prompt : string) (n : nat) :
  provider = "gemini" \/ provider = "openrouter" ->
  snd (invoke_synthesis registry world self provider image_bytes prompt model_id n)
  = map Send (option_list
                (request_for registry self provider image_bytes model_id prompt)).
Proof.
  intros Hp. rewrite <- invoke_request with (n := n).
  unfold invoke_synthesis, invoke.
  destruct (String.eqb provider "gemini") eqn:Hg; [reflexivity|].
  destruct Hp as [->| ->]; [discriminate|]. reflexivity.
Qed.

(** A provider without an adapter fails every pass before sending. *)
Lemma invoke_no_adapter (prompt : string) (n : nat) :
  provider <> "gemini" -> provider <> "openrouter" ->
  invoke registry world self provider image_bytes prompt model_id n
  = (Raise (unknown_provider provider), []).
Proof.
  intros Hg Ho. unfold invoke.
  destruct (String.eqb_spec provider "gemini") as [H|_]; [contradiction|].
  destruct (String.eqb_spec provider "openrouter") as [H|_]; [contradiction|].
  reflexivity.
Qed.

(** The synthesis block, in terms of the adapter call it makes. *)
Lemma synthesis_stage_eq (results : AnalysisResult) (n : nat) :
  synthesis_stage registry world self provider image_bytes model_id results n =
  match analyses results with
  | [] => (Ok results, [])
  | _ :: _ =>
      let call := invoke_synthesis registry world self provider image_bytes
                    (synthesis_prompt_of (analyses results)) model_id n in
      (Ok (set_summary
             match fst call with
             | Ok text => synthesis_summary (analyses results) text
             | Raise e => synthesis_fallback e
             end results),
       Print synthesis_banner :: snd call)
  end.
Proof.
  unfold synthesis_stage.
  destruct (analyses results) as [|entry rest]; [reflexivity|].
  rewrite print_then. unfold try_except. rewrite bind_eq, _generate_synthesis_eq.
  cbv zeta.
  destruct (invoke_synthesis registry world self provider image_bytes
              (synthesis_prompt_of (entry :: rest)) model_id n) as [[text|e] sevs];
    simpl; rewrite ?app_nil_r; reflexivity.
Qed.

End Requests.

(** *** The events of the loop, pass by pass *)

Section LoopTrace.

Variable registry : gmap string ModelDescriptor.
Variable world : World.
Variable self : MultiModelCADAnalyzer.
Variable provider : string.
Variable image_bytes : list Byte.byte.
Variable model_id : string.
Variable total_passes : nat.

(** One turn of the loop: the banner, the events of the adapter, the line
    that tells the outcome, the pause, and then the other passes. *)
Lemma run_passes_cons (pass_name prompt : string) (rest : list (string * string))
    (idx : nat) (results : AnalysisResult) (n : nat) :
  exists o ievs others,
    invoke registry world self provider image_bytes prompt model_id n = (o, ievs)
    /\ others = run_passes registry world self provider image_bytes model_id total_passes
                  (S idx) rest (record_outcome results (pass_name, o)) (sends ievs + n)
    /\ run_passes registry world self provider image_bytes model_id total_passes idx
         ((pass_name, prompt) :: rest) results n
       = (fst others,
          Print (pass_banner idx total_passes pass_name)
            :: ievs ++ Print (outcome_line pass_name o)
            :: pause idx total_passes ++ snd others).
Proof.
  destruct (invoke registry world self provider image_bytes prompt model_id n)
    as [o ievs] eqn:Hcall.
  exists o, ievs.
  eexists. split; [reflexivity|]. split; [reflexivity|].
  cbn [run_passes]. rewrite bind_eq, run_pass_eq, Hcall.
  assert (Hsends : forall line,
            sends (Print (pass_banner idx total_passes pass_name)
                     :: ievs ++ Print line :: pause idx total_passes) = sends ievs).
  { intros line. cbn [sends]. rewrite sends_app. cbn [sends].
    unfold pause. destruct (idx <? total_passes)%nat; cbn [sends]; lia. }
  cbn [fst snd]. rewrite Hsends.
  match goal with
  | |- context [run_passes ?a ?b ?c ?d ?e ?f ?g ?h ?i ?j ?k] =>
      destruct (run_passes a b c d e f g h i j k) as [r' evs']
  end.
  cbn [fst snd app]. rewrite <- app_assoc. reflexivity.
Qed.

(** The loop sends, in order, the request of each pass that has one. *)
Lemma run_passes_requests (items : list (string * string)) :
  forall idx results n,
    requests_of (snd (run_passes registry world self provider image_bytes model_id
                        total_passes idx items results n))
    = omap (fun item => request_for registry self provider image_bytes model_id (snd item))
           items.
Proof.
  induction items as [|[pass_name prompt] rest IH]; intros idx results n; [reflexivity|].
  destruct (run_passes_cons pass_name prompt rest idx results n)
    as (o & ievs & others & Hcall & -> & ->).
  cbn [snd requests_of]. rewrite requests_of_app. cbn [requests_of].
  rewrite requests_of_app, pause_requests, IH. cbn [app].
  replace ievs with (snd (invoke registry world self provider image_bytes prompt model_id n))
    by (rewrite Hcall; reflexivity).
  rewrite invoke_request, requests_of_sent. cbn [omap list_omap snd].
  destruct (request_for registry self provider image_bytes model_id prompt); reflexivity.
Qed.


End LoopTrace.

(** *** The shape of a run that returns *)

Lemma comprehensive_analysis_shape registry world self png_path model_id n r evs :
  comprehensive_analysis registry world self png_path model_id n = (Ok r, evs) ->
  let provider := provider_of registry model_id in
  let items := analysis_passes self in
  exists image_bytes loop_evs syn_evs,
    let r1 := fold_left record_outcome
                (outcomes registry world self provider image_bytes model_id n items)
                (fresh_results registry png_path model_id) in
    fst (preprocess_image world self png_path 0) = Ok image_bytes
    /\ run_passes registry world self provider image_bytes model_id (length items) 1 items
         (fresh_results registry png_path model_id) n = (Ok r1, loop_evs)
    /\ synthesis_stage registry world self provider image_bytes model_id r1
         (sends loop_evs + n) = (Ok r, syn_evs)
    /\ evs = prelude_of registry model_id ++ loop_evs ++ syn_evs
             ++ [Print (complete_line r)].
Proof.
  intros Hrun provider items.
  destruct (comprehensive_analysis_inv _ _ _ _ _ _ _ _ Hrun) as [image_bytes Hpre].
  destruct (comprehensive_analysis_trace registry world self png_path model_id n
              image_bytes Hpre) as (r1 & loop_evs & r' & syn_evs & Hloop & Hstage & Hall).
  fold provider items in Hloop, Hstage.
  rewrite Hall in Hrun. injection Hrun as <- <-.
  destruct (run_passes_spec registry world self provider image_bytes model_id
              (length items) items 1 (fresh_results registry png_path model_id) n)
    as (loop_evs' & Hloop' & _).
  rewrite Hloop in Hloop'. injection Hloop' as -> <-.
  exists image_bytes, loop_evs, syn_evs. cbv zeta.
  repeat split; assumption.
Qed.

(** With a provider that has no adapter no pass is stored. *)
Lemma no_adapter_no_analysis registry world self provider image_bytes model_id
    (items : list (string * string)) (n : nat) (results : AnalysisResult) :
  provider <> "gemini" -> provider <> "openrouter" ->
  analyses (fold_left record_outcome
              (outcomes registry world self provider image_bytes model_id n items)
              results)
  = analyses results.
Proof.
  intros Hg Ho.
  destruct (outcomes_all_raise registry world self provider image_bytes model_id
              (unknown_provider provider)
              (fun prompt k => invoke_no_adapter registry world self provider image_bytes
                                 model_id prompt k Hg Ho) items n) as [-> _].
  destruct (record_outcomes_fields
              (map (fun item => (fst item, Raise (unknown_provider provider))) items)
              results) as (_ & _ & _ & _ & -> & _).
  rewrite (proj1 (all_raise_bookkeeping (unknown_provider provider) items)).
  reflexivity.
Qed.

(** The requests of a run: those of the passes, in order, and then the
    one of the synthesis when some pass answered. *)
Lemma comprehensive_analysis_requests registry world self png_path model_id n
    image_bytes r evs :
  fst (preprocess_image world self png_path 0) = Ok image_bytes ->
  comprehensive_analysis registry world self png_path model_id n = (Ok r, evs) ->
  let request := request_for registry self (provider_of registry model_id) image_bytes
                   model_id in
  requests_of evs
  = omap (fun item => request (snd item)) (analysis_passes self)
    ++ match analyses r with
       | [] => []
       | _ :: _ => option_list (request (synthesis_prompt_of (analyses r)))
       end.
Proof.
  intros Hpre Hrun request.
  destruct (comprehensive_analysis_shape _ _ _ _ _ _ _ _ Hrun)
    as (image_bytes' & loop_evs & syn_evs & Hpre' & Hloop & Hstage & ->).
  rewrite Hpre in Hpre'. injection Hpre' as <-.
  set (provider := provider_of registry model_id) in *.
  set (r1 := fold_left record_outcome _ _) in *.
  rewrite !requests_of_app. cbn [requests_of prelude_of app]. rewrite app_nil_r.
  replace loop_evs with
    (snd (run_passes registry world self provider image_bytes model_id
            (length (analysis_passes self)) 1 (analysis_passes self)
            (fresh_results registry png_path model_id) n))
    by (rewrite Hloop; reflexivity).
  rewrite run_passes_requests. f_equal.
  rewrite synthesis_stage_eq in Hstage.
  destruct (analyses r1) as [|entry rest] eqn:Han.
  - injection Hstage as <- <-. rewrite Han. reflexivity.
  - cbv zeta in Hstage. injection Hstage as <- <-.
    cbn [analyses set_summary]. rewrite Han. cbn [requests_of].
    assert (Hp : provider = "gemini" \/ provider = "openrouter").
    { destruct (String.eqb_spec provider "gemini") as [Hg|Hg]; [left; exact Hg|].
      destruct (String.eqb_spec provider "openrouter") as [Ho|Ho]; [right; exact Ho|].
      exfalso. unfold r1 in Han.
      rewrite (no_adapter_no_analysis registry world self provider image_bytes model_id
                 (analysis_passes self) n _ Hg Ho) in Han.
      discriminate. }
    rewrite (invoke_synthesis_request registry world self provider image_bytes model_id
               _ _ Hp).
    apply requests_of_sent.
Qed.

(** Every request of a run is the request its provider's adapter builds,
    for the canonical image and the model of the run. *)
Lemma run_request_inv registry world self png_path model_id n req :
  In (Send req) (snd (comprehensive_analysis registry world self png_path model_id n)) ->
  exists image_bytes prompt,
    fst (preprocess_image world self png_path 0) = Ok image_bytes
    /\ request_for registry self (provider_of registry model_id) image_bytes model_id prompt
       = Some req.
Proof.
  intros Hin.
  destruct (comprehensive_analysis registry world self png_path model_id n)
    as [[r|e] evs] eqn:Hrun.
  - destruct (comprehensive_analysis_inv _ _ _ _ _ _ _ _ Hrun) as [image_bytes Hpre].
    exists image_bytes.
    pose proof (comprehensive_analysis_requests _ _ _ _ _ _ _ _ _ Hpre Hrun) as Hreq.
    cbv zeta in Hreq. cbn [snd] in Hin.
    apply In_requests_of in Hin. rewrite Hreq in Hin.
    apply in_app_or in Hin. destruct Hin as [Hin|Hin].
    + apply list_elem_of_In, list_elem_of_omap in Hin.
      destruct Hin as ([name prompt] & _ & Hsome).
      exists prompt. split; [exact Hpre | exact Hsome].
    + destruct (analyses r) as [|entry rest]; [destruct Hin|].
      exists (synthesis_prompt_of (entry :: rest)). split; [exact Hpre|].
      destruct (request_for _ _ _ _ _ _) as [req'|]; [|destruct Hin].
      destruct Hin as [->|[]]. reflexivity.
  - exfalso.
    destruct (fst (preprocess_image world self png_path 0)) as [image_bytes|e'] eqn:Hpre.
    + destruct (comprehensive_analysis_trace registry world self png_path model_id n
                  image_bytes Hpre) as (? & ? & ? & ? & _ & _ & Hall).
      rewrite Hall in Hrun. discriminate.
    + rewrite (comprehensive_analysis_raises registry world self png_path model_id n e'
                 Hpre) in Hrun.
      injection Hrun as _ <-. cbn [snd] in Hin.
      repeat (destruct Hin as [Hin|Hin]; [discriminate|]). destruct Hin.
Qed.

(** *** The events of the synthesis block *)

Lemma invoke_synthesis_sent registry world self provider image_bytes prompt model_id n :
  exists l,
    snd (invoke_synthesis registry world self provider image_bytes prompt model_id n)
    = map Send l.
Proof.
  unfold invoke_synthesis. destruct (String.eqb provider "gemini").
  - eexists [_]. reflexivity.
  - destruct (analyze_with_openrouter_events registry world self image_bytes prompt
                model_id n) as [-> | (t & u & h & ->)].
    + exists []. reflexivity.
    + eexists [_]. reflexivity.
Qed.

Lemma synthesis_stage_events registry world self provider image_bytes model_id results n :
  exists l,
    snd (synthesis_stage registry world self provider image_bytes model_id results n)
    = match analyses results with
      | [] => []
      | _ :: _ => Print synthesis_banner :: map Send l
      end.
Proof.
  rewrite synthesis_stage_eq.
  destruct (analyses results) as [|entry rest]; [exists []; reflexivity|].
  destruct (invoke_synthesis_sent registry world self provider image_bytes
              (synthesis_prompt_of (entry :: rest)) model_id n) as [l Hl].
  exists l. cbn [snd]. rewrite Hl. reflexivity.
Qed.

(** What holds of the console lines of the run, of the pause and of every
    request holds of every event of a run that returns. *)
Lemma comprehensive_analysis_events (P : Event -> Prop)
    registry world self png_path model_id n r evs :
  P (Print starting_line) ->
  P (Print (model_line registry model_id)) ->
  P (Print preprocessing_line) ->
  (forall idx total_passes pass_name, P (Print (pass_banner idx total_passes pass_name))) ->
  (forall pass_name text, P (Print (pass_complete_line pass_name text))) ->
  (forall pass_name msg, P (Print (pass_failed_line pass_name msg))) ->
  P (Print synthesis_banner) ->
  P (Print (complete_line r)) ->
  P (Sleep 1) ->
  (forall req, P (Send req)) ->
  comprehensive_analysis registry world self png_path model_id n = (Ok r, evs) ->
  Forall P evs.
Proof.
  intros Hstart Hmodel Hprep Hbanner Hdone Hfailed Hsyn Hcomplete Hsleep Hsend Hrun.
  assert (Hsent : forall l, Forall P (map Send l)).
  { intros l. induction l; constructor; auto. }
  destruct (comprehensive_analysis_shape _ _ _ _ _ _ _ _ Hrun)
    as (image_bytes & loop_evs & syn_evs & _ & Hloop & Hstage & ->).
  apply Forall_app. split; [repeat constructor; assumption|].
  apply Forall_app. split.
  { replace loop_evs with (snd (Ok (A := AnalysisResult)
                                  (fold_left record_outcome
                                     (outcomes registry world self
                                        (provider_of registry model_id) image_bytes model_id
                                        n (analysis_passes self))
                                     (fresh_results registry png_path model_id)),
                                loop_evs)) by reflexivity.
    rewrite <- Hloop. apply run_passes_events; auto.
    intros prompt k. rewrite invoke_request. apply Hsent. }
  apply Forall_app. split; [|repeat constructor; assumption].
  match type of Hstage with
  | synthesis_stage ?a ?b ?c ?d ?e ?f ?g ?h = _ =>
      destruct (synthesis_stage_events a b c d e f g h) as [l Hl]
  end.
  rewrite Hstage in Hl. cbn [snd] in Hl. rewrite Hl.
  destruct (analyses _); constructor; [assumption | apply Hsent].
Qed.

(** ** Further properties of the analyzer *)



Lemma length_omap_le {A B} (f : A -> option B) (l : list A) :
  length (omap f l) <= length l.
Proof.
  induction l as [|a l IH]; cbn [omap list_omap length]; [lia|].
  destruct (f a); cbn [length]; lia.
Qed.

(** Property X2. The requests of a run. They are, in order, one request
    per pass, built by the adapter of the model's provider for the
    canonical image and the prompt of that pass (none for a pass the
    adapter refuses before sending), and then, when some pass answered,
    one request for the synthesis prompt made of the stored analyses. A
    run therefore sends at most one request more than it has passes. *)
Theorem X2_requests_in_pass_order
    (registry : gmap string ModelDescriptor) (world : World)
    (self : MultiModelCADAnalyzer) (png_path model_id : string) (n : nat)
    (image_bytes : list Byte.byte) (r : AnalysisResult) (evs : list Event) :
  fst (preprocess_image world self png_path 0) = Ok image_bytes ->
  comprehensive_analysis registry world self png_path model_id n = (Ok r, evs) ->
  let request := request_for registry self (provider_of registry model_id) image_bytes
                   model_id in
  requests_of evs
  = omap (fun item => request (snd item)) (analysis_passes self)
    ++ match analyses r with
       | [] => []
       | _ :: _ => option_list (request (synthesis_prompt_of (analyses r)))
       end
  /\ sends evs = length (requests_of evs)
  /\ sends evs <= length (analysis_passes self) + 1.
Proof.
  intros Hpre Hrun request.
  pose proof (comprehensive_analysis_requests _ _ _ _ _ _ _ _ _ Hpre Hrun) as Hreq.
  cbv zeta in Hreq. fold request in Hreq.
  split; [exact Hreq|]. split; [apply sends_requests_of|].
  rewrite sends_requests_of, Hreq, length_app.
  pose proof (length_omap_le (fun item => request (snd item)) (analysis_passes self)).
  destruct (analyses r); [cbn [length]; lia|].
  destruct (request _); cbn [option_list option_rect length]; lia.
Qed.

(** Every request is answered: five passes and the synthesis, six requests
    to Gemini for the same image. *)
Lemma X2_requests_in_pass_order_witness :
  let o := Demo.run Demo.all_fine None "sketch.png" "gemini-2.5-flash" in
  let self := __init__ Demo.all_fine "AIza-demo" None in
  let request := gemini_request self [Byte.x47; Byte.x49; Byte.x46] "gemini-2.5-flash" in
  requests_of (snd o)
  = [ request _get_overview_prompt; request _get_technical_prompt;
      request _get_components_prompt; request _get_measurements_prompt;
      request _get_quality_prompt;
      request (synthesis_prompt_of (analyses (Demo.result_of o))) ].
Proof.
  intros o self request.
  destruct (X2_requests_in_pass_order MODELS Demo.all_fine self "sketch.png"
              "gemini-2.5-flash" 0 [Byte.x47; Byte.x49; Byte.x46]
              (Demo.result_of o) (snd o)) as (Hreq & _ & _).
  - vm_compute. reflexivity.
  - vm_compute. reflexivity.
  - rewrite Hreq. vm_compute. reflexivity.
Defined.

(** Property X3. Credentials. In a run of an analyzer built by [__init__],
    a request to Gemini uses the client made with the Gemini key and names
    the model of the run; a chat-completions request goes to the
    OpenRouter endpoint and bears a non-empty credential: the key given to
    [__init__] when that is a non-empty string, and otherwise (no key, or
    the empty string) the value of [OPENROUTER_API_KEY] in the
    environment. *)
Theorem X3_credentials_of_requests
    (registry : gmap string ModelDescriptor) (world : World)
    (gemini_key : string) (openrouter_key : option string)
    (png_path model_id : string) (n : nat) (req : Request) :
  In (Send req)
     (snd (comprehensive_analysis registry world
             (__init__ world gemini_key openrouter_key) png_path model_id n)) ->
  match req with
  | GenerateContent client model _ _ =>
      client_api_key client = gemini_key /\ model = model_id
  | Post _ url headers _ =>
      url = "https://openrouter.ai/api/v1/chat/completions"
      /\ exists key,
           key <> ""
           /\ dict_get "Authorization" headers = Some ("Bearer " +:+ key)
           /\ (if truthy openrouter_key then openrouter_key = Some key
               else getenv world "OPENROUTER_API_KEY" = Some key)
  end.
Proof.
  intros Hin.
  destruct (run_request_inv _ _ _ _ _ _ _ Hin) as (image_bytes & prompt & _ & Hreq).
  unfold request_for in Hreq.
  destruct (String.eqb (provider_of registry model_id) "gemini").
  { injection Hreq as <-. split; reflexivity. }
  destruct (String.eqb (provider_of registry model_id) "openrouter"); [|discriminate].
  destruct (openrouter_api_key (__init__ world gemini_key openrouter_key))
    as [key|] eqn:Hkey; [|discriminate].
  destruct (truthy_str key) eqn:Htruthy; [|discriminate].
  injection Hreq as <-. split; [reflexivity|].
  exists key. split; [intros ->; discriminate|]. split; [reflexivity|].
  cbn [openrouter_api_key __init__] in Hkey. unfold or_else in Hkey.
  destruct (truthy openrouter_key); exact Hkey.
Qed.

(** An empty key argument: the key of the environment is the one sent. *)
Lemma X3_credentials_of_requests_witness :
  let env := fun name => if String.eqb name "OPENROUTER_API_KEY" then Some "sk-or-env"
                         else None in
  let o := Demo.run (Demo.scripted env [Ok (Some "A bracket.")]) (Some "") "sketch.png"
             "xiaomi/mimo-v2-flash:free" in
  sends (snd o) = 6
  /\ forall req, In (Send req) (snd o) -> authorization req = Some "Bearer sk-or-env".
Proof.
  intros env o. split; [vm_compute; reflexivity|].
  intros req Hin.
  pose proof (X3_credentials_of_requests MODELS (Demo.scripted env [Ok (Some "A bracket.")])
                "AIza-demo" (Some "") "sketch.png" "xiaomi/mimo-v2-flash:free" 0 req Hin)
    as Hcred.
  destruct req as [client model contents config | timeout url headers json].
  - exfalso. clear Hcred. vm_compute in Hin.
    repeat (destruct Hin as [Hin|Hin]; [discriminate|]). destruct Hin.
  - destruct Hcred as (_ & key & _ & Hauth & Hkey).
    cbn in Hkey. injection Hkey as <-. exact Hauth.
Defined.

(** *** The console lines of a run are not the warning of the outer handler *)

Lemma starting_line_no_warning (e : exn) : starting_line <> synthesis_failed_line e.
Proof. unfold starting_line, synthesis_failed_line. simpl. discriminate. Qed.

Lemma model_line_no_warning registry (model_id : string) (e : exn) :
  model_line registry model_id <> synthesis_failed_line e.
Proof. unfold model_line, synthesis_failed_line. simpl. discriminate. Qed.

Lemma preprocessing_line_no_warning (e : exn) :
  preprocessing_line <> synthesis_failed_line e.
Proof. unfold preprocessing_line, synthesis_failed_line. simpl. discriminate. Qed.

Lemma pass_banner_no_warning (idx total_passes : nat) (pass_name : string) (e : exn) :
  pass_banner idx total_passes pass_name <> synthesis_failed_line e.
Proof. unfold pass_banner, synthesis_failed_line. simpl. discriminate. Qed.

Lemma pass_complete_no_warning (pass_name analysis : string) (e : exn) :
  pass_complete_line pass_name analysis <> synthesis_failed_line e.
Proof. unfold pass_complete_line, synthesis_failed_line. simpl. discriminate. Qed.

Lemma pass_failed_no_warning (pass_name error_msg : string) (e : exn) :
  pass_failed_line pass_name error_msg <> synthesis_failed_line e.
Proof. unfold pass_failed_line, synthesis_failed_line. simpl. discriminate. Qed.

Lemma synthesis_banner_no_warning (e : exn) : synthesis_banner <> synthesis_failed_line e.
Proof. unfold synthesis_banner, synthesis_failed_line. simpl. discriminate. Qed.

Lemma complete_line_no_warning (r : AnalysisResult) (e : exn) :
  complete_line r <> synthesis_failed_line e.
Proof. unfold complete_line, synthesis_failed_line. simpl. discriminate. Qed.

(** Property X4. The summary of a run. [_generate_synthesis] handles every
    error of its adapter call itself, so the handler around it in
    [comprehensive_analysis] never runs: its warning is never printed, and
    the summary of a result is one of three: empty when no pass answered,
    and otherwise either the answer of the synthesis with the length of
    the combined analyses and the flag [True], or the record of its
    failure with the flag [False]. The flag is missing only when no pass
    answered. *)
Theorem X4_summary_is_one_of_three
    (registry : gmap string ModelDescriptor) (world : World)
    (self : MultiModelCADAnalyzer) (png_path model_id : string) (n : nat)
    (r : AnalysisResult) (evs : list Event) :
  comprehensive_analysis registry world self png_path model_id n = (Ok r, evs) ->
  Forall no_synthesis_warning evs
  /\ (analyses r = [] /\ summary r = empty_summary
      \/ analyses r <> []
         /\ (exists text, summary r = synthesis_summary (analyses r) text)
      \/ analyses r <> []
         /\ (exists e, summary r = synthesis_fallback e))
  /\ (synthesis_success (summary r) = None <-> analyses r = []).
Proof.
  intros Hrun.
  split.
  { refine (comprehensive_analysis_events no_synthesis_warning _ _ _ _ _ _ _ _
              _ _ _ _ _ _ _ _ _ _ Hrun); cbn [no_synthesis_warning]; intros; try exact I.
    - apply starting_line_no_warning.
    - apply model_line_no_warning.
    - apply preprocessing_line_no_warning.
    - apply pass_banner_no_warning.
    - apply pass_complete_no_warning.
    - apply pass_failed_no_warning.
    - apply synthesis_banner_no_warning.
    - apply complete_line_no_warning. }
  destruct (comprehensive_analysis_shape _ _ _ _ _ _ _ _ Hrun)
    as (image_bytes & loop_evs & syn_evs & _ & _ & Hstage & _).
  set (provider := provider_of registry model_id) in *.
  set (os := outcomes registry world self provider image_bytes model_id n
               (analysis_passes self)) in *.
  destruct (record_outcomes_fields os (fresh_results registry png_path model_id))
    as (_ & _ & _ & Hsum & _ & _).
  cbv zeta in Hsum, Hstage. cbn [summary fresh_results] in Hsum.
  set (r1 := fold_left record_outcome os (fresh_results registry png_path model_id)) in *.
  rewrite synthesis_stage_eq in Hstage.
  destruct (analyses r1) as [|entry rest] eqn:Han.
  - injection Hstage as <- _. rewrite Han, Hsum.
    split; [left; split; reflexivity|]. split; reflexivity.
  - cbv zeta in Hstage. injection Hstage as <- _.
    cbn [analyses summary set_summary]. rewrite Han.
    destruct (fst (invoke_synthesis _ _ _ _ _ _ _ _)) as [text|e].
    + split; [right; left; split; [discriminate | exists text; reflexivity]|].
      split; discriminate.
    + split; [right; right; split; [discriminate | exists e; reflexivity]|].
      split; discriminate.
Qed.

(** The run in which the synthesis fails: the failure is in the summary. *)
Lemma X4_summary_is_one_of_three_witness :
  let o := Demo.run Demo.flaky None "sketch.png" "gemini-2.5-flash" in
  Forall no_synthesis_warning (snd o)
  /\ summary (Demo.result_of o)
     = synthesis_fallback (Exception "ReadTimeout" "The read operation timed out").
Proof.
  intros o.
  destruct (X4_summary_is_one_of_three MODELS Demo.flaky
              (__init__ Demo.flaky "AIza-demo" None) "sketch.png" "gemini-2.5-flash" 0
              (Demo.result_of o) (snd o)) as (Hquiet & _ & _).
  - vm_compute. reflexivity.
  - split; [exact Hquiet|]. vm_compute. reflexivity.
Defined.

(** *** What [preprocess_image] returns, and when *)

(** Property X5. The output of [preprocess_image] fits the 4096 box and is
    never larger than the source. For every image that can be opened, with
    positive sides below 2^31: whenever [preprocess_image] returns, the image that
    is encoded has no side above 4096 and no side longer than the same
    side of the source, whatever the rounding of the floating-point ratio
    does. It returns for every image whose longer side is at most 4096 or
    less than 4096 times the shorter side; for a larger image whose longer
    side is more than 4096 times the shorter one it raises the
    [ValueError] of [img.resize]. *)
Theorem X5_output_within_box_and_source
    (world : World) (self : MultiModelCADAnalyzer) (image_path : string)
    (img : Image) (n : nat) :
  image_open world image_path = Ok img ->
  (0 < fst (size img) < 2 ^ 31)%Z ->
  (0 < snd (size img) < 2 ^ 31)%Z ->
  (forall bytes evs,
     preprocess_image world self image_path n = (Ok bytes, evs) ->
     exists out,
       bytes = save world "PNG" 95 out
       /\ (0 <= fst (size out) <= Z.min 4096 (fst (size img)))%Z
       /\ (0 <= snd (size out) <= Z.min 4096 (snd (size img)))%Z)
  /\ ((longer_side (size img) <= 4096
       \/ longer_side (size img) < 4096 * Z.min (fst (size img)) (snd (size img)))%Z ->
      exists bytes, preprocess_image world self image_path n = (Ok bytes, []))
  /\ ((4096 < longer_side (size img))%Z ->
      (4096 * Z.min (fst (size img)) (snd (size img)) < longer_side (size img))%Z ->
      preprocess_image world self image_path n = (Raise resize_error, [])).
Proof.
  intros Hopen Hw Hh.
  destruct (Z_le_gt_dec (longer_side (size img)) 4096) as [Hsmall|Hbig].
  - destruct (small_image_not_resized world self image_path img n Hopen Hsmall)
      as (out & Hrun & Hsize & _).
    split; [|split].
    + intros bytes evs Hret. rewrite Hrun in Hret. injection Hret as <- _.
      exists out. split; [reflexivity|]. rewrite Hsize.
      unfold longer_side in Hsmall. lia.
    + intros _. eexists. exact Hrun.
    + intros Hgt. lia.
  - destruct (large_image_cases world self image_path img n Hopen Hw Hh ltac:(lia))
      as (new_size & Hnew & _ & _ & _ & Cw & Ch & Hthin & Hfull & Hrun).
    split; [|split].
    + intros bytes evs Hret. rewrite Hrun in Hret.
      destruct (empty_size new_size); [discriminate|].
      injection Hret as <- _. eexists. split; [reflexivity|].
      cbn [size]. split; assumption.
    + intros [Hle|Hwide]; [lia|]. rewrite Hrun, (Hfull Hwide). eexists. reflexivity.
    + intros _ Hlt. rewrite Hrun, (Hthin Hlt). reflexivity.
Qed.

(** The wide drawing: 6272 x 100 comes out within 4096 x 100. *)
Lemma X5_output_within_box_and_source_witness :
  exists out,
    preprocess_image Demo.silent (__init__ Demo.silent "AIza-demo" None) "drawing.png" 0
    = (Ok (save Demo.silent "PNG" 95 out), [])
    /\ (0 <= fst (size out) <= 4096)%Z
    /\ (0 <= snd (size out) <= 100)%Z.
Proof.
  destruct (X5_output_within_box_and_source Demo.silent
              (__init__ Demo.silent "AIza-demo" None) "drawing.png" Demo.drawing 0)
    as (Hbox & Hret & _).
  - reflexivity.
  - cbn. lia.
  - cbn. lia.
  - destruct Hret as (bytes & Hrun); [right; vm_compute; reflexivity|].
    destruct (Hbox bytes [] Hrun) as (out & -> & Bw & Bh).
    exists out. split; [exact Hrun|]. cbn in Bw, Bh. split; lia.
Defined.

(** Property X6. A thin image is refused. When the width of the source is
    more than 4096 times its height, the height [preprocess_image]
    computes is [int(height * ratio) = 0]: the size it passes to
    [img.resize] is [(w, 0)] with [w] 4095 or 4096, although the source
    has pixels. [img.resize] raises [ValueError] for such a size, and
    [preprocess_image] raises it in turn: nothing is encoded. *)
Theorem X6_thin_image_is_refused
    (world : World) (self : MultiModelCADAnalyzer) (image_path : string)
    (img : Image) (n : nat) :
  image_open world image_path = Ok img ->
  (0 < snd (size img))%Z ->
  (fst (size img) < 2 ^ 31)%Z ->
  (4096 * snd (size img) < fst (size img))%Z ->
  exists new_width,
    new_size_of (size img) = Ok (new_width, 0%Z)
    /\ (4095 <= new_width <= 4096)%Z
    /\ resize world (new_width, 0%Z) (enhance world (float_lit 15 10) (to_rgb world img))
       = Raise (Exception "ValueError" "height and width must be > 0")
    /\ preprocess_image world self image_path n
       = (Raise (Exception "ValueError" "height and width must be > 0"), []).
Proof.
  intros Hopen Hpos Hw Hthin.
  rewrite (preprocess_image_eq world self image_path img n Hopen). cbv zeta.
  destruct (size img) as [w h] eqn:Himg. cbn [fst snd] in *.
  unfold longer_side. cbn [fst snd].
  destruct (Z.ltb_spec 4096 (Z.max w h)) as [Hbig|Hsmall]; [|lia].
  destruct (new_size_of_box w h ltac:(lia) ltac:(lia) Hbig)
    as (nw & nh & Hnew & Bw & Bh & Blong & _ & Hzero & _).
  rewrite (Hzero Hthin) in *.
  exists nw. split; [exact Hnew|]. split; [lia|].
  assert (Hres : resize world (nw, 0%Z) (enhance world (float_lit 15 10) (to_rgb world img))
                 = Raise (Exception "ValueError" "height and width must be > 0")).
  { rewrite resize_eq. unfold empty_size. cbn [fst snd].
    change (0 <? 1)%Z with true. rewrite orb_true_r. reflexivity. }
  split; [exact Hres|].
  rewrite Hnew, Hres. reflexivity.
Qed.

(** A strip of 5000 x 1 pixels: the new size is 4096 x 0, and
    [preprocess_image] raises. *)
Lemma X6_thin_image_is_refused_witness :
  let world := with_file "strip.png" strip Demo.silent in
  new_size_of (size strip) = Ok (4096, 0)%Z
  /\ preprocess_image world (__init__ world "AIza-demo" None) "strip.png" 0
     = (Raise (Exception "ValueError" "height and width must be > 0"), []).
Proof.
  intros world.
  destruct (X6_thin_image_is_refused world (__init__ world "AIza-demo" None)
              "strip.png" strip 0) as (nw & Hnew & _ & _ & Hrun).
  - reflexivity.
  - cbn. lia.
  - cbn. lia.
  - cbn. lia.
  - assert (Hnw : nw = 4096%Z).
    { assert (H : new_size_of (size strip) = Ok (4096, 0)%Z) by (vm_compute; reflexivity).
      rewrite H in Hnew. injection Hnew as <-. reflexivity. }
    subst nw. split; [exact Hnew | exact Hrun].
Defined.

(** Property X7. An image that cannot be opened stops the run at once. The
    error of [Image.open] leaves [preprocess_image] and
    [comprehensive_analysis] unchanged; the run has printed its three
    opening lines and nothing else, has started no pass, sent no request
    and slept not at all, and there is no result. *)
Theorem X7_unreadable_image_stops_the_run
    (registry : gmap string ModelDescriptor) (world : World)
    (self : MultiModelCADAnalyzer) (png_path model_id : string) (n : nat) (e : exn) :
  image_open world png_path = Raise e ->
  preprocess_image world self png_path n = (Raise e, [])
  /\ comprehensive_analysis registry world self png_path model_id n
     = (Raise e, [ Print starting_line; Print (model_line registry model_id);
                   Print preprocessing_line ])
  /\ sends (snd (comprehensive_analysis registry world self png_path model_id n)) = 0
  /\ seconds_slept (snd (comprehensive_analysis registry world self png_path model_id n))
     = 0%Z.
Proof.
  intros Hopen.
  assert (Hpre : forall k, preprocess_image world self png_path k = (Raise e, [])).
  { intros k. unfold preprocess_image. rewrite lift_bind, Hopen. reflexivity. }
  split; [apply Hpre|].
  assert (Hrun : comprehensive_analysis registry world self png_path model_id n
                 = (Raise e, [ Print starting_line; Print (model_line registry model_id);
                               Print preprocessing_line ])).
  { apply comprehensive_analysis_raises. rewrite Hpre. reflexivity. }
  rewrite Hrun. repeat split; reflexivity.
Qed.

(** A path that is not there. *)
Lemma X7_unreadable_image_stops_the_run_witness :
  fst (Demo.run Demo.all_fine None "missing.png" "gemini-2.5-flash")
  = Raise (Exception "FileNotFoundError"
             "[Errno 2] No such file or directory: 'missing.png'")
  /\ length (snd (Demo.run Demo.all_fine None "missing.png" "gemini-2.5-flash")) = 3.
Proof.
  destruct (X7_unreadable_image_stops_the_run MODELS Demo.all_fine
              (__init__ Demo.all_fine "AIza-demo" None) "missing.png" "gemini-2.5-flash" 0
              (Exception "FileNotFoundError"
                 "[Errno 2] No such file or directory: 'missing.png'"))
    as (_ & Hrun & _ & _).
  - reflexivity.
  - unfold Demo.run. rewrite Hrun. split; reflexivity.
Defined.

(** *** The new size, against the exact proportion *)

(** A side [z] with [4096 * d - M <= z * M <= 4096 * d] is the quotient
    of [4096 * d] by [M], or one less. *)
Lemma scaled_side_quotient (d M z : Z) :
  (0 < M)%Z ->
  (4096 * d - M <= z * M <= 4096 * d)%Z ->
  (4096 * d / M - 1 <= z <= 4096 * d / M)%Z.
Proof.
  intros HM [Hlo Hhi]. split.
  - assert ((4096 * d / M <= z + 1)%Z); [|lia].
    apply Z.div_le_upper_bound; [exact HM|]. lia.
  - apply Z.div_le_lower_bound; [exact HM|]. lia.
Qed.

(** Property X15. What the resize does to the size. An image whose longer
    side is at most 4096 keeps its size. For a larger one (sides below
    2^31; all sides are taken positive) the new size is computed so that its longer side is 4095 or
    4096, never less, and each new side is the proportional value
    [4096 * side / longer side] rounded down, or one pixel less than that;
    the image is resized to that size, unless one of the new sides is [0],
    in which case [img.resize] raises and nothing is returned. *)
Theorem X15_resize_is_proportional_within_a_pixel
    (world : World) (self : MultiModelCADAnalyzer) (image_path : string)
    (img : Image) (n : nat) :
  image_open world image_path = Ok img ->
  (0 < fst (size img) < 2 ^ 31)%Z ->
  (0 < snd (size img) < 2 ^ 31)%Z ->
  if (4096 <? longer_side (size img))%Z then
    exists new_size,
      new_size_of (size img) = Ok new_size
      /\ (4095 <= longer_side new_size <= 4096)%Z
      /\ (4096 * fst (size img) / longer_side (size img) - 1
          <= fst new_size
          <= 4096 * fst (size img) / longer_side (size img))%Z
      /\ (4096 * snd (size img) / longer_side (size img) - 1
          <= snd new_size
          <= 4096 * snd (size img) / longer_side (size img))%Z
      /\ if empty_size new_size
         then preprocess_image world self image_path n = (Raise resize_error, [])
         else exists out,
                preprocess_image world self image_path n
                = (Ok (save world "PNG" 95 out), [])
                /\ size out = new_size
  else
    exists out,
      preprocess_image world self image_path n = (Ok (save world "PNG" 95 out), [])
      /\ size out = size img.
Proof.
  intros Hopen Hw Hh.
  destruct (Z.ltb_spec 4096 (longer_side (size img))) as [Hbig|Hsmall].
  - destruct (large_image_cases world self image_path img n Hopen Hw Hh Hbig)
      as (new_size & Hnew & Bw & Bh & Blong & _ & _ & _ & _ & Hrun).
    exists new_size. split; [exact Hnew|]. split; [exact Blong|].
    split; [apply scaled_side_quotient; solve [lia | assumption]|].
    split; [apply scaled_side_quotient; solve [lia | assumption]|].
    destruct (empty_size new_size); [exact Hrun|].
    eexists. split; [exact Hrun | reflexivity].
  - destruct (small_image_not_resized world self image_path img n Hopen Hsmall)
      as (out & Hrun & Hsize & _).
    exists out. split; [exact Hrun | exact Hsize].
Qed.

(** The wide drawing: 6272 x 100 becomes 4095 x 65, one pixel short of
    4096 in width and exact in height. *)
Lemma X15_resize_is_proportional_within_a_pixel_witness :
  exists out,
    preprocess_image Demo.silent (__init__ Demo.silent "AIza-demo" None) "drawing.png" 0
    = (Ok (save Demo.silent "PNG" 95 out), [])
    /\ size out = (4095, 65)%Z
    /\ (4096 * 6272 / 6272 - 1 = 4095)%Z
    /\ (4096 * 100 / 6272 = 65)%Z.
Proof.
  pose proof (X15_resize_is_proportional_within_a_pixel Demo.silent
                (__init__ Demo.silent "AIza-demo" None) "drawing.png" Demo.drawing 0
                eq_refl) as H.
  change (4096 <? longer_side (size Demo.drawing))%Z with true in H.
  destruct H as (new_size & Hnew & _ & _ & _ & Hrun).
  - cbn. lia.
  - cbn. lia.
  - assert (Hsize : new_size = (4095, 65)%Z).
    { assert (H : new_size_of (size Demo.drawing) = Ok (4095, 65)%Z)
        by (vm_compute; reflexivity).
      rewrite H in Hnew. injection Hnew as <-. reflexivity. }
    subst new_size. change (empty_size (4095, 65)%Z) with false in Hrun.
    destruct Hrun as (out & Hrun & Hsize).
    exists out. split; [exact Hrun|]. split; [exact Hsize|]. split; reflexivity.
Defined.

(** *** The report of a run *)

(** The summary section of the report, from the summary of the result. *)
Lemma summary_lines_of_synthesis (analyses : list (string * option string))
    (o : Result (option string)) :
  (let s := match o with
            | Ok text => synthesis_summary analyses text
            | Raise e => synthesis_fallback e
            end in
   if truthy (get_executive_summary s)
   then [ Some "EXECUTIVE SUMMARY"; Some (rule "-"); get_executive_summary s; Some "" ]
   else [])
  = map Some (synthesis_section o).
Proof. destruct o as [[[|c text]|]|e]; reflexivity. Qed.

(** Property X8. The report of a run, from what the adapter answered. For
    an analyzer built by [__init__], the lines of the report of the result
    of a run are the header, then the summary section, then the heading of
    the details and one section for each pass whose call returned, in the
    order of the passes. The summary section is absent when no call
    returned and when the synthesis answered the empty text or [None]; it
    holds the answer of the synthesis, or ['Synthesis failed'] when the
    call of the synthesis raised. A pass whose call raised leaves no trace
    in the report. A pass that was answered [None] has a section whose
    content is [None]: then the final [join] raises [TypeError] and there
    is no report; otherwise [format_for_rag] returns the lines joined by
    line feeds. *)
Theorem X8_report_of_a_run
    (registry : gmap string ModelDescriptor) (world : World)
    (gemini_key : string) (openrouter_key : option string)
    (png_path model_id : string) (n : nat) (image_bytes : list Byte.byte)
    (r : AnalysisResult) (evs : list Event) :
  let self := __init__ world gemini_key openrouter_key in
  let provider := provider_of registry model_id in
  let os := outcomes registry world self provider image_bytes model_id n
              (analysis_passes self) in
  let sent := requests_of_passes registry world self provider image_bytes model_id n
                (analysis_passes self) in
  let head := report_header (fresh_results registry png_path model_id)
              ++ match successes os with
                 | [] => []
                 | _ :: _ =>
                     synthesis_section
                       (fst (invoke_synthesis registry world self provider image_bytes
                               (synthesis_prompt_of (successes os)) model_id (sent + n)))
                 end
              ++ detailed_heading in
  fst (preprocess_image world self png_path 0) = Ok image_bytes ->
  comprehensive_analysis registry world self png_path model_id n = (Ok r, evs) ->
  report_lines r = map Some head ++ flat_map pass_section (successes os)
  /\ ((forall pass_name, ~ In (pass_name, Ok None) os) ->
        format_for_rag r
        = Ok (join nl (head ++ texts (flat_map pass_section (successes os)))))
  /\ (forall pass_name,
        In (pass_name, Ok None) os ->
        exists i,
          format_for_rag r
          = Raise (Exception "TypeError"
                     ("sequence item " +:+ str_nat i
                      +:+ ": expected str instance, NoneType found"))).
Proof.
  intros self provider os sent head Hpre Hrun.
  destruct (init_run registry world gemini_key openrouter_key png_path model_id n
              image_bytes Hpre)
    as (r' & evs' & Hrun' & _ & _ & _ & Hinfo & Han & _ & _ & Hnone & Hsome & _).
  fold self provider os sent in Hrun', Han, Hnone, Hsome.
  rewrite Hrun in Hrun'. injection Hrun' as <- <-.
  assert (Hlines : report_lines r = map Some head ++ flat_map pass_section (successes os)).
  { rewrite report_lines_eq, Han. unfold head. rewrite !map_app, <- !app_assoc.
    assert (Hheader : report_header r
                      = report_header (fresh_results registry png_path model_id)).
    { unfold report_header. rewrite Hinfo. reflexivity. }
    rewrite Hheader. f_equal. f_equal.
    destruct (successes os) as [|entry rest] eqn:Hs.
    - destruct (Hnone eq_refl) as [-> _]. reflexivity.
    - destruct Hsome as (sevs & Hgen & _); [discriminate|].
      rewrite _generate_synthesis_eq in Hgen.
      rewrite <- summary_lines_of_synthesis with (analyses := entry :: rest).
      destruct (invoke_synthesis registry world self provider image_bytes
                  (synthesis_prompt_of (entry :: rest)) model_id (sent + n))
        as [[text|e] sevs']; injection Hgen as <- _; reflexivity. }
  split; [exact Hlines|].
  assert (Hnone_in : In None (flat_map pass_section (successes os))
                     <-> exists pass_name, In (pass_name, Ok None) os).
  { rewrite In_pass_sections. split; intros (name & Hin); exists name;
      apply successes_In; exact Hin. }
  unfold format_for_rag, join_opt. rewrite Hlines.
  destruct (first_none_texts head (flat_map pass_section (successes os)) 0) as [-> ->].
  split.
  - intros Hall.
    assert (Hfirst : first_none (length head + 0) (flat_map pass_section (successes os))
                     = None).
    { apply first_none_None. rewrite Hnone_in. intros (name & Hin). exact (Hall name Hin). }
    rewrite Hfirst. reflexivity.
  - intros pass_name Hin.
    destruct (first_none (length head + 0) (flat_map pass_section (successes os)))
      as [i|] eqn:Hfirst; [exists i; reflexivity|].
    exfalso. apply first_none_None in Hfirst. apply Hfirst, Hnone_in.
    exists pass_name. exact Hin.
Qed.

(** The run in which the second pass and the synthesis fail: four
    sections, and the summary section says that the synthesis failed. *)
Lemma X8_report_of_a_run_witness :
  let o := Demo.run Demo.flaky None "sketch.png" "gemini-2.5-flash" in
  format_for_rag (Demo.result_of o)
  = Ok (join nl
          ([ rule "="; "COMPREHENSIVE CAD DRAWING ANALYSIS"; rule "="; "";
             "Model: Gemini 2.5 Flash"; "Provider: gemini"; "" ]
           ++ summary_section "Synthesis failed"
           ++ detailed_heading
           ++ [ nl +:+ "OVERVIEW ANALYSIS"; rule "-"; "A bracket."; "";
                nl +:+ "COMPONENTS ANALYSIS"; rule "-"; "Four holes."; "";
                nl +:+ "MEASUREMENTS ANALYSIS"; rule "-"; "120 x 80 mm."; "";
                nl +:+ "QUALITY ANALYSIS"; rule "-"; "Readable."; "" ])).
Proof.
  intros o.
  destruct (X8_report_of_a_run MODELS Demo.flaky "AIza-demo" None "sketch.png"
              "gemini-2.5-flash" 0 [Byte.x47; Byte.x49; Byte.x46]
              (Demo.result_of o) (snd o)) as (_ & Hreport & _).
  - vm_compute. reflexivity.
  - vm_compute. reflexivity.
  - rewrite Hreport.
    + vm_compute. reflexivity.
    + intros pass_name Hin. vm_compute in Hin.
      repeat (destruct Hin as [Hin|Hin]; [discriminate|]). destruct Hin.
Defined.

(** A pass that is answered without a text: its section has no content,
    and the report cannot be made. *)
Example report_of_a_tacit_run :
  let r := Demo.result_of (Demo.run Demo.tacit None "sketch.png" "gemini-2.5-flash") in
  dict_get "technical" (analyses r) = Some None
  /\ format_for_rag r
     = Raise (Exception "TypeError"
                "sequence item 20: expected str instance, NoneType found").
Proof. vm_compute. split; reflexivity. Qed.

(** Property X9. A model that is not in the table. The run goes to Gemini
    under the identifier it was given: the console announces that
    identifier as the model, and every request names it. The report of the
    result, however, labels the model and the provider ['Unknown']. *)
Theorem X9_unlisted_model_is_reported_unknown
    (registry : gmap string ModelDescriptor) (world : World)
    (self : MultiModelCADAnalyzer) (png_path model_id : string) (n : nat)
    (r : AnalysisResult) (evs : list Event) :
  registry !! model_id = None ->
  comprehensive_analysis registry world self png_path model_id n = (Ok r, evs) ->
  In (Print ("üìä Model: " +:+ model_id)) evs
  /\ (forall req, In (Send req) evs ->
        exists image_bytes prompt,
          req = GenerateContent (gemini_client self) model_id
                  [Part_from_bytes image_bytes "image/png"; Part_from_text prompt]
                  generation_config)
  /\ report_header r
     = [ rule "="; "COMPREHENSIVE CAD DRAWING ANALYSIS"; rule "="; "";
         "Model: Unknown"; "Provider: Unknown"; "" ].
Proof.
  intros Hnone Hrun.
  destruct (comprehensive_analysis_inv _ _ _ _ _ _ _ _ Hrun) as [image_bytes Hpre].
  destruct (comprehensive_analysis_returns registry world self png_path model_id n
              image_bytes Hpre) as (r' & loop_evs & syn_evs & Hrun' & _ & _ & Hinfo & _).
  rewrite Hrun in Hrun'. injection Hrun' as <- ->.
  split.
  { right. left. unfold model_line. rewrite Hnone. reflexivity. }
  split.
  { intros req Hin.
    assert (Hin' : In (Send req)
                     (snd (comprehensive_analysis registry world self png_path model_id n))).
    { rewrite Hrun. exact Hin. }
    destruct (run_request_inv _ _ _ _ _ _ _ Hin') as (bytes & prompt & _ & Hreq).
    unfold request_for, provider_of in Hreq. rewrite Hnone in Hreq.
    cbn in Hreq. injection Hreq as <-. exists bytes, prompt. reflexivity. }
  unfold report_header. rewrite Hinfo, Hnone. reflexivity.
Qed.

(** A model identifier with a typing error. *)
Lemma X9_unlisted_model_is_reported_unknown_witness :
  let o := Demo.run Demo.all_fine None "sketch.png" "gemini-2.5-flesh" in
  length (analyses (Demo.result_of o)) = 5
  /\ nth_error (report_lines (Demo.result_of o)) 4 = Some (Some "Model: Unknown")
  /\ nth_error (report_lines (Demo.result_of o)) 5 = Some (Some "Provider: Unknown").
Proof.
  intros o. split; [vm_compute; reflexivity|].
  destruct (X9_unlisted_model_is_reported_unknown MODELS Demo.all_fine
              (__init__ Demo.all_fine "AIza-demo" None) "sketch.png" "gemini-2.5-flesh" 0
              (Demo.result_of o) (snd o)) as (_ & _ & Hheader).
  - vm_compute. reflexivity.
  - vm_compute. reflexivity.
  - rewrite report_lines_eq, Hheader. split; reflexivity.
Defined.

(** *** The length of the combined analyses *)

Lemma len_app (a b : string) : len (a +:+ b) = len a + len b.
Proof. unfold len. induction a as [|c a IH]; simpl; [reflexivity | f_equal; exact IH]. Qed.

Lemma len_join (sep : string) (l : list string) :
  len (join sep l) = list_sum (map len l) + len sep * (length l - 1).
Proof.
  unfold join. induction l as [|a l IH]; [cbn; lia|].
  destruct l as [|b l].
  - cbn. unfold len. lia.
  - change (String.concat sep (a :: b :: l)) with (a +:+ sep +:+ String.concat sep (b :: l)).
    rewrite !len_app, IH.
    replace (length (a :: b :: l) - 1) with (S (length (b :: l) - 1)) by (cbn; lia).
    rewrite Nat.mul_succ_r. unfold list_sum. cbn [map fold_right]. lia.
Qed.

Lemma len_combined_of (analyses : list (string * option string)) :
  len (combined_of analyses)
  = list_sum (map section_length analyses) + 2 * (length analyses - 1).
Proof.
  unfold combined_of. rewrite len_join, length_map, map_map.
  change (len (nl +:+ nl)) with 2. f_equal. f_equal.
  apply map_ext. intros [name content].
  unfold section_length. rewrite !len_app.
  change (len "=== ") with 4. change (len " ===") with 4. change (len nl) with 1.
  cbn [fst snd]. lia.
Qed.

(** Property X10. What [_generate_synthesis] returns. It never raises.
    When its adapter call answers, the summary holds the answer, the flag
    [True] and ['total_analysis_length'], which is the length of the
    combined text: for each analysis its name in upper case, its content
    and nine characters of decoration, and two characters between
    consecutive analyses. When the call raises, the summary holds
    ['Synthesis failed'], the text of the error and the flag [False], and
    no length. *)
Theorem X10_synthesis_summary_and_length
    (registry : gmap string ModelDescriptor) (world : World)
    (self : MultiModelCADAnalyzer) (analyses : list (string * option string))
    (model_id provider : string) (image_bytes : list Byte.byte) (n : nat) :
  exists s evs,
    _generate_synthesis registry world self analyses model_id provider image_bytes n
    = (Ok s, evs)
    /\ match fst (invoke_synthesis registry world self provider image_bytes
                    (synthesis_prompt_of analyses) model_id n) with
       | Ok text =>
           s = {| executive_summary := Some text;
                  total_analysis_length :=
                    Some (list_sum (map section_length analyses)
                          + 2 * (length analyses - 1));
                  synthesis_success := Some true;
                  error := None |}
       | Raise e =>
           s = {| executive_summary := Some (Some "Synthesis failed");
                  total_analysis_length := None;
                  synthesis_success := Some false;
                  error := Some (str_exn e) |}
       end.
Proof.
  rewrite _generate_synthesis_eq.
  destruct (invoke_synthesis registry world self provider image_bytes
              (synthesis_prompt_of analyses) model_id n) as [[text|e] evs].
  - eexists _, evs. split; [reflexivity|]. cbn [fst].
    rewrite len_combined_of. reflexivity.
  - eexists _, evs. split; reflexivity.
Qed.

(** *** The table of models *)

(** The entries of [MODELS], by their provider and capabilities. *)
Lemma MODELS_inv (model_id : string) (d : ModelDescriptor) :
  MODELS !! model_id = Some d ->
  model_provider d = "gemini" /\ has_vision d = true
  \/ model_provider d = "openrouter".
Proof.
  intros Hlookup. unfold MODELS in Hlookup.
  apply elem_of_list_to_map_2, list_elem_of_In in Hlookup.
  cbn [In] in Hlookup.
  repeat (destruct Hlookup as [Hentry|Hlookup];
          [injection Hentry as <- <-; first [left; split; reflexivity | right; reflexivity]|]).
  destruct Hlookup.
Qed.

(** Property X11. Every model has an adapter. With the table of models of
    the source, whatever identifier is asked for, the provider a run works
    with is ['gemini'] or ['openrouter'], so that a pass is dispatched to
    one of the two adapters exactly as the synthesis is: the branch that
    raises ['Unknown provider'] is never taken. Every Gemini model of the
    table has the ['vision'] capability. *)
Theorem X11_every_listed_model_has_an_adapter
    (world : World) (self : MultiModelCADAnalyzer) (image_bytes : list Byte.byte)
    (prompt model_id : string) (n : nat) :
  (provider_of MODELS model_id = "gemini" \/ provider_of MODELS model_id = "openrouter")
  /\ invoke MODELS world self (provider_of MODELS model_id) image_bytes prompt model_id n
     = invoke_synthesis MODELS world self (provider_of MODELS model_id) image_bytes prompt
         model_id n
  /\ (forall d, MODELS !! model_id = Some d -> model_provider d = "gemini" ->
                In "vision" (model_capabilities d)).
Proof.
  assert (Hp : provider_of MODELS model_id = "gemini"
               \/ provider_of MODELS model_id = "openrouter").
  { unfold provider_of. destruct (MODELS !! model_id) as [d|] eqn:Hlookup.
    - destruct (MODELS_inv model_id d Hlookup) as [[Hg _]|Ho]; auto.
    - left. reflexivity. }
  split; [exact Hp|]. split.
  - unfold invoke, invoke_synthesis.
    destruct Hp as [-> | ->]; reflexivity.
  - intros d Hlookup Hg.
    destruct (MODELS_inv model_id d Hlookup) as [[_ Hv]|Ho].
    + apply has_vision_In. exact Hv.
    + rewrite Hg in Ho. discriminate.
Qed.

(** *** Which requests carry the image *)

Lemma image_parts_request_body registry (image_bytes : list Byte.byte)
    (prompt model_id : string) :
  image_parts (request_body registry image_bytes prompt model_id)
  = if existsb (String.eqb "vision") (capabilities_of registry model_id) then 1 else 0.
Proof.
  unfold request_body, messages.
  destruct (existsb (String.eqb "vision") (capabilities_of registry model_id)); reflexivity.
Qed.

(** Property X12. The image leaves the process only for a vision model.
    With the table of models of the source, a request of a run for a
    listed model carries the image exactly when the model has the
    ['vision'] capability: the two text-only models get the prompts alone. *)
Theorem X12_image_sent_iff_vision_model
    (world : World) (self : MultiModelCADAnalyzer) (png_path model_id : string)
    (n : nat) (d : ModelDescriptor) (req : Request) :
  MODELS !! model_id = Some d ->
  In (Send req) (snd (comprehensive_analysis MODELS world self png_path model_id n)) ->
  carries_image req = has_vision d.
Proof.
  intros Hlookup Hin.
  destruct (run_request_inv _ _ _ _ _ _ _ Hin) as (image_bytes & prompt & _ & Hreq).
  unfold request_for, provider_of in Hreq. rewrite Hlookup in Hreq.
  destruct (MODELS_inv model_id d Hlookup) as [[Hg Hv]|Ho].
  - rewrite Hg in Hreq. change (String.eqb "gemini" "gemini") with true in Hreq.
    injection Hreq as <-. rewrite Hv. reflexivity.
  - rewrite Ho in Hreq.
    change (String.eqb "openrouter" "gemini") with false in Hreq.
    change (String.eqb "openrouter" "openrouter") with true in Hreq. cbv iota in Hreq.
    destruct (openrouter_api_key self) as [key|]; [|discriminate].
    destruct (truthy_str key); [|discriminate].
    injection Hreq as <-.
    unfold carries_image, openrouter_request. rewrite image_parts_request_body.
    unfold capabilities_of, has_vision. rewrite Hlookup.
    destruct (existsb (String.eqb "vision") (model_capabilities d)); reflexivity.
Qed.

(** A text-only model behind OpenRouter: six requests, none with the image. *)
Lemma X12_image_sent_iff_vision_model_witness :
  let world := Demo.all_fine in
  let o := Demo.run world (Some "sk-or-demo") "sketch.png" "deepseek/deepseek-r1" in
  sends (snd o) = 6
  /\ forall req, In (Send req) (snd o) -> carries_image req = false.
Proof.
  intros world o. split; [vm_compute; reflexivity|].
  intros req Hin.
  assert (Hlookup : MODELS !! "deepseek/deepseek-r1"
                    = Some {| model_name := "DeepSeek R1"; model_provider := "openrouter";
                              model_capabilities := ["reasoning"; "advanced"];
                              model_free := false; model_context := "64K tokens";
                              model_notes :=
                                Some "Excellent reasoning, chain-of-thought analysis" |})
    by (vm_compute; reflexivity).
  rewrite (X12_image_sent_iff_vision_model world
             (__init__ world "AIza-demo" (Some "sk-or-demo")) "sketch.png"
             "deepseek/deepseek-r1" 0 _ req Hlookup Hin).
  reflexivity.
Defined.

(** *** Order and lookup of the stored passes *)

(** Property X13. The results keep the order of the passes. In the result
    of a run of an analyzer built by [__init__], the names in [analyses],
    read in insertion order, are the names of the passes that answered in
    the order overview, technical, components, measurements, quality, and
    so are the names in [errors] for the passes that failed. *)
Theorem X13_results_keep_the_pass_order
    (registry : gmap string ModelDescriptor) (world : World)
    (gemini_key : string) (openrouter_key : option string)
    (png_path model_id : string) (n : nat) (r : AnalysisResult) (evs : list Event) :
  comprehensive_analysis registry world (__init__ world gemini_key openrouter_key)
    png_path model_id n = (Ok r, evs) ->
  sublist (keys (analyses r)) pass_names
  /\ sublist (map failed_pass (errors r)) pass_names.
Proof.
  intros Hrun.
  destruct (comprehensive_analysis_inv _ _ _ _ _ _ _ _ Hrun) as [image_bytes Hpre].
  destruct (init_run registry world gemini_key openrouter_key png_path model_id n
              image_bytes Hpre)
    as (r' & evs' & Hrun' & Hkeys & _ & _ & _ & Han & Herr & _).
  rewrite Hrun in Hrun'. injection Hrun' as <- <-.
  rewrite Han, Herr, <- Hkeys.
  split; [apply successes_sublist | apply failures_sublist].
Qed.

(** The second pass fails: the other four are stored in their order. *)
Lemma X13_results_keep_the_pass_order_witness :
  let o := Demo.run Demo.flaky None "sketch.png" "gemini-2.5-flash" in
  keys (analyses (Demo.result_of o)) = ["overview"; "components"; "measurements"; "quality"]
  /\ sublist (keys (analyses (Demo.result_of o))) pass_names.
Proof.
  intros o. split; [vm_compute; reflexivity|].
  apply (X13_results_keep_the_pass_order MODELS Demo.flaky "AIza-demo" None "sketch.png"
           "gemini-2.5-flash" 0 (Demo.result_of o) (snd o)).
  vm_compute. reflexivity.
Defined.

Lemma dict_get_absent {V} (k : string) (d : list (string * V)) :
  ~ In k (keys d) -> dict_get k d = None.
Proof.
  induction d as [|[k' v] rest IH]; cbn; intros Hk; [reflexivity|].
  destruct (String.eqb_spec k k') as [->|Hne].
  - exfalso. apply Hk. left. reflexivity.
  - apply IH. intros Hin. apply Hk. right. exact Hin.
Qed.

(** In a dictionary a key has the value it is listed with. *)
Lemma dict_get_In {V} (k : string) (v : V) (d : list (string * V)) :
  List.NoDup (keys d) -> (dict_get k d = Some v <-> In (k, v) d).
Proof.
  induction d as [|[k' v'] rest IH]; cbn; intros Hnd.
  - split; [discriminate | intros []].
  - inversion Hnd as [|? ? Hfresh Hnd']; subst.
    destruct (String.eqb_spec k k') as [->|Hne].
    + split.
      * intros H. injection H as ->. left. reflexivity.
      * intros [H|H]; [injection H as ->; reflexivity|].
        exfalso. apply Hfresh. apply (in_map fst) in H. exact H.
    + rewrite (IH Hnd'). split; [intros H; right; exact H|].
      intros [H|H]; [|exact H]. injection H as -> _. congruence.
Qed.

Lemma dict_get_successes (os : list (string * Result (option string))) (k : string) :
  List.NoDup (keys os) ->
  dict_get k (successes os)
  = match dict_get k os with
    | Some (Ok answer) => Some answer
    | _ => None
    end.
Proof.
  induction os as [|[name [answer|e]] rest IH]; cbn; intros Hnd; [reflexivity| |];
    inversion Hnd as [|? ? Hfresh Hnd']; subst.
  - destruct (String.eqb k name); [reflexivity | apply IH; exact Hnd'].
  - destruct (String.eqb_spec k name) as [->|Hne]; [|apply IH; exact Hnd'].
    apply dict_get_absent. intros Hin. apply Hfresh.
    apply successes_keys_incl. exact Hin.
Qed.

Lemma failures_of_pass (os : list (string * Result (option string))) (k msg : string) :
  List.NoDup (keys os) ->
  In {| failed_pass := k; failed_error := msg |} (failures os)
  <-> exists o e, dict_get k os = Some o /\ error_of o = Some e /\ msg = str_exn e.
Proof.
  intros Hnd. rewrite failures_In.
  split; intros (o & e & Ho & He & Hmsg); exists o, e;
    (split; [apply (dict_get_In k o os Hnd); exact Ho | split; assumption]).
Qed.

(** Property X14. Looking a pass up in the result. In the result of a run
    of an analyzer built by [__init__], [analyses] maps a name to what the
    adapter answered for the pass of that name (a text, or [None]), and
    has no entry for a pass whose call raised nor for any other name;
    [errors] holds a name with a message exactly when the pass of that
    name met an error with that text: the error its call raised, or, when
    the call answered [None], the [TypeError] of [len(None)]. A pass that
    was answered [None] is therefore in both. *)
Theorem X14_lookup_of_a_pass
    (registry : gmap string ModelDescriptor) (world : World)
    (gemini_key : string) (openrouter_key : option string)
    (png_path model_id : string) (n : nat) (image_bytes : list Byte.byte)
    (r : AnalysisResult) (evs : list Event) :
  let self := __init__ world gemini_key openrouter_key in
  let os := outcomes registry world self (provider_of registry model_id) image_bytes
              model_id n (analysis_passes self) in
  fst (preprocess_image world self png_path 0) = Ok image_bytes ->
  comprehensive_analysis registry world self png_path model_id n = (Ok r, evs) ->
  forall pass_name,
    dict_get pass_name (analyses r)
    = match dict_get pass_name os with
      | Some (Ok answer) => Some answer
      | _ => None
      end
    /\ (forall msg,
          In {| failed_pass := pass_name; failed_error := msg |} (errors r)
          <-> (exists e, dict_get pass_name os = Some (Raise e) /\ msg = str_exn e)
              \/ (dict_get pass_name os = Some (Ok None)
                  /\ msg = "object of type 'NoneType' has no len()"))
    /\ (dict_get pass_name os = Some (Ok None) ->
          dict_get pass_name (analyses r) = Some None
          /\ In {| failed_pass := pass_name;
                   failed_error := "object of type 'NoneType' has no len()" |} (errors r))
    /\ (~ In pass_name pass_names -> dict_get pass_name os = None).
Proof.
  intros self os Hpre Hrun pass_name.
  destruct (init_run registry world gemini_key openrouter_key png_path model_id n
              image_bytes Hpre)
    as (r' & evs' & Hrun' & Hkeys & _ & _ & _ & Han & Herr & _).
  fold self os in Hrun', Hkeys, Han, Herr.
  rewrite Hrun in Hrun'. injection Hrun' as <- <-.
  assert (Hnd : List.NoDup (keys os)) by (rewrite Hkeys; apply pass_names_NoDup).
  assert (Hfail : forall msg,
            In {| failed_pass := pass_name; failed_error := msg |} (errors r)
            <-> (exists e, dict_get pass_name os = Some (Raise e) /\ msg = str_exn e)
                \/ (dict_get pass_name os = Some (Ok None)
                    /\ msg = "object of type 'NoneType' has no len()")).
  { intros msg. rewrite Herr, (failures_of_pass os pass_name msg Hnd). split.
    - intros (o & e & Hget & He & Hmsg). destruct o as [[text|]|e']; cbn in He.
      + discriminate.
      + injection He as <-. right. split; [exact Hget | exact Hmsg].
      + injection He as <-. left. exists e'. split; [exact Hget | exact Hmsg].
    - intros [(e & Hget & Hmsg)|[Hget Hmsg]].
      + exists (Raise e), e. split; [exact Hget|]. split; [reflexivity | exact Hmsg].
      + exists (Ok None), no_len. split; [exact Hget|]. split; [reflexivity | exact Hmsg]. }
  rewrite Han. split; [apply dict_get_successes; exact Hnd|].
  split; [exact Hfail|]. split.
  - intros Hget. split.
    + rewrite (dict_get_successes os pass_name Hnd), Hget. reflexivity.
    + apply Hfail. right. split; [exact Hget | reflexivity].
  - intros Hnot. apply dict_get_absent. rewrite Hkeys. exact Hnot.
Qed.

(** The second pass is answered [None]: its name is found in [analyses]
    with no text, and in [errors]; the third pass is found with its text. *)
Lemma X14_lookup_of_a_pass_witness :
  let o := Demo.run Demo.tacit None "sketch.png" "gemini-2.5-flash" in
  dict_get "technical" (analyses (Demo.result_of o)) = Some None
  /\ In {| failed_pass := "technical";
           failed_error := "object of type 'NoneType' has no len()" |}
        (errors (Demo.result_of o))
  /\ dict_get "components" (analyses (Demo.result_of o)) = Some (Some "Four holes.").
Proof.
  intros o.
  pose proof (X14_lookup_of_a_pass MODELS Demo.tacit "AIza-demo" None "sketch.png"
                "gemini-2.5-flash" 0 [Byte.x47; Byte.x49; Byte.x46]
                (Demo.result_of o) (snd o)) as Hlookup.
  cbv zeta in Hlookup.
  specialize (Hlookup ltac:(vm_compute; reflexivity) ltac:(vm_compute; reflexivity)).
  destruct (Hlookup "technical") as (_ & _ & Hboth & _).
  destruct Hboth as [Hget Hin]; [vm_compute; reflexivity|].
  split; [exact Hget|]. split; [exact Hin|].
  rewrite (proj1 (Hlookup "components")). vm_compute. reflexivity.
Defined.

(** *** Analyzers that answer alike *)

Lemma run_passes_ext registry world self self' provider image_bytes model_id total_passes :
  (forall prompt k,
     invoke registry world self provider image_bytes prompt model_id k
     = invoke registry world self' provider image_bytes prompt model_id k) ->
  forall items idx results n,
    run_passes registry world self provider image_bytes model_id total_passes idx items
      results n
    = run_passes registry world self' provider image_bytes model_id total_passes idx items
        results n.
Proof.
  intros Hcall items.
  induction items as [|[pass_name prompt] rest IH]; intros idx results n; [reflexivity|].
  cbn [run_passes]. rewrite !bind_eq, !run_pass_eq, Hcall, IH. reflexivity.
Qed.

(** Two analyzers with the same passes whose adapter calls agree run
    alike. *)
Lemma comprehensive_analysis_ext registry world self self' png_path model_id n :
  analysis_passes self = analysis_passes self' ->
  (forall image_bytes prompt k,
     invoke registry world self (provider_of registry model_id) image_bytes prompt
       model_id k
     = invoke registry world self' (provider_of registry model_id) image_bytes prompt
         model_id k) ->
  (forall image_bytes prompt k,
     invoke_synthesis registry world self (provider_of registry model_id) image_bytes
       prompt model_id k
     = invoke_synthesis registry world self' (provider_of registry model_id) image_bytes
         prompt model_id k) ->
  comprehensive_analysis registry world self png_path model_id n
  = comprehensive_analysis registry world self' png_path model_id n.
Proof.
  intros Hpasses Hcall Hsyn.
  destruct (fst (preprocess_image world self png_path 0)) as [image_bytes|e] eqn:Hpre.
  - destruct (comprehensive_analysis_trace registry world self png_path model_id n
                image_bytes Hpre) as (r1 & loop_evs & r & syn_evs & Hloop & Hstage & ->).
    destruct (comprehensive_analysis_trace registry world self' png_path model_id n
                image_bytes Hpre) as (r1' & loop_evs' & r' & syn_evs' & Hloop' & Hstage' & ->).
    rewrite <- Hpasses in Hloop'.
    rewrite (run_passes_ext registry world self self' _ _ _ _ (Hcall image_bytes)) in Hloop.
    rewrite Hloop in Hloop'. injection Hloop' as <- <-.
    rewrite synthesis_stage_eq in Hstage, Hstage'. rewrite Hsyn in Hstage.
    rewrite Hstage in Hstage'. injection Hstage' as <- <-.
    reflexivity.
  - rewrite (comprehensive_analysis_raises registry world self png_path model_id n e Hpre).
    rewrite (comprehensive_analysis_raises registry world self' png_path model_id n e Hpre).
    reflexivity.
Qed.

(** Property X16. The key of the other service is never read. For
    analyzers built by [__init__] in the same environment, a run for a
    model of provider ['gemini'] (or for a model that is not in the table)
    has the same result and the same events whatever OpenRouter key was
    given, and a run for a model of provider ['openrouter'] has the same
    result and the same events whatever Gemini key was given. *)
Theorem X16_key_of_the_other_service_is_not_used
    (registry : gmap string ModelDescriptor) (world : World)
    (gemini_key gemini_key' : string) (openrouter_key openrouter_key' : option string)
    (png_path model_id : string) (n : nat) :
  (provider_of registry model_id = "gemini" ->
     comprehensive_analysis registry world (__init__ world gemini_key openrouter_key)
       png_path model_id n
     = comprehensive_analysis registry world (__init__ world gemini_key openrouter_key')
         png_path model_id n)
  /\ (provider_of registry model_id = "openrouter" ->
        comprehensive_analysis registry world (__init__ world gemini_key openrouter_key)
          png_path model_id n
        = comprehensive_analysis registry world (__init__ world gemini_key' openrouter_key)
            png_path model_id n).
Proof.
  split; intros Hp; apply comprehensive_analysis_ext;
    try reflexivity; intros image_bytes prompt k; rewrite Hp; reflexivity.
Qed.

(** A Gemini run with and without a key for OpenRouter; an OpenRouter run
    with two different Gemini keys. *)
Lemma X16_key_of_the_other_service_is_not_used_witness :
  Demo.run Demo.flaky None "sketch.png" "gemini-2.5-flash"
  = Demo.run Demo.flaky (Some "sk-or-demo") "sketch.png" "gemini-2.5-flash"
  /\ comprehensive_analysis MODELS Demo.flaky (__init__ Demo.flaky "AIza-demo" (Some "sk"))
       "sketch.png" "deepseek/deepseek-r1" 0
     = comprehensive_analysis MODELS Demo.flaky (__init__ Demo.flaky "AIza-other" (Some "sk"))
         "sketch.png" "deepseek/deepseek-r1" 0.
Proof.
  split.
  - apply (proj1 (X16_key_of_the_other_service_is_not_used MODELS Demo.flaky
                    "AIza-demo" "AIza-demo" None (Some "sk-or-demo") "sketch.png"
                    "gemini-2.5-flash" 0)).
    vm_compute. reflexivity.
  - apply (proj2 (X16_key_of_the_other_service_is_not_used MODELS Demo.flaky
                    "AIza-demo" "AIza-other" (Some "sk") (Some "sk") "sketch.png"
                    "deepseek/deepseek-r1" 0)).
    vm_compute. reflexivity.
Defined.

(** *** The console lines of a run *)

Lemma prints_of_app (a b : list Event) :
  prints_of (a ++ b) = prints_of a ++ prints_of b.
Proof.
  induction a as [|[line|seconds|req] a IH]; cbn [app prints_of];
    [reflexivity | rewrite IH; reflexivity | assumption..].
Qed.

Lemma prints_of_sent (l : list Request) : prints_of (map Send l) = [].
Proof. induction l as [|req l IH]; cbn [map prints_of]; [reflexivity | exact IH]. Qed.

Lemma pause_prints (idx total_passes : nat) : prints_of (pause idx total_passes) = [].
Proof. unfold pause. destruct (idx <? total_passes)%nat; reflexivity. Qed.

(** The loop prints, for each pass in order, its banner and its outcome. *)
Lemma run_passes_prints registry world self provider image_bytes model_id total_passes
    (items : list (string * string)) :
  forall idx results n,
    prints_of (snd (run_passes registry world self provider image_bytes model_id
                      total_passes idx items results n))
    = pass_lines total_passes idx
        (outcomes registry world self provider image_bytes model_id n items).
Proof.
  induction items as [|[pass_name prompt] rest IH]; intros idx results n; [reflexivity|].
  destruct (run_passes_cons registry world self provider image_bytes model_id total_passes
              pass_name prompt rest idx results n)
    as (o & ievs & others & Hcall & -> & ->).
  cbn [snd prints_of outcomes]. rewrite Hcall. cbn [pass_lines].
  rewrite prints_of_app. cbn [prints_of]. rewrite prints_of_app, pause_prints, IH.
  replace ievs with (snd (invoke registry world self provider image_bytes prompt model_id n))
    by (rewrite Hcall; reflexivity).
  rewrite invoke_request, prints_of_sent. reflexivity.
Qed.

(** Property X17. The console output of a run that returns is exactly
    this: the three opening lines; for each pass, in order, its banner
    with its number and then the line that tells its outcome (complete,
    with the length of the answer, or failed, with the first 100
    characters of the error); the banner of the synthesis exactly when
    some pass answered; and the closing line with the number of stored
    analyses. Nothing else is printed. *)
Theorem X17_console_output_of_a_run
    (registry : gmap string ModelDescriptor) (world : World)
    (self : MultiModelCADAnalyzer) (png_path model_id : string) (n : nat)
    (image_bytes : list Byte.byte) (r : AnalysisResult) (evs : list Event) :
  fst (preprocess_image world self png_path 0) = Ok image_bytes ->
  comprehensive_analysis registry world self png_path model_id n = (Ok r, evs) ->
  prints_of evs
  = [ starting_line; model_line registry model_id; preprocessing_line ]
    ++ pass_lines (length (analysis_passes self)) 1
         (outcomes registry world self (provider_of registry model_id) image_bytes
            model_id n (analysis_passes self))
    ++ match analyses r with
       | [] => []
       | _ :: _ => [ synthesis_banner ]
       end
    ++ [ complete_line r ].
Proof.
  intros Hpre Hrun.
  destruct (comprehensive_analysis_shape _ _ _ _ _ _ _ _ Hrun)
    as (image_bytes' & loop_evs & syn_evs & Hpre' & Hloop & Hstage & ->).
  rewrite Hpre in Hpre'. injection Hpre' as <-.
  set (provider := provider_of registry model_id) in *.
  set (r1 := fold_left record_outcome _ _) in *.
  rewrite !prints_of_app. cbn [prints_of prelude_of app]. do 3 f_equal.
  f_equal.
  - replace loop_evs with
      (snd (run_passes registry world self provider image_bytes model_id
              (length (analysis_passes self)) 1 (analysis_passes self)
              (fresh_results registry png_path model_id) n))
      by (rewrite Hloop; reflexivity).
    apply run_passes_prints.
  - f_equal.
    destruct (synthesis_stage_spec registry world self model_id provider image_bytes r1
                (sends loop_evs + n)) as (r' & syn_evs' & Hstage' & _ & _ & _ & Han & _).
    rewrite Hstage in Hstage'. injection Hstage' as <- <-. rewrite Han.
    destruct (synthesis_stage_events registry world self provider image_bytes model_id r1
                (sends loop_evs + n)) as [l Hl].
    rewrite Hstage in Hl. cbn [snd] in Hl. rewrite Hl.
    destruct (analyses r1); [reflexivity|].
    cbn [prints_of]. rewrite prints_of_sent. reflexivity.
Qed.

(** The run in which the second pass and the synthesis fail: fifteen
    lines, the seventh telling the failure of the second pass. *)
Lemma X17_console_output_of_a_run_witness :
  let o := Demo.run Demo.flaky None "sketch.png" "gemini-2.5-flash" in
  length (prints_of (snd o)) = 15
  /\ nth_error (prints_of (snd o)) 6
     = Some (pass_failed_line "technical" (str_exn Demo.overloaded))
  /\ nth_error (prints_of (snd o)) 13 = Some synthesis_banner.
Proof.
  intros o.
  rewrite (X17_console_output_of_a_run MODELS Demo.flaky
             (__init__ Demo.flaky "AIza-demo" None) "sketch.png" "gemini-2.5-flash" 0
             [Byte.x47; Byte.x49; Byte.x46] (Demo.result_of o) (snd o)).
  - vm_compute. repeat split; reflexivity.
  - vm_compute. reflexivity.
  - vm_compute. reflexivity.
Defined.

(** ** The passes, the synthesis and the errors of a run *)

(** *** An adapter call, by the request it sends *)

(** The adapter call of a pass sends the request of its provider and ends
    as the remote side answers it; without a request it raises at once. *)
Lemma invoke_eq registry world self provider image_bytes model_id (prompt : string)
    (k : nat) :
  invoke registry world self provider image_bytes prompt model_id k
  = match request_for registry self provider image_bytes model_id prompt with
    | Some req => (respond world k req, [Send req])
    | None =>
        (Raise (if String.eqb provider "openrouter" then missing_key
                else unknown_provider provider), [])
    end.
Proof.
  unfold invoke, request_for.
  destruct (String.eqb provider "gemini"); [reflexivity|].
  destruct (String.eqb provider "openrouter"); [|reflexivity].
  unfold analyze_with_openrouter.
  destruct (openrouter_api_key self) as [[|c key]|]; reflexivity.
Qed.

(** Whether the adapter sends a request does not depend on the prompt. *)
Lemma request_for_any registry self provider image_bytes model_id (prompt prompt' : string)
    (req : Request) :
  request_for registry self provider image_bytes model_id prompt = Some req ->
  (provider = "gemini" \/ provider = "openrouter")
  /\ exists req', request_for registry self provider image_bytes model_id prompt' = Some req'.
Proof.
  unfold request_for.
  destruct (String.eqb_spec provider "gemini") as [Hg|Hg].
  { intros _. split; [left; exact Hg | eexists; reflexivity]. }
  destruct (String.eqb_spec provider "openrouter") as [Ho|Ho]; [|discriminate].
  destruct (openrouter_api_key self) as [key|]; [|discriminate].
  destruct (truthy_str key); [|discriminate].
  intros _. split; [right; exact Ho | eexists; reflexivity].
Qed.

(** Every outcome is how the adapter call for some prompt ended. *)
Lemma outcomes_In registry world self provider image_bytes model_id
    (items : list (string * string)) (pass_name : string) (o : Result (option string)) :
  forall n,
    In (pass_name, o) (outcomes registry world self provider image_bytes model_id n items) ->
    exists prompt k,
      In (pass_name, prompt) items
      /\ fst (invoke registry world self provider image_bytes prompt model_id k) = o.
Proof.
  induction items as [|[name prompt] rest IH]; intros n; cbn [outcomes]; [intros []|].
  destruct (invoke registry world self provider image_bytes prompt model_id n)
    as [r ievs] eqn:Hcall.
  intros [Heq|Hin].
  - injection Heq as <- <-. exists prompt, n. split; [left; reflexivity|].
    rewrite Hcall. reflexivity.
  - destruct (IH _ Hin) as (prompt' & k & Hitem & Hk).
    exists prompt', k. split; [right; exact Hitem | exact Hk].
Qed.

(** The passes send as many requests as they have. *)
Lemma requests_of_passes_length registry world self provider image_bytes model_id
    (items : list (string * string)) :
  forall n,
    requests_of_passes registry world self provider image_bytes model_id n items
    = length (omap (fun item => request_for registry self provider image_bytes model_id
                                  (snd item)) items).
Proof.
  induction items as [|[name prompt] rest IH]; intros n; [reflexivity|].
  cbn [requests_of_passes omap list_omap snd]. rewrite invoke_eq.
  destruct (request_for registry self provider image_bytes model_id prompt) as [req|];
    cbn [sends length]; rewrite IH; reflexivity.
Qed.

(** *** Names stored and names recorded *)

(** When no pass is answered [None], the names stored and the names
    recorded share the names of the passes between them. *)
Lemma successes_failures_split (os : list (string * Result (option string))) :
  (forall pass_name, ~ In (pass_name, Ok None) os) ->
  Permutation (keys (successes os) ++ map failed_pass (failures os)) (keys os).
Proof.
  induction os as [|[name [[text|]|e]] rest IH]; intros Hall; cbn.
  - constructor.
  - apply perm_skip. apply IH. intros p Hin. apply (Hall p). right. exact Hin.
  - exfalso. apply (Hall name). left. reflexivity.
  - apply Permutation_sym, Permutation_cons_app, Permutation_sym.
    apply IH. intros p Hin. apply (Hall p). right. exact Hin.
Qed.

(** A subsequence that is as long as the whole is the whole. *)
Lemma sublist_full {A} (l1 l2 : list A) :
  sublist l1 l2 -> length l2 <= length l1 -> l1 = l2.
Proof.
  induction 1 as [|x l1 l2 Hsub IH|x l1 l2 Hsub IH]; cbn [length]; intros Hlen.
  - reflexivity.
  - f_equal. apply IH. lia.
  - apply sublist_length in Hsub. lia.
Qed.

(** A subsequence of a list without duplicates has none. *)
Lemma NoDup_sublist {A} (l1 l2 : list A) :
  sublist l1 l2 -> List.NoDup l2 -> List.NoDup l1.
Proof.
  intros Hsub Hnd. apply NoDup_ListNoDup.
  eapply sublist_NoDup; [|exact Hsub]. apply NoDup_ListNoDup. exact Hnd.
Qed.

(** A name is stored when its call returned, and recorded when its pass
    met an error. *)
Lemma In_keys_successes (os : list (string * Result (option string))) (p : string) :
  In p (keys (successes os)) <-> exists answer, In (p, Ok answer) os.
Proof.
  unfold keys. rewrite in_map_iff. split.
  - intros ([name answer] & <- & Hin). exists answer. apply successes_In. exact Hin.
  - intros (answer & Hin). exists (p, answer). split; [reflexivity|].
    apply successes_In. exact Hin.
Qed.

Lemma In_failed_passes (os : list (string * Result (option string))) (p : string) :
  In p (map failed_pass (failures os))
  <-> exists o e, In (p, o) os /\ error_of o = Some e.
Proof.
  rewrite in_map_iff. split.
  - intros ([name msg] & <- & Hin). apply failures_In in Hin.
    destruct Hin as (o & e & Hin & He & _). exists o, e. split; assumption.
  - intros (o & e & Hin & He).
    exists {| failed_pass := p; failed_error := str_exn e |}. split; [reflexivity|].
    apply failures_In. exists o, e. repeat split; assumption.
Qed.

(** The names that are both stored and recorded are those of the passes
    that were answered [None]. *)
Lemma stored_and_recorded (os : list (string * Result (option string))) (p : string) :
  List.NoDup (keys os) ->
  In p (keys (successes os)) /\ In p (map failed_pass (failures os))
  <-> In (p, Ok None) os.
Proof.
  intros Hnd. rewrite In_keys_successes, In_failed_passes. split.
  - intros [(answer & Hin) (o & e & Hin' & He)].
    apply (dict_get_In p (Ok answer) os Hnd) in Hin as Hget.
    apply (dict_get_In p o os Hnd) in Hin'.
    rewrite Hget in Hin'. injection Hin' as <-.
    destruct answer as [text|]; [discriminate | exact Hin].
  - intros Hin. split; [exists None; exact Hin|].
    exists (Ok None), no_len. split; [exact Hin | reflexivity].
Qed.

(** Claim C3, where the code departs from it. In the result of a run,
    every pass is in [analyses] or in [errors], and neither holds another
    name or a name twice; but the two are not disjoint. The loop stores
    the answer of the adapter before it takes its length for the console
    line, so a pass that is answered [None] is stored in [analyses] (with
    the value [None]) and then, [len(None)] raising [TypeError], recorded
    in [errors] as well. The names in both are exactly those of the passes
    answered [None]; only in a run without such an answer are [analyses]
    and [errors] a partition of the five passes. *)
Theorem C3_pass_answered_None_is_in_both
    (registry : gmap string ModelDescriptor) (world : World)
    (gemini_key : string) (openrouter_key : option string)
    (png_path model_id : string) (n : nat) (image_bytes : list Byte.byte)
    (r : AnalysisResult) (evs : list Event) :
  let self := __init__ world gemini_key openrouter_key in
  let os := outcomes registry world self (provider_of registry model_id) image_bytes
              model_id n (analysis_passes self) in
  fst (preprocess_image world self png_path 0) = Ok image_bytes ->
  comprehensive_analysis registry world self png_path model_id n = (Ok r, evs) ->
  (forall p, In p pass_names ->
             In p (keys (analyses r)) \/ In p (map failed_pass (errors r)))
  /\ (forall p, In p (keys (analyses r)) \/ In p (map failed_pass (errors r)) ->
                In p pass_names)
  /\ List.NoDup (keys (analyses r))
  /\ List.NoDup (map failed_pass (errors r))
  /\ length (analyses r) <= 5
  /\ (forall p, In p (keys (analyses r)) /\ In p (map failed_pass (errors r))
                <-> In (p, Ok None) os)
  /\ (forall p, In (p, Ok None) os ->
                dict_get p (analyses r) = Some None
                /\ In {| failed_pass := p;
                         failed_error := "object of type 'NoneType' has no len()" |}
                      (errors r))
  /\ ((forall p, ~ In (p, Ok None) os) ->
      Permutation (keys (analyses r) ++ map failed_pass (errors r)) pass_names
      /\ (forall p, In p (keys (analyses r)) -> ~ In p (map failed_pass (errors r)))
      /\ length (analyses r) + length (errors r) = 5).
Proof.
  intros self os Hpre Hrun.
  destruct (init_run registry world gemini_key openrouter_key png_path model_id n
              image_bytes Hpre)
    as (r' & evs' & Hrun' & Hkeys & _ & _ & _ & Han & Herr & _).
  fold self os in Hrun', Hkeys, Han, Herr.
  rewrite Hrun in Hrun'. injection Hrun' as <- <-.
  assert (Hnd : List.NoDup (keys os)) by (rewrite Hkeys; apply pass_names_NoDup).
  assert (Hsub1 : sublist (keys (analyses r)) pass_names).
  { rewrite Han, <- Hkeys. apply successes_sublist. }
  assert (Hsub2 : sublist (map failed_pass (errors r)) pass_names).
  { rewrite Herr, <- Hkeys. apply failures_sublist. }
  assert (Hin_sub : forall (l : list string) p, sublist l pass_names -> In p l ->
                                                In p pass_names).
  { intros l p Hsub Hin. apply list_elem_of_In. eapply elem_of_sublist; [|exact Hsub].
    apply list_elem_of_In. exact Hin. }
  split.
  { intros p Hp. rewrite Han, Herr. rewrite <- Hkeys in Hp.
    unfold keys in Hp. apply in_map_iff in Hp. destruct Hp as ([name o] & <- & Hin).
    cbn [fst]. destruct o as [answer|e].
    - left. apply In_keys_successes. exists answer. exact Hin.
    - right. apply In_failed_passes. exists (Raise e), e. split; [exact Hin | reflexivity]. }
  split.
  { intros p [Hp|Hp]; [exact (Hin_sub _ p Hsub1 Hp) | exact (Hin_sub _ p Hsub2 Hp)]. }
  split; [eapply NoDup_sublist; [exact Hsub1 | apply pass_names_NoDup]|].
  split; [eapply NoDup_sublist; [exact Hsub2 | apply pass_names_NoDup]|].
  split.
  { apply sublist_length in Hsub1. unfold keys in Hsub1. rewrite length_map in Hsub1.
    exact Hsub1. }
  split; [intros p; rewrite Han, Herr; apply stored_and_recorded; exact Hnd|].
  split.
  { intros p Hin. split.
    - rewrite Han. apply (dict_get_In p None (successes os)).
      + eapply NoDup_sublist; [apply successes_sublist | exact Hnd].
      + apply successes_In. exact Hin.
    - rewrite Herr. apply failures_In. exists (Ok None), no_len.
      split; [exact Hin|]. split; reflexivity. }
  intros Hall.
  assert (Hperm : Permutation (keys (analyses r) ++ map failed_pass (errors r)) pass_names).
  { rewrite Han, Herr, <- Hkeys. apply successes_failures_split. exact Hall. }
  split; [exact Hperm|]. split.
  - apply NoDup_app_disjoint.
    apply Permutation_NoDup with (l := pass_names);
      [apply Permutation_sym; exact Hperm | apply pass_names_NoDup].
  - apply Permutation_length in Hperm. unfold keys in Hperm.
    rewrite length_app, !length_map in Hperm. exact Hperm.
Qed.

(** The second pass is answered [None]: ["technical"] is among the five
    names of [analyses] and is the one name of [errors]. *)
Lemma C3_pass_answered_None_is_in_both_witness :
  let r := Demo.result_of (Demo.run Demo.tacit None "drawing.png" "gemini-2.5-flash") in
  keys (analyses r) = pass_names
  /\ map failed_pass (errors r) = ["technical"]
  /\ In "technical" (keys (analyses r)) /\ In "technical" (map failed_pass (errors r))
  /\ dict_get "technical" (analyses r) = Some None
  /\ length (analyses r) + length (errors r) = 6.
Proof.
  intros r.
  split; [reflexivity|]. split; [reflexivity|].
  destruct (C3_pass_answered_None_is_in_both MODELS Demo.tacit "AIza-demo" None
              "drawing.png" "gemini-2.5-flash" 0
              [Byte.x89; Byte.x50; Byte.x4e; Byte.x47] r
              (snd (Demo.run Demo.tacit None "drawing.png" "gemini-2.5-flash")))
    as (_ & _ & _ & _ & _ & Hboth & Hnone & _).
  - vm_compute. reflexivity.
  - vm_compute. reflexivity.
  - assert (Hin : In ("technical", Ok None)
                    (outcomes MODELS Demo.tacit (__init__ Demo.tacit "AIza-demo" None)
                       (provider_of MODELS "gemini-2.5-flash")
                       [Byte.x89; Byte.x50; Byte.x4e; Byte.x47] "gemini-2.5-flash" 0
                       (analysis_passes (__init__ Demo.tacit "AIza-demo" None)))).
    { vm_compute. right. left. reflexivity. }
    destruct (proj2 (Hboth "technical") Hin) as [H1 H2].
    destruct (Hnone "technical" Hin) as [Hget _].
    split; [exact H1|]. split; [exact H2|]. split; [exact Hget|]. reflexivity.
Defined.

(** Claim C4, where the code departs from it. The synthesis is attempted
    exactly when [analyses] is not empty, that is, when the adapter call
    of some pass returned. Attempted means: the banner is printed, the
    adapter is asked once more, with the synthesis prompt made of the
    stored analyses, right after the requests of the passes, and the
    summary is made of what it answers (or of the error it raises). When
    [analyses] is empty there is no banner, no request beyond those of the
    passes, and the summary is empty. But a pass that is answered [None]
    is stored in [analyses] although it fails and is recorded in
    [errors]: such a pass alone makes the synthesis run, even when no pass
    succeeded. *)
Theorem C4_synthesis_iff_an_answer_is_stored
    (registry : gmap string ModelDescriptor) (world : World)
    (gemini_key : string) (openrouter_key : option string)
    (png_path model_id : string) (n : nat) (image_bytes : list Byte.byte)
    (r : AnalysisResult) (evs : list Event) :
  let self := __init__ world gemini_key openrouter_key in
  let provider := provider_of registry model_id in
  let os := outcomes registry world self provider image_bytes model_id n
              (analysis_passes self) in
  let pass_requests :=
    omap (fun item => request_for registry self provider image_bytes model_id (snd item))
         (analysis_passes self) in
  fst (preprocess_image world self png_path 0) = Ok image_bytes ->
  comprehensive_analysis registry world self png_path model_id n = (Ok r, evs) ->
  (analyses r <> [] <-> exists pass_name answer, In (pass_name, Ok answer) os)
  /\ (analyses r = [] ->
        ~ In (Print synthesis_banner) evs
        /\ requests_of evs = pass_requests
        /\ summary r = empty_summary)
  /\ (analyses r <> [] ->
        exists req,
          request_for registry self provider image_bytes model_id
            (synthesis_prompt_of (analyses r)) = Some req
          /\ In (Print synthesis_banner) evs
          /\ requests_of evs = pass_requests ++ [req]
          /\ summary r = match respond world (length pass_requests + n) req with
                         | Ok answer => synthesis_summary (analyses r) answer
                         | Raise e => synthesis_fallback e
                         end)
  /\ (forall pass_name,
        In (pass_name, Ok None) os ->
        analyses r <> [] /\ In pass_name (map failed_pass (errors r)))
  /\ ((forall pass_name, In pass_name pass_names -> In (pass_name, Ok None) os) ->
        map failed_pass (errors r) = pass_names /\ In (Print synthesis_banner) evs).
Proof.
  intros self provider os pass_requests Hpre Hrun.
  destruct (init_run registry world gemini_key openrouter_key png_path model_id n
              image_bytes Hpre)
    as (r' & evs' & Hrun' & Hkeys & _ & _ & _ & Han & Herr & Hbanner & Hnone & Hsome & _).
  fold self provider in Hrun', Hkeys, Han, Herr, Hbanner, Hnone, Hsome.
  fold os in Hkeys, Han, Herr, Hbanner, Hnone, Hsome.
  rewrite Hrun in Hrun'. injection Hrun' as <- <-.
  pose proof (comprehensive_analysis_requests registry world self png_path model_id n
                image_bytes r evs Hpre Hrun) as Hreq.
  cbv zeta in Hreq. fold provider pass_requests in Hreq.
  rewrite (requests_of_passes_length registry world self provider image_bytes model_id
             (analysis_passes self) n) in Hsome.
  fold pass_requests in Hsome.
  assert (Hiff : analyses r <> [] <-> exists pass_name answer, In (pass_name, Ok answer) os).
  { rewrite Han. apply successes_nonempty. }
  assert (Hattempt : analyses r <> [] -> In (Print synthesis_banner) evs).
  { intros Hne. apply Hbanner. rewrite <- Han. exact Hne. }
  split; [exact Hiff|]. split.
  { intros Hnil. split.
    - intros Hin. apply Hbanner in Hin. apply Hin. rewrite <- Han. exact Hnil.
    - rewrite Hnil in Hreq. rewrite app_nil_r in Hreq. split; [exact Hreq|].
      apply Hnone. rewrite <- Han. exact Hnil. }
  split.
  { intros Hne.
    destruct (proj1 Hiff Hne) as (pass_name & answer & Hin).
    destruct (outcomes_In _ _ _ _ _ _ _ _ _ _ Hin) as (prompt & k & _ & Hcall).
    rewrite invoke_eq in Hcall.
    destruct (request_for registry self provider image_bytes model_id prompt)
      as [req0|] eqn:Hreq0; [|discriminate].
    destruct (request_for_any registry self provider image_bytes model_id prompt
                (synthesis_prompt_of (analyses r)) req0 Hreq0) as (Hp & req & Hsyn).
    exists req. split; [exact Hsyn|]. split; [exact (Hattempt Hne)|].
    split.
    { rewrite Hreq, Hsyn. destruct (analyses r); [congruence | reflexivity]. }
    destruct Hsome as (sevs & Hgen & _); [rewrite <- Han; exact Hne|].
    rewrite <- Han in Hgen. rewrite _generate_synthesis_eq in Hgen.
    assert (Hinv : invoke_synthesis registry world self provider image_bytes
                     (synthesis_prompt_of (analyses r)) model_id (length pass_requests + n)
                   = (respond world (length pass_requests + n) req, [Send req])).
    { transitivity (invoke registry world self provider image_bytes
                      (synthesis_prompt_of (analyses r)) model_id
                      (length pass_requests + n)).
      - unfold invoke_synthesis, invoke.
        destruct (String.eqb provider "gemini") eqn:Hg; [reflexivity|].
        destruct Hp as [Hp|Hp]; rewrite Hp in Hg |- *; [discriminate | reflexivity].
      - rewrite invoke_eq, Hsyn. reflexivity. }
    rewrite Hinv in Hgen.
    destruct (respond world (length pass_requests + n) req) as [answer'|e];
      injection Hgen as <- _; reflexivity. }
  assert (Hfailed : forall pass_name, In (pass_name, Ok None) os ->
                                      In pass_name (map failed_pass (errors r))).
  { intros pass_name Hin. rewrite Herr. apply In_failed_passes.
    exists (Ok None), no_len. split; [exact Hin | reflexivity]. }
  split.
  { intros pass_name Hin. split; [|exact (Hfailed pass_name Hin)].
    apply Hiff. exists pass_name, None. exact Hin. }
  intros Hall. split.
  - assert (Hsub : sublist (map failed_pass (errors r)) pass_names).
    { rewrite Herr, <- Hkeys. apply failures_sublist. }
    apply sublist_length in Hsub as Hlen.
    assert (Hinc : forall p, In p pass_names -> In p (map failed_pass (errors r))).
    { intros p Hp. apply Hfailed, Hall, Hp. }
    assert (Hnd : List.NoDup (map failed_pass (errors r))).
    { eapply NoDup_sublist; [exact Hsub | apply pass_names_NoDup]. }
    apply sublist_full; [exact Hsub|].
    apply NoDup_incl_length; [apply pass_names_NoDup | exact Hinc].
  - apply Hattempt, Hiff. exists "overview", None. apply Hall. left. reflexivity.
Qed.

(** No pass is answered with a text: the five passes are in [errors], and
    yet the synthesis is attempted, with the sixth request. *)
Lemma C4_synthesis_iff_an_answer_is_stored_witness :
  let o := Demo.run Demo.blank None "drawing.png" "gemini-2.5-flash" in
  map failed_pass (errors (Demo.result_of o)) = pass_names
  /\ In (Print synthesis_banner) (snd o)
  /\ length (requests_of (snd o)) = 6
  /\ summary (Demo.result_of o)
     = synthesis_summary (analyses (Demo.result_of o)) (Some "Nothing to report.").
Proof.
  intros o.
  destruct (C4_synthesis_iff_an_answer_is_stored MODELS Demo.blank "AIza-demo" None
              "drawing.png" "gemini-2.5-flash" 0
              [Byte.x89; Byte.x50; Byte.x4e; Byte.x47] (Demo.result_of o) (snd o))
    as (_ & _ & Hsome & _ & Hall).
  - vm_compute. reflexivity.
  - vm_compute. reflexivity.
  - destruct Hall as [Herrors Hbanner].
    { intros pass_name Hin. vm_compute.
      repeat (destruct Hin as [<-|Hin]; [tauto|]). destruct Hin. }
    split; [exact Herrors|]. split; [exact Hbanner|].
    destruct Hsome as (req & _ & _ & Hreq & Hsum); [vm_compute; discriminate|].
    split; [rewrite Hreq; rewrite length_app; reflexivity|].
    rewrite Hsum.
    assert (Hanswer : forall req', respond Demo.blank 5 req' = Ok (Some "Nothing to report."))
      by reflexivity.
    change (length _ + 0) with 5. rewrite Hanswer. reflexivity.
Defined.

(** *** What stops a run *)

Lemma take_str_idem (k : nat) (s : string) : take_str k (take_str k s) = take_str k s.
Proof.
  unfold take_str. revert s.
  induction k as [|k IH]; intros s; destruct s as [|c s]; simpl; try reflexivity.
  f_equal. apply IH.
Qed.

(** Claim C5, where the code departs from it. An error raised by the
    adapter call of a pass never leaves the run: the run returns, all five
    passes are started, and the pass is in [errors] with its name and the
    whole text of the error, while the console line shows at most its
    first 100 characters. What leaves [comprehensive_analysis] is every
    error of [preprocess_image], and nothing else: the error of
    [Image.open] for an image that cannot be opened, but also, for an
    image that can be opened (with positive sides below 2^31), the
    [ValueError] of [img.resize] when the image is thin: if the longer side exceeds 4096 and is more than 4096
    times the shorter side, [int(dim * ratio)] is [0] for the shorter
    side, the resize is refused, and the run stops before the first
    pass. An image whose longer side is at most 4096, or less than 4096
    times the shorter side, never stops the run. *)
Theorem C5_thin_image_stops_the_run
    (registry : gmap string ModelDescriptor) (world : World)
    (gemini_key : string) (openrouter_key : option string)
    (png_path model_id : string) (n : nat) :
  let self := __init__ world gemini_key openrouter_key in
  let run := comprehensive_analysis registry world self png_path model_id n in
  match fst (preprocess_image world self png_path 0) with
  | Raise e => run = (Raise e, prelude_of registry model_id)
  | Ok image_bytes =>
      let os := outcomes registry world self (provider_of registry model_id) image_bytes
                  model_id n (analysis_passes self) in
      exists r evs,
        run = (Ok r, evs)
        /\ keys os = pass_names
        /\ (forall i pass_name,
              nth_error pass_names i = Some pass_name ->
              In (Print (pass_banner (1 + i) 5 pass_name)) evs)
        /\ errors r = failures os
        /\ (forall pass_name e,
              In (pass_name, Raise e) os ->
              In {| failed_pass := pass_name; failed_error := str_exn e |} (errors r)
              /\ ~ In pass_name (keys (analyses r))
              /\ In (Print (pass_failed_line pass_name (str_exn e))) evs
              /\ pass_failed_line pass_name (str_exn e)
                 = pass_failed_line pass_name (take_str 100 (str_exn e)))
  end
  /\ (forall e, image_open world png_path = Raise e ->
                run = (Raise e, prelude_of registry model_id))
  /\ (forall img,
        image_open world png_path = Ok img ->
        (0 < fst (size img) < 2 ^ 31)%Z ->
        (0 < snd (size img) < 2 ^ 31)%Z ->
        ((4096 < longer_side (size img))%Z ->
         (4096 * Z.min (fst (size img)) (snd (size img)) < longer_side (size img))%Z ->
         run = (Raise resize_error, prelude_of registry model_id))
        /\ ((longer_side (size img) <= 4096
             \/ longer_side (size img) < 4096 * Z.min (fst (size img)) (snd (size img)))%Z ->
            exists r evs, run = (Ok r, evs))
        /\ (forall e, fst run = Raise e ->
              e = resize_error
              /\ exists new_size,
                   new_size_of (size img) = Ok new_size /\ empty_size new_size = true)).
Proof.
  intros self run.
  assert (Hraises : forall e, fst (preprocess_image world self png_path 0) = Raise e ->
                              run = (Raise e, prelude_of registry model_id)).
  { intros e Hpre. apply comprehensive_analysis_raises. exact Hpre. }
  assert (Hreturns : forall image_bytes,
            fst (preprocess_image world self png_path 0) = Ok image_bytes ->
            exists r evs, run = (Ok r, evs)).
  { intros image_bytes Hpre.
    destruct (init_run registry world gemini_key openrouter_key png_path model_id n
                image_bytes Hpre) as (r & evs & Hrun & _).
    exists r, evs. exact Hrun. }
  split; [|split].
  - destruct (fst (preprocess_image world self png_path 0)) as [image_bytes|e] eqn:Hpre;
      [|apply Hraises; reflexivity].
    intros os.
    destruct (init_run registry world gemini_key openrouter_key png_path model_id n
                image_bytes Hpre)
      as (r & evs & Hrun & Hkeys & _ & _ & _ & Han & Herr & _ & _ & _ & Hban & Hline).
    fold self os in Hrun, Hkeys, Han, Herr, Hban, Hline.
    exists r, evs.
    split; [exact Hrun|]. split; [exact Hkeys|]. split; [exact Hban|].
    split; [exact Herr|].
    intros pass_name e Hin. split.
    { rewrite Herr. apply failures_In. exists (Raise e), e.
      split; [exact Hin|]. split; reflexivity. }
    split.
    { rewrite Han. intros Hstored. apply In_keys_successes in Hstored.
      destruct Hstored as (answer & Hin').
      assert (Hnd : List.NoDup (keys os)) by (rewrite Hkeys; apply pass_names_NoDup).
      apply (dict_get_In pass_name (Raise e) os Hnd) in Hin.
      apply (dict_get_In pass_name (Ok answer) os Hnd) in Hin'.
      rewrite Hin in Hin'. discriminate. }
    split; [exact (Hline pass_name (Raise e) Hin)|].
    unfold pass_failed_line. rewrite take_str_idem. reflexivity.
  - intros e Hopen. apply Hraises.
    unfold preprocess_image. rewrite lift_bind, Hopen. reflexivity.
  - intros img Hopen Hw Hh.
    destruct (Z_le_gt_dec (longer_side (size img)) 4096) as [Hsmall|Hbig].
    + destruct (small_image_not_resized world self png_path img 0 Hopen Hsmall)
        as (out & Hpre & _).
      assert (Hpre' : fst (preprocess_image world self png_path 0)
                      = Ok (save world "PNG" 95 out)) by (rewrite Hpre; reflexivity).
      destruct (Hreturns _ Hpre') as (r & evs & Hrun).
      split; [intros Hgt; lia|]. split; [intros _; exists r, evs; exact Hrun|].
      intros e He. rewrite Hrun in He. discriminate.
    + destruct (large_image_cases world self png_path img 0 Hopen Hw Hh ltac:(lia))
        as (new_size & Hnew & _ & _ & _ & _ & _ & Hthin & Hfull & Hpre).
      split; [|split].
      * intros _ Hlt. apply Hraises. rewrite Hpre, (Hthin Hlt). reflexivity.
      * intros [Hle|Hwide]; [lia|].
        apply (Hreturns (save world "PNG" 95
                           {| mode := "RGB"; size := new_size;
                              raster := lanczos_raster world new_size
                                          (enhance world (float_lit 15 10)
                                             (to_rgb world img)) |})).
        rewrite Hpre, (Hfull Hwide). reflexivity.
      * intros e He. destruct (empty_size new_size) eqn:Hempty.
        -- rewrite (Hraises resize_error) in He by (rewrite Hpre; reflexivity).
           injection He as <-. split; [reflexivity|].
           exists new_size. split; [exact Hnew | exact Hempty].
        -- destruct (Hreturns _ ltac:(rewrite Hpre; reflexivity)) as (r & evs & Hrun).
           rewrite Hrun in He. discriminate.
Qed.

(** A strip of 5000 x 1 pixels stops the run with the [ValueError] of the
    resize, before the first pass, although the file is a sound image and
    every request would have been answered. In another run the second
    pass fails with a long message: [errors] keeps its 129 characters,
    the console shows 100 of them, and the other passes run. *)
Lemma C5_thin_image_stops_the_run_witness :
  let world := with_file "strip.png" strip Demo.all_fine in
  comprehensive_analysis MODELS world (__init__ world "AIza-demo" None) "strip.png"
    "gemini-2.5-flash" 0
  = (Raise (Exception "ValueError" "height and width must be > 0"),
     [ Print starting_line; Print (model_line MODELS "gemini-2.5-flash");
       Print preprocessing_line ])
  /\ let o := Demo.run Demo.flaky None "drawing.png" "gemini-2.5-flash" in
     In {| failed_pass := "technical"; failed_error := str_exn Demo.overloaded |}
        (errors (Demo.result_of o))
     /\ len (str_exn Demo.overloaded) = 129
     /\ In (Print (pass_failed_line "technical" (take_str 100 (str_exn Demo.overloaded))))
           (snd o)
     /\ In (Print (pass_banner 5 5 "quality")) (snd o).
Proof.
  intros world. split.
  - destruct (C5_thin_image_stops_the_run MODELS world "AIza-demo" None "strip.png"
                "gemini-2.5-flash" 0) as (_ & _ & Himg).
    destruct (Himg strip) as (Hthin & _ & _).
    + reflexivity.
    + cbn. lia.
    + cbn. lia.
    + apply Hthin; vm_compute; reflexivity.
  - intros o.
    destruct (C5_thin_image_stops_the_run MODELS Demo.flaky "AIza-demo" None
                "drawing.png" "gemini-2.5-flash" 0) as (H & _ & _).
    cbv zeta in H.
    assert (Hpre : fst (preprocess_image Demo.flaky (__init__ Demo.flaky "AIza-demo" None)
                          "drawing.png" 0)
                   = Ok [Byte.x89; Byte.x50; Byte.x4e; Byte.x47])
      by (vm_compute; reflexivity).
    rewrite Hpre in H.
    destruct H as (r & evs & Hrun & _ & Hban & _ & Hfail).
    assert (Ho : o = (Ok r, evs)) by exact Hrun.
    rewrite Ho.
    change (Demo.result_of (Ok r, evs)) with r. change (snd (Ok r, evs)) with evs.
    destruct (Hfail "technical" Demo.overloaded) as (Hrec & _ & Hline & Htrunc).
    { vm_compute. right. left. reflexivity. }
    split; [exact Hrec|]. split; [reflexivity|].
    split; [rewrite <- Htrunc; exact Hline|].
    apply (Hban 4 "quality"). reflexivity.
Defined.
